(** * Carbuying: entity resolver and intent-to-vehicle scoring engine

    A shallow embedding of [backend/data/normalize.py] (listing to master-car
    resolution and the batch pass over the listings),
    [backend/scoring_engine.py] (multi-factor scoring and the ranking),
    [backend/database.py] (the catalog and the reference lookup) and the
    refinement rules of [backend/intent_engine.py], with the part of Python's
    [difflib.SequenceMatcher] that [similarity_score] calls.

    Conventions of the embedding:
    - Python [int] is [Z]; Python [float] is an exact rational [Q], so every
      statement about scores reads over the rationals and rounding of binary
      floating point is outside the model;
    - Python [str] is [string], each character being the code point of its
      number, so a string holds code points below U+0100; [upper], [lower],
      [strip] and [title] are Python's on these, except that [upper] and
      [title] leave U+00B5, U+00DF and U+00FF as they are (their upper-case
      forms are not one code point below U+0100), so what depends on the
      letter case of these, or of a code point that a [string] cannot hold,
      is stated for ASCII strings ([pystr.is_ascii]);
    - [func.upper] is computed by the database, which the source does not
      fix (the URL comes from the environment): the queries take it as
      [sql_upper];
    - a [set] of tags is a [gset string], a [dict] is a [gmap];
    - an exception is a value of [exception] carried by the [result] monad;
    - an f-string message is a constructor of [message] holding the
      interpolated values. *)

From Stdlib Require Import ZArith QArith Qabs Qminmax Lqa Lia String Ascii List.
From Stdlib Require Import DecimalString.
From stdpp Require Import gmap strings list fin_maps sorting.

#[local] Set Warnings "-notation-for-abbreviation".

Local Open Scope Z_scope.

(** ** Python string primitives *)

Module pystr.

Definition code (c : ascii) : Z := Z.of_N (N_of_ascii c).
Definition chr (z : Z) : ascii := ascii_of_N (Z.to_N z).

Definition between (lo hi : Z) (c : ascii) : bool :=
  (lo <=? code c) && (code c <=? hi).

(** [c.isupper()] and [c.islower()] below U+0100: the ASCII letters, the
    letters of the Latin-1 supplement (U+00D7 and U+00F7 are the
    multiplication and division signs), and the three lower-case code
    points U+00AA, U+00B5 and U+00BA. *)
Definition is_upper (c : ascii) : bool :=
  between 65 90 c || between 192 214 c || between 216 222 c.
Definition is_lower (c : ascii) : bool :=
  between 97 122 c || (code c =? 170) || (code c =? 181) || (code c =? 186)
  || between 223 246 c || between 248 255 c.
Definition is_cased (c : ascii) : bool := is_upper c || is_lower c.

(** [str.isspace] below U+0100: TAB, LF, VT, FF, CR, FS, GS, RS, US, the
    space, NEL (U+0085) and the no-break space (U+00A0). *)
Definition is_space (c : ascii) : bool :=
  between 9 13 c || between 28 32 c || (code c =? 133) || (code c =? 160).

(** The lower-case letters whose upper-case form is one code point below
    U+0100. *)
Definition has_upper (c : ascii) : bool :=
  between 97 122 c || between 224 246 c || between 248 254 c.

Definition upper_char (c : ascii) : ascii :=
  if has_upper c then chr (code c - 32) else c.
Definition lower_char (c : ascii) : ascii :=
  if is_upper c then chr (code c + 32) else c.

(** The code points below U+0080. *)
Definition is_ascii_char (c : ascii) : bool := code c <? 128.
Fixpoint is_ascii (s : string) : bool :=
  match s with
  | EmptyString => true
  | String c s' => is_ascii_char c && is_ascii s'
  end.

Fixpoint map_chars (f : ascii -> ascii) (s : string) : string :=
  match s with
  | EmptyString => EmptyString
  | String c s' => String (f c) (map_chars f s')
  end.

(** [s.upper()] and [s.lower()] *)
Definition upper (s : string) : string := map_chars upper_char s.
Definition lower (s : string) : string := map_chars lower_char s.

Fixpoint lstrip (s : string) : string :=
  match s with
  | EmptyString => EmptyString
  | String c s' => if is_space c then lstrip s' else s
  end.

Fixpoint rstrip (s : string) : string :=
  match s with
  | EmptyString => EmptyString
  | String c s' =>
      match rstrip s' with
      | EmptyString => if is_space c then EmptyString else String c EmptyString
      | r => String c r
      end
  end.

(** [s.strip()] *)
Definition strip (s : string) : string := rstrip (lstrip s).

(** [s.title()]: a cased character is upper-cased when the previous
    character is not cased and lower-cased when it is. *)
Fixpoint title_from (previous_is_cased : bool) (s : string) : string :=
  match s with
  | EmptyString => EmptyString
  | String c s' =>
      if is_cased c
      then String (if previous_is_cased then lower_char c else upper_char c)
                  (title_from true s')
      else String c (title_from false s')
  end.
Definition title (s : string) : string := title_from false s.

(** [re.sub(r'\s+', ' ', s)]: every maximal run of white space becomes one
    space. *)
Fixpoint collapse_from (in_run : bool) (s : string) : string :=
  match s with
  | EmptyString => EmptyString
  | String c s' =>
      if is_space c
      then (if in_run then collapse_from true s'
            else String " "%char (collapse_from true s'))
      else String c (collapse_from false s')
  end.
Definition collapse_spaces (s : string) : string := collapse_from false s.

(** Truth value of a string: [not s] holds of the empty string only. *)
Definition truthy (s : string) : bool :=
  match s with EmptyString => false | String _ _ => true end.

End pystr.

(** ** [difflib.SequenceMatcher(None, a, b)]

    The matcher is created with [isjunk = None] and the default
    [autojunk = True], as [similarity_score] does.  Positions and sizes are
    Python integers, so they are in [Z]. *)

Module difflib.

Record Match := mkMatch { m_a : Z; m_b : Z; m_size : Z }.

Section SequenceMatcher.
Context {A : Type} `{Countable A}.
Variables a b : list A.

Definition item (l : list A) (i : Z) : option A :=
  if decide (0 <= i) then l !! Z.to_nat i else None.

Definition same_item (i j : Z) : bool :=
  match item a i, item b j with
  | Some x, Some y => bool_decide (x = y)
  | _, _ => false
  end.

(** [__chain_b], first loop: [b2j.setdefault(elt, []).append(i)] for
    [i, elt in enumerate(b)]. *)
Fixpoint chain_loop (rest : list A) (i : Z) (b2j : gmap A (list Z))
  : gmap A (list Z) :=
  match rest with
  | [] => b2j
  | elt :: rest' =>
      chain_loop rest' (i + 1) (<[elt := default [] (b2j !! elt) ++ [i]]> b2j)
  end.

(** [isjunk] is [None]: no element is junk. *)
Definition bjunk : gset A := ∅.
Definition isbjunk (o : option A) : bool :=
  match o with Some x => bool_decide (x ∈ bjunk) | None => false end.

(** [__chain_b], purge of the popular elements:
    [if self.autojunk and n >= 200], an element with more than
    [n // 100 + 1] positions is removed from [b2j]. *)
Definition chain_b : gmap A (list Z) :=
  let b2j := chain_loop b 0 ∅ in
  let n := Z.of_nat (length b) in
  if 200 <=? n then
    let ntest := n / 100 + 1 in
    filter (fun kv => ¬ (ntest < Z.of_nat (length kv.2))) b2j
  else b2j.

Definition b2j_get (o : option A) : list Z :=
  match o with
  | Some x => default [] (chain_b !! x)
  | None => []
  end.

(** Inner loop of [find_longest_match]:
    [for j in b2j.get(a[i], nothing)], with its [continue] below [blo]
    and its [break] from [bhi] on. *)
Fixpoint flm_inner (i blo bhi : Z) (js : list Z)
    (j2len newj2len : gmap Z Z) (best : Match) : gmap Z Z * Match :=
  match js with
  | [] => (newj2len, best)
  | j :: js' =>
      if j <? blo then flm_inner i blo bhi js' j2len newj2len best
      else if bhi <=? j then (newj2len, best)
      else
        let k := default 0 (j2len !! (j - 1)) + 1 in
        flm_inner i blo bhi js' j2len (<[j := k]> newj2len)
          (if m_size best <? k then mkMatch (i - k + 1) (j - k + 1) k
           else best)
  end.

(** Outer loop: [for i in range(alo, ahi)]; [n] counts the rows left. *)
Fixpoint flm_outer (n : nat) (i blo bhi : Z) (j2len : gmap Z Z)
    (best : Match) : Match :=
  match n with
  | O => best
  | S n' =>
      let '(newj2len, best') :=
        flm_inner i blo bhi (b2j_get (item a i)) j2len ∅ best in
      flm_outer n' (i + 1) blo bhi newj2len best'
  end.

(** [while besti > alo and bestj > blo and (isbjunk(b[bestj-1]) is junk)
    and a[besti-1] == b[bestj-1]]; [n] bounds the iterations by
    [besti - alo]. *)
Fixpoint extend_back (n : nat) (junk : bool) (alo blo : Z) (m : Match)
  : Match :=
  match n with
  | O => m
  | S n' =>
      if (alo <? m_a m) && (blo <? m_b m)
         && eqb (isbjunk (item b (m_b m - 1))) junk
         && same_item (m_a m - 1) (m_b m - 1)
      then extend_back n' junk alo blo
             (mkMatch (m_a m - 1) (m_b m - 1) (m_size m + 1))
      else m
  end.

(** [while besti+bestsize < ahi and bestj+bestsize < bhi and ...];
    [n] bounds the iterations by [ahi - (besti + bestsize)]. *)
Fixpoint extend_fwd (n : nat) (junk : bool) (ahi bhi : Z) (m : Match)
  : Match :=
  match n with
  | O => m
  | S n' =>
      if (m_a m + m_size m <? ahi) && (m_b m + m_size m <? bhi)
         && eqb (isbjunk (item b (m_b m + m_size m))) junk
         && same_item (m_a m + m_size m) (m_b m + m_size m)
      then extend_fwd n' junk ahi bhi
             (mkMatch (m_a m) (m_b m) (m_size m + 1))
      else m
  end.

Definition back (junk : bool) (alo blo : Z) (m : Match) : Match :=
  extend_back (Z.to_nat (m_a m - alo)) junk alo blo m.
Definition fwd (junk : bool) (ahi bhi : Z) (m : Match) : Match :=
  extend_fwd (Z.to_nat (ahi - (m_a m + m_size m))) junk ahi bhi m.

(** [find_longest_match(alo, ahi, blo, bhi)] *)
Definition find_longest_match (alo ahi blo bhi : Z) : Match :=
  let m0 := flm_outer (Z.to_nat (ahi - alo)) alo blo bhi ∅
              (mkMatch alo blo 0) in
  let m1 := back false alo blo m0 in
  let m2 := fwd false ahi bhi m1 in
  let m3 := back true alo blo m2 in
  fwd true ahi bhi m3.

(** The work list of [get_matching_blocks]: a window gives its longest
    match and, when the match is not empty, the windows to its left and
    to its right.  The source keeps the pending windows in a stack and
    sorts the blocks afterwards; here a window's blocks are listed left
    part first.  [fuel] bounds the nesting of windows. *)
Fixpoint blocks (fuel : nat) (alo ahi blo bhi : Z) : list Match :=
  match fuel with
  | O => []
  | S fuel' =>
      let x := find_longest_match alo ahi blo bhi in
      let '(i, j, k) := (m_a x, m_b x, m_size x) in
      if k =? 0 then []
      else
        (if (alo <? i) && (blo <? j) then blocks fuel' alo i blo j else [])
        ++ x ::
        (if (i + k <? ahi) && (j + k <? bhi)
         then blocks fuel' (i + k) ahi (j + k) bhi else [])
  end.

Definition la : Z := Z.of_nat (length a).
Definition lb : Z := Z.of_nat (length b).

(** Every window nested in [(0, la, 0, lb)] is shorter than its parent,
    so [S (length a)] levels are enough. *)
Definition matching_blocks : list Match :=
  blocks (S (length a)) 0 la 0 lb.

Definition sum_sizes (l : list Match) : Z :=
  fold_right (fun x acc => m_size x + acc) 0 l.

(** [_calculate_ratio(matches, length)] *)
Definition calculate_ratio (matches length : Z) : Q :=
  if length =? 0 then 1%Q
  else (2 * inject_Z matches / inject_Z length)%Q.

(** [ratio()]: the sizes of the matching blocks are summed; the merge of
    adjacent blocks and the closing [(la, lb, 0)] block of
    [get_matching_blocks] leave that sum unchanged. *)
Definition ratio : Q :=
  calculate_ratio (sum_sizes matching_blocks) (la + lb).

End SequenceMatcher.

Definition ratio_str (s1 s2 : string) : Q :=
  ratio (list_ascii_of_string s1) (list_ascii_of_string s2).

End difflib.

(** ** Float comparisons and the exception monad *)

Module py.

Definition ltb (x y : Q) : bool :=
  match (x ?= y)%Q with Lt => true | _ => false end.
Definition leb (x y : Q) : bool :=
  match (x ?= y)%Q with Gt => false | _ => true end.

Inductive exception := ZeroDivisionError.

Inductive result (T : Type) :=
| Ok (v : T)
| Raise (e : exception).
Arguments Ok {T} v.
Arguments Raise {T} e.

Definition bind {T U : Type} (r : result T) (k : T -> result U) : result U :=
  match r with
  | Ok v => k v
  | Raise e => Raise e
  end.

(** [x / y] on numbers: division by zero raises. *)
Definition truediv (x y : Q) : result Q :=
  if Qeq_bool y 0 then Raise ZeroDivisionError else Ok (x / y)%Q.

(** [bool(o)] for an optional integer: [None] and [0] are false. *)
Definition truthy_int (o : option Z) : bool :=
  match o with Some n => negb (n =? 0) | None => false end.

(** [bool(o)] for an optional string: [None] and the empty string are
    false. *)
Definition truthy_str (o : option string) : bool :=
  match o with Some s => pystr.truthy s | None => false end.

End py.

#[global] Instance result_ret : MRet py.result := @py.Ok.
#[global] Instance result_bind : MBind py.result :=
  fun T U k r => py.bind r k.

(** ** backend/data/normalize.py *)

Module normalize.

Local Open Scope string_scope.

Definition MAKE_ALIASES : gmap string string :=
  list_to_map
    [ ("MERCEDES", "Mercedes-Benz");
      ("MERCEDES BENZ", "Mercedes-Benz");
      ("MERCEDES-BENZ", "Mercedes-Benz");
      ("MB", "Mercedes-Benz");
      ("VW", "Volkswagen");
      ("CHEVY", "Chevrolet");
      ("LAND ROVER", "Land Rover");
      ("LANDROVER", "Land Rover");
      ("ALFA ROMEO", "Alfa Romeo");
      ("ALFA", "Alfa Romeo");
      ("ASTON MARTIN", "Aston Martin");
      ("ROLLS ROYCE", "Rolls-Royce");
      ("ROLLS-ROYCE", "Rolls-Royce") ].

Definition MODEL_ALIASES : gmap string string :=
  list_to_map
    [ ("3 SERIES", "3 Series");
      ("4 SERIES", "4 Series");
      ("5 SERIES", "5 Series");
      ("7 SERIES", "7 Series");
      ("X3", "X3");
      ("X5", "X5");
      ("C CLASS", "C-Class");
      ("C-CLASS", "C-Class");
      ("E CLASS", "E-Class");
      ("E-CLASS", "E-Class");
      ("S CLASS", "S-Class");
      ("S-CLASS", "S-Class");
      ("GLC CLASS", "GLC-Class");
      ("GLC-CLASS", "GLC-Class");
      ("GLE CLASS", "GLE-Class");
      ("GLE-CLASS", "GLE-Class");
      ("CIVIC SI", "Civic Si");
      ("CIVIC TYPE R", "Civic Type R");
      ("MUSTANG GT", "Mustang") ].

Definition normalize_make (make : string) : string :=
  if negb (pystr.truthy make) then make
  else
    let upper_make := pystr.strip (pystr.upper make) in
    match MAKE_ALIASES !! upper_make with
    | Some canonical => canonical
    | None =>
        let normalized := pystr.title (pystr.strip make) in
        if String.eqb (pystr.upper normalized) "BMW" then "BMW"
        else if String.eqb (pystr.upper normalized) "GMC" then "GMC"
        else if String.eqb (pystr.upper normalized) "RAM" then "Ram"
        else if String.eqb (pystr.upper normalized) "MINI" then "MINI"
        else normalized
    end.

Definition normalize_model (model : string) : string :=
  if negb (pystr.truthy model) then model
  else
    let upper_model := pystr.strip (pystr.upper model) in
    match MODEL_ALIASES !! upper_model with
    | Some canonical => canonical
    | None => pystr.collapse_spaces (pystr.strip model)
    end.

Definition similarity_score (s1 s2 : string) : Q :=
  if negb (pystr.truthy s1) || negb (pystr.truthy s2) then 0%Q
  else difflib.ratio_str (pystr.upper s1) (pystr.upper s2).

(** A row of [cars_master]. *)
Record CarMaster := mkCarMaster {
  id : Z;
  make : string;
  model : string;
  year : Z;
  trim : option string
}.

(** The session is read through [select(CarMaster)] only: it is the list
    of the rows of [cars_master] in the order the database yields them. *)
Definition Session := list CarMaster.

Section Database.
(** [func.upper] of the where clauses is the [upper] of the database the
    session is bound to, not Python's [str.upper]; the engine comes from
    [DATABASE_URL], so it is a parameter of the queries. *)
Variable sql_upper : string -> string.

(** [func.upper(CarMaster.make) == normalized_make.upper()] and
    [CarMaster.year == year] *)
Definition make_year_clause (normalized_make : string) (yr : Z)
    (c : CarMaster) : bool :=
  String.eqb (sql_upper (make c)) (pystr.upper normalized_make)
  && (year c =? yr)%Z.

(** [func.upper(CarMaster.model) == normalized_model.upper()] *)
Definition model_clause (normalized_model : string) (c : CarMaster) : bool :=
  String.eqb (sql_upper (model c)) (pystr.upper normalized_model).

Definition exact_clause (normalized_make normalized_model : string) (yr : Z)
    (c : CarMaster) : bool :=
  String.eqb (sql_upper (make c)) (pystr.upper normalized_make)
  && model_clause normalized_model c
  && (year c =? yr)%Z.

(** The loop [for candidate in candidates] with its running
    [(best_match, best_score)]. *)
Definition fuzzy_step (normalized_model : string) (threshold : Q)
    (st : option CarMaster * Q) (candidate : CarMaster)
    : option CarMaster * Q :=
  let score := similarity_score normalized_model (model candidate) in
  if py.ltb st.2 score && py.leb threshold score
  then (Some candidate, score)
  else st.

Definition fuzzy_loop (normalized_model : string) (threshold : Q)
    (candidates : list CarMaster) : option CarMaster * Q :=
  fold_left (fuzzy_step normalized_model threshold) candidates (None, 0%Q).

(** [find_master_car(session, make, model, year, trim, threshold)]:
    [(master_car_id, confidence_score)] or [None]. *)
Definition find_master_car (session : Session) (mk mdl : string) (yr : Z)
    (trm : option string) (threshold : Q) : option (Z * Q) :=
  let normalized_make := normalize_make mk in
  let normalized_model := normalize_model mdl in
  match head (List.filter
                (exact_clause normalized_make normalized_model yr) session) with
  | Some exact_match => Some (id exact_match, 1%Q)
  | None =>
      let candidates :=
        List.filter (make_year_clause normalized_make yr) session in
      match fuzzy_loop normalized_model threshold candidates with
      | (Some best_match, best_score) => Some (id best_match, best_score)
      | (None, _) =>
          match head (List.filter
                        (make_year_clause normalized_make yr) session) with
          | Some any_model_match => Some (id any_model_match, 0.3%Q)
          | None => None
          end
      end
  end.

(** The resolution tiers, one per [return] of [find_master_car]. *)
Inductive Tier := EXACT | FUZZY | FALLBACK | NONE.

Record ResolutionResult := mkResolution {
  matched_vehicle_id : option Z;
  confidence : Q;
  tier : Tier
}.

(** [find_master_car] with each [return] labelled by its tier; the final
    [return None] is the result with no id, confidence 0 and tier [NONE]. *)
Definition resolve (mk mdl : string) (yr : Z) (candidates : Session)
    (threshold : Q) : ResolutionResult :=
  let normalized_make := normalize_make mk in
  let normalized_model := normalize_model mdl in
  match head (List.filter
                (exact_clause normalized_make normalized_model yr)
                candidates) with
  | Some exact_match => mkResolution (Some (id exact_match)) 1%Q EXACT
  | None =>
      match fuzzy_loop normalized_model threshold
              (List.filter (make_year_clause normalized_make yr) candidates)
      with
      | (Some best_match, best_score) =>
          mkResolution (Some (id best_match)) best_score FUZZY
      | (None, _) =>
          match head (List.filter
                        (make_year_clause normalized_make yr) candidates) with
          | Some any_model_match =>
              mkResolution (Some (id any_model_match)) 0.3%Q FALLBACK
          | None => mkResolution None 0%Q NONE
          end
      end
  end.

End Database.

(** What a [ResolutionResult] is as a return value of [find_master_car]. *)
Definition to_return (r : ResolutionResult) : option (Z * Q) :=
  match matched_vehicle_id r with
  | Some i => Some (i, confidence r)
  | None => None
  end.

End normalize.

(** ** backend/models.py *)

Module Car.
Record t := mk {
  id : string;
  make : string;
  model : string;
  year : Z;
  trim : string;
  avg_price : Z;
  power_hp : Z;
  torque_lb_ft : Z;
  drivetrain : string;
  body_type : string;
  reliability_score : Q;
  ownership_cost_score : Q;
  driving_feel_tags : list string;
  class_tags : list string;
  emotional_tags : list string;
  fuel_economy_mpg : Z;
  zero_to_sixty : Q
}.
End Car.

Module UserIntent.
Record t := mk {
  budget_min : option Z;
  budget_max : option Z;
  performance_priority : Q;
  reliability_priority : Q;
  comfort_priority : Q;
  drivetrain : option string;
  body_style : option string;
  emotional_tags : list string;
  negative_tags : list string;
  reference_car : option string;
  usage : list string;
  raw_query : string
}.
End UserIntent.

(** ** backend/scoring_engine.py *)

Module ScoringEngine.

Local Open Scope string_scope.
Local Open Scope list_scope.
Local Open Scope Q_scope.

(** The reasons and tradeoffs; each constructor is one f-string of the
    source with the values it interpolates. *)
Inductive message :=
| WellUnderBudget (avg_price : Z)      (* Well under budget at ~$[avg_price] *)
| FitsBudget (budget : Z)              (* Fits your $[budget] budget nicely *)
| SlightlyOverBudget (avg_price : Z)   (* Slightly over budget (~$[avg_price]) *)
| AboveBudget (avg_price : Z)          (* Above budget at ~$[avg_price] *)
| SignificantlyOverBudget (avg_price : Z)
                               (* Significantly over budget at ~$[avg_price] *)
| SeriouslyQuick (zero_sixty : Q)      (* Seriously quick (0-60 in [..]s) *)
| NotTheQuickest (zero_sixty : Q)      (* Not the quickest ([..]s 0-60) *)
| PlentyOfPower (power_hp : Z)         (* [..]hp provides plenty of power *)
| ExcellentReliability                 (* Excellent reliability record *)
| GoodReliability                      (* Good reliability reputation *)
| ReliabilityConcern (rel_score : Q)
                               (* Reliability could be a concern ([..]/10) *)
| KnownDependable                      (* Known for being dependable *)
| AsRequested (drivetrain : string)    (* [..] as requested *)
| OnlyAvailableIn (drivetrain : string)  (* Only available in [..] *)
| InsteadOf (car_drivetrain intent_drivetrain : string)
                                       (* [..] instead of [..] *)
| MatchesVibe (tags : list string)     (* Matches your vibe: [', '.join(..)] *)
| MayFeel (avoid_lower : string)       (* May feel [..] *)
| DefinitelyNot (avoid_lower : string) (* Definitely not [..] *)
| VerySimilarTo (make model : string)  (* Very similar to the [..] [..] *)
| ComparableTo (make model : string).  (* Comparable to the [..] [..] *)

Definition EMOTIONAL_SIMILARITIES : gmap string (gset string) :=
  list_to_map
    [ ("fun", list_to_set ["exciting"; "sporty"; "engaging"; "playful"; "thrilling"]);
      ("exciting", list_to_set ["fun"; "aggressive"; "powerful"; "thrilling"; "passionate"]);
      ("aggressive", list_to_set ["exciting"; "powerful"; "bold"; "mean"]);
      ("sporty", list_to_set ["fun"; "engaging"; "athletic"; "dynamic"]);
      ("luxurious", list_to_set ["sophisticated"; "premium"; "refined"; "prestigious"; "classy"]);
      ("sophisticated", list_to_set ["luxurious"; "refined"; "elegant"; "classy"]);
      ("reliable", list_to_set ["dependable"; "trustworthy"; "sensible"]);
      ("practical", list_to_set ["sensible"; "useful"; "value"]);
      ("comfortable", list_to_set ["smooth"; "refined"; "relaxing"]);
      ("value", list_to_set ["practical"; "sensible"; "surprising"]);
      ("fast", list_to_set ["powerful"; "quick"; "exciting"]);
      ("unique", list_to_set ["special"; "passionate"; "distinctive"]) ].

Definition DRIVING_FEEL_TO_EMOTION : gmap string (gset string) :=
  list_to_map
    [ ("sporty", list_to_set ["fun"; "exciting"; "sporty"]);
      ("responsive", list_to_set ["fun"; "engaging"; "sporty"]);
      ("engaging", list_to_set ["fun"; "exciting"; "sporty"]);
      ("raw", list_to_set ["exciting"; "passionate"; "aggressive"]);
      ("sharp", list_to_set ["sporty"; "engaging"; "exciting"]);
      ("refined", list_to_set ["sophisticated"; "luxurious"; "comfortable"]);
      ("smooth", list_to_set ["comfortable"; "luxurious"; "refined"]);
      ("composed", list_to_set ["reliable"; "sophisticated"; "comfortable"]);
      ("powerful", list_to_set ["fast"; "exciting"; "aggressive"]);
      ("balanced", list_to_set ["practical"; "reliable"; "sporty"]);
      ("comfortable", list_to_set ["comfortable"; "practical"; "reliable"]);
      ("planted", list_to_set ["reliable"; "sophisticated"; "sporty"]);
      ("precise", list_to_set ["sporty"; "engaging"; "sophisticated"]);
      ("instant", list_to_set ["fast"; "exciting"; "modern"]);
      ("quiet", list_to_set ["comfortable"; "luxurious"; "refined"]);
      ("playful", list_to_set ["fun"; "exciting"; "sporty"]);
      ("direct", list_to_set ["engaging"; "sporty"; "raw"]) ].

Definition NEGATIVE_OPPOSITES : gmap string (gset string) :=
  list_to_map
    [ ("boring", list_to_set ["fun"; "exciting"; "engaging"; "sporty"; "aggressive"]);
      ("slow", list_to_set ["fast"; "powerful"; "exciting"]);
      ("unreliable", list_to_set ["reliable"; "dependable"]);
      ("expensive", list_to_set ["value"; "practical"]);
      ("uncomfortable", list_to_set ["comfortable"; "luxurious"; "refined"]);
      ("numb", list_to_set ["engaging"; "raw"; "sporty"]) ].

(** *** [_score_price] *)
Definition _score_price (car : Car.t) (intent : UserIntent.t)
    : py.result (Q * option message * option message) :=
  if negb (py.truthy_int (UserIntent.budget_max intent))
  then mret (80, None, None)
  else
    let avg_price := Car.avg_price car in
    let budget := default 0%Z (UserIntent.budget_max intent) in
    if (avg_price <=? budget)%Z then
      headroom ← py.truediv (inject_Z (budget - avg_price)) (inject_Z budget);
      if py.ltb 0.2 headroom
      then mret (100, Some (WellUnderBudget avg_price), None)
      else mret (95, Some (FitsBudget budget), None)
    else
      over_percent ← py.truediv (inject_Z (avg_price - budget)) (inject_Z budget);
      if py.ltb over_percent 0.1
      then mret (75, None, Some (SlightlyOverBudget avg_price))
      else if py.ltb over_percent 0.2
      then mret (50, None, Some (AboveBudget avg_price))
      else mret (20, None, Some (SignificantlyOverBudget avg_price)).

(** *** [_score_performance] *)
Inductive perf_tier := excellent | great | good | decent | moderate.

Definition performance_tier (zero_sixty : Q) : perf_tier * Q :=
  if py.leb zero_sixty 4.5 then (excellent, 100)
  else if py.leb zero_sixty 5.0 then (great, 85)
  else if py.leb zero_sixty 5.5 then (good, 70)
  else if py.leb zero_sixty 6.0 then (decent, 55)
  else (moderate, 40).

Definition top_tier (t : perf_tier) : bool :=
  match t with excellent | great => true | _ => false end.

Definition _score_performance (car : Car.t) (intent : UserIntent.t)
    : Q * option message * option message :=
  let perf_priority := UserIntent.performance_priority intent in
  let zero_sixty := Car.zero_to_sixty car in
  let '(tier, base_score) := performance_tier zero_sixty in
  if py.ltb 0.7 perf_priority then
    if top_tier tier
    then (base_score, Some (SeriouslyQuick zero_sixty), None)
    else (base_score, None, Some (NotTheQuickest zero_sixty))
  else if py.ltb perf_priority 0.4 then
    (Qmax base_score 70, None, None)
  else
    if top_tier tier
    then (base_score, Some (PlentyOfPower (Car.power_hp car)), None)
    else (base_score, None, None).

(** *** [_score_reliability] *)
Definition _score_reliability (car : Car.t) (intent : UserIntent.t)
    : Q * option message * option message :=
  let rel_priority := UserIntent.reliability_priority intent in
  let rel_score := Car.reliability_score car in
  let base_score := rel_score * 10 in
  if py.ltb 0.7 rel_priority then
    if py.leb 8 rel_score
    then (base_score, Some ExcellentReliability, None)
    else if py.leb 7 rel_score
    then (base_score, Some GoodReliability, None)
    else (base_score, None, Some (ReliabilityConcern rel_score))
  else if py.ltb rel_priority 0.4 then
    (Qmax base_score 60, None, None)
  else
    if py.leb 8 rel_score
    then (base_score, Some KnownDependable, None)
    else (base_score, None, None).

(** *** [_score_drivetrain] *)
Definition _score_drivetrain (car : Car.t) (intent : UserIntent.t)
    : Q * option message * option message :=
  if negb (py.truthy_str (UserIntent.drivetrain intent))
  then (80, None, None)
  else
    let wanted := default "" (UserIntent.drivetrain intent) in
    if String.eqb (pystr.upper (Car.drivetrain car)) (pystr.upper wanted)
    then (100, Some (AsRequested (Car.drivetrain car)), None)
    else if String.eqb (pystr.upper wanted) "AWD"
            && negb (String.eqb (pystr.upper (Car.drivetrain car)) "AWD")
    then (40, None, Some (OnlyAvailableIn (Car.drivetrain car)))
    else (60, None, Some (InsteadOf (Car.drivetrain car) wanted)).

(** *** [_score_body_style] *)
Definition similar_groups : list (gset string) :=
  [ list_to_set ["sedan"; "liftback"];
    list_to_set ["coupe"; "convertible"];
    list_to_set ["hatchback"; "liftback"; "hot-hatch"];
    list_to_set ["suv"; "crossover"] ].

Definition _score_body_style (car : Car.t) (intent : UserIntent.t) : Q :=
  if negb (py.truthy_str (UserIntent.body_style intent))
  then 80
  else
    let car_body := pystr.lower (Car.body_type car) in
    let pref_body := pystr.lower (default "" (UserIntent.body_style intent)) in
    if String.eqb car_body pref_body then 100
    else if existsb
              (fun group : gset string =>
                 bool_decide (car_body ∈ group)
                 && bool_decide (pref_body ∈ group))
              similar_groups
    then 80
    else 50.

(** *** [_score_emotional] *)

(** The tags a class tag adds to the profile, if any. *)
Definition class_emotions (class_lower : string) : option (gset string) :=
  if String.eqb class_lower "luxury"
  then Some (list_to_set ["luxurious"; "sophisticated"; "premium"])
  else if String.eqb class_lower "performance"
  then Some (list_to_set ["exciting"; "fast"; "fun"])
  else if String.eqb class_lower "sport"
  then Some (list_to_set ["sporty"; "fun"; "engaging"])
  else None.

(** The car's emotional profile [car_emotions]. *)
Definition car_emotions (car : Car.t) : gset string :=
  let declared : gset string :=
    list_to_set (map pystr.lower (Car.emotional_tags car)) in
  let with_feel :=
    fold_left
      (fun (acc : gset string) feel =>
         match DRIVING_FEEL_TO_EMOTION !! pystr.lower feel with
         | Some emotions => acc ∪ emotions
         | None => acc
         end)
      (Car.driving_feel_tags car) declared in
  fold_left
    (fun (acc : gset string) class_tag =>
       match class_emotions (pystr.lower class_tag) with
       | Some emotions => acc ∪ emotions
       | None => acc
       end)
    (Car.class_tags car) with_feel.

(** One round of [for wanted_tag in intent.emotional_tags] on
    [(positive_score, positive_matches)]. *)
Definition wanted_step (profile : gset string) (st : Z * list string)
    (wanted_tag : string) : Z * list string :=
  let wanted_lower := pystr.lower wanted_tag in
  if bool_decide (wanted_lower ∈ profile)
  then (st.1 + 20, st.2 ++ [wanted_tag])%Z
  else
    match EMOTIONAL_SIMILARITIES !! wanted_lower with
    | Some similar =>
        if bool_decide (profile ∩ similar ≠ ∅)
        then (st.1 + 12, st.2 ++ [wanted_tag])%Z
        else st
    | None => st
    end.

Record avoid_state := mkAvoid {
  negative_penalty : Z;
  positive_score : Z;
  reasons : list message;
  tradeoffs : list message
}.

(** One round of [for avoid_tag in intent.negative_tags]. *)
Definition avoid_step (profile : gset string) (st : avoid_state)
    (avoid_tag : string) : avoid_state :=
  let avoid_lower := pystr.lower avoid_tag in
  if bool_decide (avoid_lower ∈ profile)
  then mkAvoid (negative_penalty st + 25) (positive_score st) (reasons st)
               (tradeoffs st ++ [MayFeel avoid_lower])
  else
    match NEGATIVE_OPPOSITES !! avoid_lower with
    | Some opposites =>
        if bool_decide (profile ∩ opposites ≠ ∅)
        then mkAvoid (negative_penalty st) (positive_score st + 10)
                     (reasons st ++ [DefinitelyNot avoid_lower])
                     (tradeoffs st)
        else st
    | None => st
    end.

Definition is_empty {T} (l : list T) : bool :=
  match l with [] => true | _ => false end.

Definition _score_emotional (car : Car.t) (intent : UserIntent.t)
    : Q * list message * list message :=
  let profile := car_emotions car in
  let '(positive, positive_matches) :=
    fold_left (wanted_step profile) (UserIntent.emotional_tags intent)
              (0%Z, []) in
  let reasons0 :=
    if is_empty positive_matches then []
    else [MatchesVibe (take 3 positive_matches)] in
  let st :=
    fold_left (avoid_step profile) (UserIntent.negative_tags intent)
              (mkAvoid 0 positive reasons0 []) in
  if is_empty (UserIntent.emotional_tags intent)
     && is_empty (UserIntent.negative_tags intent)
  then (70, reasons st, tradeoffs st)
  else
    let final_score :=
      (50 + Z.min (positive_score st) 50 - Z.min (negative_penalty st) 40)%Z in
    let final_score := Z.max 0 (Z.min 100 final_score) in
    (inject_Z final_score, reasons st, tradeoffs st).

(** *** [_score_reference_similarity] *)
Definition closeness (diff t1 t2 t3 : Q) (p1 p2 p3 : Z) : Z :=
  if py.ltb diff t1 then p1
  else if py.ltb diff t2 then p2
  else if py.ltb diff t3 then p3
  else 0%Z.

Definition _score_reference_similarity (car reference : Car.t)
    : py.result (Q * option message) :=
  let score := 0%Z in
  let score :=
    if String.eqb (Car.drivetrain car) (Car.drivetrain reference)
    then (score + 15)%Z else score in
  power_diff ←
    py.truediv (inject_Z (Z.abs (Car.power_hp car - Car.power_hp reference)))
               (inject_Z (Car.power_hp reference));
  let score := (score + closeness power_diff 0.1 0.2 0.3 20 12 5)%Z in
  let zero_diff :=
    Qabs (Car.zero_to_sixty car - Car.zero_to_sixty reference) in
  let score := (score + closeness zero_diff 0.3 0.6 1.0 15 10 5)%Z in
  let score :=
    if String.eqb (Car.body_type car) (Car.body_type reference)
    then (score + 15)%Z else score in
  price_diff ←
    py.truediv (inject_Z (Z.abs (Car.avg_price car - Car.avg_price reference)))
               (inject_Z (Car.avg_price reference));
  let score := (score + closeness price_diff 0.1 0.2 0.3 15 10 5)%Z in
  let common_classes : gset string :=
    list_to_set (Car.class_tags car) ∩ list_to_set (Car.class_tags reference) in
  let score := (score + Z.of_nat (size common_classes) * 10)%Z in
  let common_emotions : gset string :=
    list_to_set (Car.emotional_tags car)
    ∩ list_to_set (Car.emotional_tags reference) in
  let score := (score + Z.of_nat (size common_emotions) * 5)%Z in
  let final_score := Z.min 100 score in
  let reason :=
    if (70 <? final_score)%Z
    then Some (VerySimilarTo (Car.make reference) (Car.model reference))
    else if (50 <? final_score)%Z
    then Some (ComparableTo (Car.make reference) (Car.model reference))
    else None in
  mret (inject_Z final_score, reason).

(** *** [_score_ownership_cost] *)
Definition _score_ownership_cost (car : Car.t) (intent : UserIntent.t) : Q :=
  Car.ownership_cost_score car * 10.

(** *** [_calculate_weighted_score] *)
Definition base_weights : gmap string Q :=
  list_to_map
    [ ("price", 0.20); ("performance", 0.15); ("reliability", 0.15);
      ("drivetrain", 0.10); ("body_style", 0.10); ("emotional", 0.20);
      ("ownership", 0.10) ].

(** The [weights] dict as it stands before the sums are taken. *)
Definition weights_of (scores : gmap string Q) (intent : UserIntent.t)
    (has_reference : bool) : gmap string Q :=
  let weights := base_weights in
  let weights :=
    if has_reference && bool_decide (is_Some (scores !! "reference"))
    then
      map_imap
        (fun key w =>
           Some (if String.eqb key "reference" then w else w * 0.85))
        (<["reference" := 0.15]> weights)
    else weights in
  let weights :=
    if py.ltb 0.7 (UserIntent.performance_priority intent)
    then <["emotional" := 0.15]> (<["performance" := 0.25]> weights)
    else weights in
  let weights :=
    if py.ltb 0.7 (UserIntent.reliability_priority intent)
    then <["ownership" := 0.15]> (<["reliability" := 0.22]> weights)
    else weights in
  if py.truthy_str (UserIntent.drivetrain intent)
  then <["drivetrain" := 0.15]> weights
  else weights.

(** [sum(weights.get(k, 0) for k in scores.keys())] *)
Definition total_weight_of (weights scores : gmap string Q) : Q :=
  map_fold (fun k (_ : Q) acc => acc + default 0 (weights !! k)) 0 scores.

(** [sum(scores[k] * weights.get(k, 0.1) for k in scores.keys())] *)
Definition weighted_sum_of (weights scores : gmap string Q) : Q :=
  map_fold (fun k s acc => acc + s * default 0.1 (weights !! k)) 0 scores.

Definition _calculate_weighted_score (scores : gmap string Q)
    (intent : UserIntent.t) (has_reference : bool) : py.result Q :=
  let weights := weights_of scores intent has_reference in
  let total_weight := total_weight_of weights scores in
  let weighted_sum := weighted_sum_of weights scores in
  if py.ltb 0 total_weight
  then
    average ← py.truediv weighted_sum total_weight;
    mret (average * total_weight)
  else mret 50.

(** *** [_score_car] *)
Definition some_list {T} (o : option T) : list T :=
  match o with Some x => [x] | None => [] end.

Definition is_some {T} (o : option T) : bool :=
  match o with Some _ => true | None => false end.

(** The factor passes of [_score_car]: the [scores] dict with the reasons
    and tradeoffs in evaluation order, before the weighting. *)
Definition factor_scores (car : Car.t) (intent : UserIntent.t)
    (reference_car : option Car.t)
    : py.result (gmap string Q * list message * list message) :=
  '(price_score, price_reason, price_tradeoff) ← _score_price car intent;
  let scores : gmap string Q := <["price" := price_score]> ∅ in
  let reasons := some_list price_reason in
  let tradeoffs := some_list price_tradeoff in
  let '(perf_score, perf_reason, perf_tradeoff) :=
    _score_performance car intent in
  let scores := <["performance" := perf_score]> scores in
  let reasons := reasons ++ some_list perf_reason in
  let tradeoffs := tradeoffs ++ some_list perf_tradeoff in
  let '(rel_score, rel_reason, rel_tradeoff) :=
    _score_reliability car intent in
  let scores := <["reliability" := rel_score]> scores in
  let reasons := reasons ++ some_list rel_reason in
  let tradeoffs := tradeoffs ++ some_list rel_tradeoff in
  let '(drive_score, drive_reason, drive_tradeoff) :=
    _score_drivetrain car intent in
  let scores := <["drivetrain" := drive_score]> scores in
  let reasons := reasons ++ some_list drive_reason in
  let tradeoffs := tradeoffs ++ some_list drive_tradeoff in
  let scores := <["body_style" := _score_body_style car intent]> scores in
  let '(emo_score, emo_reasons, emo_tradeoffs) :=
    _score_emotional car intent in
  let scores := <["emotional" := emo_score]> scores in
  let reasons := reasons ++ emo_reasons in
  let tradeoffs := tradeoffs ++ emo_tradeoffs in
  '(scores, reasons) ←
    match reference_car with
    | Some reference =>
        if negb (String.eqb (Car.id car) (Car.id reference))
        then
          '(ref_score, ref_reason) ← _score_reference_similarity car reference;
          mret (<["reference" := ref_score]> scores,
                reasons ++ some_list ref_reason)
        else mret (scores, reasons)
    | None => mret (scores, reasons)
    end;
  let scores := <["ownership" := _score_ownership_cost car intent]> scores in
  mret (scores, reasons, tradeoffs).

Definition _score_car (car : Car.t) (intent : UserIntent.t)
    (reference_car : option Car.t)
    : py.result (Q * list message * list message) :=
  '(scores, reasons, tradeoffs) ← factor_scores car intent reference_car;
  final_score ← _calculate_weighted_score scores intent (is_some reference_car);
  mret (final_score, take 4 reasons, take 3 tradeoffs).

End ScoringEngine.


(** ** backend/data/normalize.py: the batch pass over the listings *)

Module batch.
Import normalize.

(** A row of [car_listings]: the columns the normalization reads, and the
    two it writes.  [last_updated] is declared with
    [onupdate=datetime.utcnow], so every UPDATE of a row sets it; a time
    is the number the clock reads. *)
Record CarListing := mkCarListing {
  listing_id : Z;
  vin : string;
  listing_make : string;
  listing_model : string;
  listing_year : Z;
  listing_trim : option string;
  last_updated : option Z;
  master_car_id : option Z
}.

(** The two tables the session gives access to. *)
Record Database := mkDatabase {
  cars_master : list CarMaster;
  car_listings : list CarListing
}.

(** The counters [normalize_listings] prints when it is done. *)
Record Counters := mkCounters {
  matched : Z;
  unmatched : Z;
  high_confidence : Z;
  low_confidence : Z
}.

(** [listing.master_car_id = m], flushed at time [now]: the unit of work
    emits an UPDATE for the row only when the attribute has changed, and
    the UPDATE sets [last_updated] too. *)
Definition set_master (listing : CarListing) (m : option Z) (now : Z)
    : CarListing :=
  if bool_decide (master_car_id listing = m) then listing
  else
    mkCarListing (listing_id listing) (vin listing) (listing_make listing)
      (listing_model listing) (listing_year listing) (listing_trim listing)
      (Some now) m.

(** The listings the query selects: all of them under [force_rematch],
    otherwise those with [master_car_id IS NULL]. *)
Definition selected (force_rematch : bool) (listing : CarListing) : bool :=
  force_rematch
  || match master_car_id listing with None => true | Some _ => false end.

Section Pass.
(** The [upper] of the database, and the reading of [datetime.utcnow]
    when the change to the listing at a position is flushed. *)
Variable sql_upper : string -> string.
Variable utcnow : nat -> Z.

(** One round of [for i, listing in enumerate(listings)]. *)
Definition normalize_one (session : Session) (threshold : Q)
    (i : nat) (listing : CarListing) (counters : Counters)
    : CarListing * Counters :=
  match find_master_car sql_upper session (listing_make listing)
          (listing_model listing) (listing_year listing)
          (listing_trim listing) threshold with
  | Some (master_id, confidence) =>
      (set_master listing (Some master_id) (utcnow i),
       if py.leb 0.9 confidence
       then mkCounters (matched counters + 1) (unmatched counters)
              (high_confidence counters + 1) (low_confidence counters)
       else mkCounters (matched counters + 1) (unmatched counters)
              (high_confidence counters) (low_confidence counters + 1))
  | None =>
      (set_master listing None (utcnow i),
       mkCounters (matched counters) (unmatched counters + 1)
         (high_confidence counters) (low_confidence counters))
  end.

(** The loop over the rows of the table; [i] counts the listings the
    query has selected so far. *)
Fixpoint normalize_rows (session : Session) (threshold : Q)
    (force_rematch : bool) (i : nat) (rows : list CarListing)
    (counters : Counters) : list CarListing * Counters :=
  match rows with
  | [] => ([], counters)
  | listing :: rows' =>
      if selected force_rematch listing
      then
        let '(listing', counters') :=
          normalize_one session threshold i listing counters in
        let '(rest, final) :=
          normalize_rows session threshold force_rematch (S i) rows'
            counters' in
        (listing' :: rest, final)
      else
        let '(rest, final) :=
          normalize_rows session threshold force_rematch i rows'
            counters in
        (listing :: rest, final)
  end.

(** [normalize_listings(threshold, batch_size, force_rematch)]: the
    database after the final commit, and the counters printed.  The
    intermediate commits every [batch_size] listings write the same rows
    earlier and leave no trace in the final state. *)
Definition normalize_listings (threshold : Q) (force_rematch : bool)
    (db : Database) : Database * Counters :=
  let '(rows, counters) :=
    normalize_rows (cars_master db) threshold force_rematch 0
      (car_listings db) (mkCounters 0 0 0 0) in
  (mkDatabase (cars_master db) rows, counters).
End Pass.

(** [get_match_stats(session)] *)
Record MatchStats := mkMatchStats {
  total_listings : Z;
  stats_matched : Z;
  stats_unmatched : Z;
  match_rate : Q
}.

Definition is_matched (listing : CarListing) : bool :=
  match master_car_id listing with Some _ => true | None => false end.

Definition get_match_stats (db : Database) : MatchStats :=
  let total := Z.of_nat (length (car_listings db)) in
  let matched := Z.of_nat (length (List.filter is_matched (car_listings db))) in
  let unmatched := total - matched in
  mkMatchStats total matched unmatched
    (if 0 <? total then (inject_Z matched / inject_Z total)%Q else 0%Q).

End batch.

(** ** backend/database.py *)

Module database.

Local Open Scope string_scope.
Local Open Scope Z_scope.

(** [models.CarListing] *)
Record CarListing := mkCarListing {
  car_id : string;
  price : Z;
  mileage : Z;
  location : string;
  condition : string;
  source : string;
  url : string;
  title : string
}.

(** [CarDatabase] after [_load_data]: the cars and the listings in the
    order of the JSON file.  [_cars_by_id] is filled in the same loop as
    [_cars], so it is read off [_cars]. *)
Record CarDatabase := mkCarDatabase {
  _cars : list Car.t;
  _listings : list CarListing
}.

Definition get_all_cars (db : CarDatabase) : list Car.t := _cars db.

(** [self._cars_by_id.get(car_id)]: [_cars_by_id[car.id] = car] runs for
    every car in turn, so the last car with the id is the one kept. *)
Definition get_car_by_id (db : CarDatabase) (id : string) : option Car.t :=
  last (List.filter (fun car => String.eqb (Car.id car) id) (_cars db)).

(** [[l for l in self._listings if l.car_id == car_id]] *)
Definition get_listings_for_car (db : CarDatabase) (id : string)
    : list CarListing :=
  List.filter (fun l => String.eqb (car_id l) id) (_listings db).

(** [sub in s] on strings *)
Fixpoint contains (sub s : string) : bool :=
  String.prefix sub s
  || match s with
     | EmptyString => false
     | String _ s' => contains sub s'
     end.

(** [str(n)] for an integer *)
Definition str_of_int (n : Z) : string := NilZero.string_of_int (Z.to_int n).

(** The [score] a car gets in one round of the loop of
    [find_reference_car]. *)
Definition mention_score (reference : string) (car : Car.t) : Z :=
  let reference_lower := pystr.lower reference in
  let score := 0 in
  let score :=
    if contains (pystr.lower (Car.make car)) reference_lower
    then score + 3 else score in
  let score :=
    if contains (pystr.lower (Car.model car)) reference_lower
    then score + 3 else score in
  let score :=
    if contains (str_of_int (Car.year car)) reference
    then score + 2 else score in
  let score :=
    if contains (pystr.lower (Car.trim car)) reference_lower
    then score + 1 else score in
  score.

(** One round of [for car in self._cars] on [(best_match, best_score)]. *)
Definition reference_step (reference : string) (st : option Car.t * Z)
    (car : Car.t) : option Car.t * Z :=
  let score := mention_score reference car in
  if st.2 <? score then (Some car, score) else st.

Definition reference_loop (reference : string) (cars : list Car.t)
    : option Car.t * Z :=
  fold_left (reference_step reference) cars (None, 0).

Definition find_reference_car (db : CarDatabase) (reference : string)
    : option Car.t :=
  if negb (pystr.truthy reference) then None
  else
    let '(best_match, best_score) := reference_loop reference (_cars db) in
    if 4 <=? best_score then best_match else None.

End database.

(** ** backend/scoring_engine.py: the ranking *)

Module ranking.
Import ScoringEngine database.

Local Open Scope Q_scope.

(** [models.MatchResult] *)
Record MatchResult := mkMatchResult {
  car : Car.t;
  match_score : Q;
  match_reasons : list message;
  tradeoffs : list message;
  listings : list CarListing
}.

(** [results.sort(key=lambda x: x.match_score, reverse=True)].  The sort
    of Python lists is stable, also under [reverse=True], and compares the
    keys with [<] only; the result of a stable sort is determined by the
    keys, and is the list that inserting the results one by one from the
    last to the first gives, each in front of the first result whose key
    is not greater than its own. *)
Fixpoint insert_result (r : MatchResult) (sorted : list MatchResult)
    : list MatchResult :=
  match sorted with
  | [] => [r]
  | x :: rest =>
      if py.ltb (match_score r) (match_score x)
      then x :: insert_result r rest
      else r :: sorted
  end.

Definition sort_results (results : list MatchResult) : list MatchResult :=
  foldr insert_result [] results.

(** [for x in xs: results.append(f(x))] where [f] may raise. *)
Fixpoint for_each {T U : Type} (f : T -> py.result U) (xs : list T)
    : py.result (list U) :=
  match xs with
  | [] => mret []
  | x :: xs' => y ← f x; ys ← for_each f xs'; mret (y :: ys)
  end.

Section Ranking.
(** [round(score, 1)] rounds a binary floating-point number to one
    decimal; which of two neighbours a score goes to depends on the
    binary representation, so the ranking takes the rounding function
    as given. *)
Variable round1 : Q -> Q.

(** The reference car [score_all_cars] looks up before the loop. *)
Definition reference_of (db : CarDatabase) (intent : UserIntent.t)
    : option Car.t :=
  match UserIntent.reference_car intent with
  | Some reference =>
      if pystr.truthy reference then find_reference_car db reference
      else None
  | None => None
  end.

(** The body of [for car in cars]. *)
Definition score_one (db : CarDatabase) (intent : UserIntent.t)
    (reference_car : option Car.t) (car : Car.t) : py.result MatchResult :=
  '(score, reasons, tradeoffs) ← _score_car car intent reference_car;
  let listings := get_listings_for_car db (Car.id car) in
  mret (mkMatchResult car (round1 score) reasons tradeoffs listings).

Definition score_all_cars (db : CarDatabase) (intent : UserIntent.t)
    : py.result (list MatchResult) :=
  let cars := get_all_cars db in
  let reference_car := reference_of db intent in
  results ← for_each (score_one db intent reference_car) cars;
  mret (sort_results results).

(** [main.search_cars] and [main.refine_search] after the intent is
    known: [matches = score_all_cars(intent)], then
    [top_matches = matches[:10]]. *)
Definition top_matches (db : CarDatabase) (intent : UserIntent.t)
    : py.result (list MatchResult) :=
  matches ← score_all_cars db intent;
  mret (take 10 matches).
End Ranking.

End ranking.

(** ** backend/intent_engine.py: refinement without the language model *)

Module IntentEngine.
Import database.

Local Open Scope string_scope.
Local Open Scope Q_scope.

(** The constraints [Field(ge=0, le=1)] of the three priorities, which the
    constructor [UserIntent(...)] checks. *)
Definition in_unit (q : Q) : bool := py.leb 0 q && py.leb q 1.
Definition validates (intent : UserIntent.t) : bool :=
  in_unit (UserIntent.performance_priority intent)
  && in_unit (UserIntent.reliability_priority intent)
  && in_unit (UserIntent.comfort_priority intent).

(** [min(1.0, x)]: the first argument unless the second is smaller. *)
Definition min_one (x : Q) : Q := if py.ltb x 1 then x else 1.

(** [int(x)] on a float: truncation towards zero.  (The float is the
    exact product here; the rounded product of two floating-point numbers
    has the same integer part for budgets below 2^50.) *)
Definition int_of (x : Q) : Z := Z.quot (Qnum x) (Zpos (Qden x)).

(** [if tag not in tags: tags.append(tag)] *)
Definition append_new (tag : string) (tags : list string) : list string :=
  if existsb (String.eqb tag) tags then tags else tags ++ [tag].

Definition set_budget_max (i : UserIntent.t) (v : option Z) : UserIntent.t :=
  UserIntent.mk (UserIntent.budget_min i) v
    (UserIntent.performance_priority i) (UserIntent.reliability_priority i)
    (UserIntent.comfort_priority i) (UserIntent.drivetrain i)
    (UserIntent.body_style i) (UserIntent.emotional_tags i)
    (UserIntent.negative_tags i) (UserIntent.reference_car i)
    (UserIntent.usage i) (UserIntent.raw_query i).
Definition set_performance_priority (i : UserIntent.t) (v : Q) : UserIntent.t :=
  UserIntent.mk (UserIntent.budget_min i) (UserIntent.budget_max i)
    v (UserIntent.reliability_priority i)
    (UserIntent.comfort_priority i) (UserIntent.drivetrain i)
    (UserIntent.body_style i) (UserIntent.emotional_tags i)
    (UserIntent.negative_tags i) (UserIntent.reference_car i)
    (UserIntent.usage i) (UserIntent.raw_query i).
Definition set_reliability_priority (i : UserIntent.t) (v : Q) : UserIntent.t :=
  UserIntent.mk (UserIntent.budget_min i) (UserIntent.budget_max i)
    (UserIntent.performance_priority i) v
    (UserIntent.comfort_priority i) (UserIntent.drivetrain i)
    (UserIntent.body_style i) (UserIntent.emotional_tags i)
    (UserIntent.negative_tags i) (UserIntent.reference_car i)
    (UserIntent.usage i) (UserIntent.raw_query i).
Definition set_comfort_priority (i : UserIntent.t) (v : Q) : UserIntent.t :=
  UserIntent.mk (UserIntent.budget_min i) (UserIntent.budget_max i)
    (UserIntent.performance_priority i) (UserIntent.reliability_priority i)
    v (UserIntent.drivetrain i)
    (UserIntent.body_style i) (UserIntent.emotional_tags i)
    (UserIntent.negative_tags i) (UserIntent.reference_car i)
    (UserIntent.usage i) (UserIntent.raw_query i).
Definition set_drivetrain (i : UserIntent.t) (v : option string) : UserIntent.t :=
  UserIntent.mk (UserIntent.budget_min i) (UserIntent.budget_max i)
    (UserIntent.performance_priority i) (UserIntent.reliability_priority i)
    (UserIntent.comfort_priority i) v
    (UserIntent.body_style i) (UserIntent.emotional_tags i)
    (UserIntent.negative_tags i) (UserIntent.reference_car i)
    (UserIntent.usage i) (UserIntent.raw_query i).
Definition set_body_style (i : UserIntent.t) (v : option string) : UserIntent.t :=
  UserIntent.mk (UserIntent.budget_min i) (UserIntent.budget_max i)
    (UserIntent.performance_priority i) (UserIntent.reliability_priority i)
    (UserIntent.comfort_priority i) (UserIntent.drivetrain i)
    v (UserIntent.emotional_tags i)
    (UserIntent.negative_tags i) (UserIntent.reference_car i)
    (UserIntent.usage i) (UserIntent.raw_query i).
Definition set_emotional_tags (i : UserIntent.t) (v : list string) : UserIntent.t :=
  UserIntent.mk (UserIntent.budget_min i) (UserIntent.budget_max i)
    (UserIntent.performance_priority i) (UserIntent.reliability_priority i)
    (UserIntent.comfort_priority i) (UserIntent.drivetrain i)
    (UserIntent.body_style i) v
    (UserIntent.negative_tags i) (UserIntent.reference_car i)
    (UserIntent.usage i) (UserIntent.raw_query i).
Definition set_usage (i : UserIntent.t) (v : list string) : UserIntent.t :=
  UserIntent.mk (UserIntent.budget_min i) (UserIntent.budget_max i)
    (UserIntent.performance_priority i) (UserIntent.reliability_priority i)
    (UserIntent.comfort_priority i) (UserIntent.drivetrain i)
    (UserIntent.body_style i) (UserIntent.emotional_tags i)
    (UserIntent.negative_tags i) (UserIntent.reference_car i)
    v (UserIntent.raw_query i).

(** The [if]/[elif] chain of [_refine_heuristic] on the copy. *)
Definition apply_refinement (new_intent : UserIntent.t)
    (refinement_lower : string) : UserIntent.t :=
  let mentions sub := contains sub refinement_lower in
  if mentions "cheaper" || mentions "less expensive" then
    match UserIntent.budget_max new_intent with
    | Some budget_max =>
        if negb (budget_max =? 0)%Z
        then set_budget_max new_intent
               (Some (int_of (inject_Z budget_max * 0.8)))
        else new_intent
    | None => new_intent
    end
  else if mentions "more reliable" || mentions "reliable" then
    set_reliability_priority new_intent
      (min_one (UserIntent.reliability_priority new_intent + 0.25))
  else if mentions "sportier" || mentions "more fun" then
    let new_intent :=
      set_performance_priority new_intent
        (min_one (UserIntent.performance_priority new_intent + 0.2)) in
    set_emotional_tags new_intent
      (append_new "sporty" (UserIntent.emotional_tags new_intent))
  else if mentions "faster" || mentions "more power" then
    let new_intent :=
      set_performance_priority new_intent
        (min_one (UserIntent.performance_priority new_intent + 0.25)) in
    set_emotional_tags new_intent
      (append_new "fast" (UserIntent.emotional_tags new_intent))
  else if mentions "bigger" then
    match UserIntent.body_style new_intent with
    | Some style =>
        if String.eqb style "coupe"
        then set_body_style new_intent (Some "sedan")
        else if String.eqb style "sedan"
        then set_body_style new_intent (Some "suv")
        else new_intent
    | None => new_intent
    end
  else if mentions "more practical" || mentions "practical" then
    let new_intent :=
      set_comfort_priority new_intent
        (min_one (UserIntent.comfort_priority new_intent + 0.2)) in
    set_emotional_tags new_intent
      (append_new "practical" (UserIntent.emotional_tags new_intent))
  else if mentions "more comfortable" then
    set_comfort_priority new_intent
      (min_one (UserIntent.comfort_priority new_intent + 0.25))
  else if mentions "awd" || mentions "all wheel" then
    set_drivetrain new_intent (Some "AWD")
  else if mentions "snow" || mentions "winter" then
    let new_intent := set_drivetrain new_intent (Some "AWD") in
    set_usage new_intent (append_new "winter" (UserIntent.usage new_intent))
  else if mentions "more luxurious" || mentions "luxury" then
    set_emotional_tags new_intent
      (append_new "luxurious" (UserIntent.emotional_tags new_intent))
  else new_intent.

(** [_refine_heuristic(current_intent, refinement)]: [None] stands for
    the validation error the constructor [UserIntent(...)] raises when it
    copies an intent whose priorities are out of range. *)
Definition _refine_heuristic (current_intent : UserIntent.t)
    (refinement : string) : option UserIntent.t :=
  let refinement_lower := pystr.lower refinement in
  if validates current_intent
  then Some (apply_refinement current_intent refinement_lower)
  else None.

(** The loop of [main.search_cars] over [request.refinements], without a
    language-model client. *)
Fixpoint refine_all (intent : UserIntent.t) (refinements : list string)
    : option UserIntent.t :=
  match refinements with
  | [] => Some intent
  | refinement :: rest =>
      match _refine_heuristic intent refinement with
      | Some intent' => refine_all intent' rest
      | None => None
      end
  end.

End IntentEngine.
Module difflib_aux.
Section Aux.
Context {A : Type} `{Countable A}.

(** The positions of [x] in [rest], counted from [i], in ascending order. *)
Fixpoint positions (x : A) (rest : list A) (i : Z) : list Z :=
  match rest with
  | [] => []
  | y :: rest' =>
      (if decide (x = y) then [i] else []) ++ positions x rest' (i + 1)
  end.

(** An element purged from [b2j] as popular. *)
Definition popular (b : list A) (x : A) : bool :=
  (200 <=? Z.of_nat (length b))
  && (Z.of_nat (length b) / 100 + 1 <? Z.of_nat (length (positions x b 0))).

Variables a b : list A.

(** [a[i+t] == b[j+t]] for the [k] positions from [(i, j)] on. *)
Definition is_match (i j k : Z) : Prop :=
  forall t, 0 <= t < k -> difflib.same_item a b (i + t) (j + t) = true.

Definition in_window (alo ahi blo bhi : Z) (m : difflib.Match) : Prop :=
  alo <= difflib.m_a m /\ difflib.m_a m + difflib.m_size m <= ahi /\
  blo <= difflib.m_b m /\ difflib.m_b m + difflib.m_size m <= bhi /\
  0 <= difflib.m_size m.

(** A block that lies in its window and matches. *)
Definition good (alo ahi blo bhi : Z) (m : difflib.Match) : Prop :=
  in_window alo ahi blo bhi m
  /\ is_match (difflib.m_a m) (difflib.m_b m) (difflib.m_size m).

(** What [j2len] holds after row [i]: matches that end at [(i, j)]. *)
Definition row_ok (alo blo bhi i : Z) (m : gmap Z Z) : Prop :=
  forall j k, m !! j = Some k ->
    1 <= k /\ alo <= i - k + 1 /\ blo <= j - k + 1 /\ j < bhi /\
    is_match (i - k + 1) (j - k + 1) k.
End Aux.

Section Diagonal.
Context {A : Type} `{Countable A}.
Variable a : list A.

(** The number of consecutive elements of [a] that end at position [i]
    and are kept in [b2j] when [a] is matched against itself. *)
Fixpoint run (i : nat) : Z :=
  match a !! i with
  | Some x =>
      if popular a x then 0
      else 1 + match i with O => 0 | S i' => run i' end
  | None => 0
  end.

Definition runZ (i : Z) : Z :=
  if decide (0 <= i) then run (Z.to_nat i) else 0.

Definition row_diag (i : Z) (m : gmap Z Z) (js : list Z) : Prop :=
  (forall j k, m !! j = Some k -> 1 <= k /\ k <= runZ i /\ k <= runZ j)
  /\ (i ∈ js \/ default 0 (m !! i) = runZ i).

Definition best_diag (i : Z) (best : difflib.Match) (js : list Z) : Prop :=
  difflib.m_a best = difflib.m_b best
  /\ 0 <= difflib.m_size best
  /\ (forall i', 0 <= i' < i -> runZ i' <= difflib.m_size best)
  /\ (i ∈ js \/ runZ i <= difflib.m_size best).
End Diagonal.
End difflib_aux.


(** ** Specification-side definitions for the resolver *)

Module normalize_aux.
Import normalize.

(** What the fuzzy loop has established after the candidates [seen]:
    nothing yet, no candidate so far being positive and at the threshold;
    or the first candidate of greatest similarity among them. *)
Definition fuzzy_inv (normalized_model : string) (threshold : Q)
    (seen : list CarMaster) (st : option CarMaster * Q) : Prop :=
  let sim c := similarity_score normalized_model (model c) in
  match st.1 with
  | None =>
      st.2 = 0%Q
      /\ Forall (fun c => ~ (0 < sim c /\ threshold <= sim c)%Q) seen
  | Some best =>
      st.2 = sim best /\ (0 < sim best)%Q /\ (threshold <= sim best)%Q
      /\ exists l1 l2, seen = l1 ++ best :: l2
           /\ Forall (fun c => sim c < sim best)%Q l1
           /\ Forall (fun c => sim c <= sim best)%Q l2
  end.

End normalize_aux.

(** ** A database for the sample runs *)

Module sql_aux.

(** [upper] as SQLite computes it: the ASCII letters only. *)
Definition ascii_upper_char (c : ascii) : ascii :=
  if pystr.between 97 122 c then pystr.chr (pystr.code c - 32) else c.
Definition ascii_upper (s : string) : string :=
  pystr.map_chars ascii_upper_char s.

(** A model name with a letter outside ASCII, and its upper case. *)
Definition megane : string := String "M" (String "233" "gane").
Definition MEGANE : string := String "M" (String "201" "GANE").

(** The clock of the sample runs. *)
Definition sample_clock (i : nat) : Z := 1000 + Z.of_nat i.

End sql_aux.

(** ** Specification-side definitions for the scoring engine *)

Module scoring_aux.
Import ScoringEngine.
Local Open Scope string_scope.
Local Open Scope list_scope.

(** [clamp(x, lo, hi)] *)
Definition clamp (x lo hi : Z) : Z := Z.max lo (Z.min hi x).

(** A wanted tag is directly in the profile. *)
Definition direct (profile : gset string) (tag : string) : bool :=
  bool_decide (pystr.lower tag ∈ profile).

(** A tag of the profile is in the table entry of [tag]. *)
Definition table_hit (table : gmap string (gset string))
    (profile : gset string) (tag : string) : bool :=
  match table !! pystr.lower tag with
  | Some entry => bool_decide (profile ∩ entry ≠ ∅)
  | None => false
  end.

(** The points of one wanted tag: 20 if directly in the profile, 12 if only
    a related tag is. *)
Definition wanted_points (profile : gset string) (tag : string) : Z :=
  if direct profile tag then 20
  else if table_hit EMOTIONAL_SIMILARITIES profile tag then 12
  else 0.

(** The points of one avoided tag that the car does not exhibit: 10 if the
    car exhibits a recorded opposite. *)
Definition opposite_points (profile : gset string) (tag : string) : Z :=
  if direct profile tag then 0
  else if table_hit NEGATIVE_OPPOSITES profile tag then 10
  else 0.

Definition sum_points (f : string -> Z) (tags : list string) : Z :=
  fold_right (fun tag acc => f tag + acc) 0 tags.

(** [positive] and [negative] of the emotional rule. *)
Definition positive_of (profile : gset string) (wanted avoided : list string)
    : Z :=
  sum_points (wanted_points profile) wanted
  + sum_points (opposite_points profile) avoided.

Definition negative_of (profile : gset string) (avoided : list string) : Z :=
  25 * Z.of_nat (length (List.filter (direct profile) avoided)).

(** One tradeoff for each avoided tag the car exhibits, naming it. *)
Definition tradeoffs_of (profile : gset string) (avoided : list string)
    : list message :=
  map (fun tag => MayFeel (pystr.lower tag))
      (List.filter (direct profile) avoided).

(** The messages of the reference-similarity factor. *)
Definition is_reference_message (m : message) : bool :=
  match m with
  | VerySimilarTo _ _ | ComparableTo _ _ => true
  | _ => false
  end.

(** The keys whose weight the intent's priorities replace. *)
Definition overridden (intent : UserIntent.t) (key : string) : bool :=
  (py.ltb 0.7 (UserIntent.performance_priority intent)
   && (String.eqb key "performance" || String.eqb key "emotional"))
  || (py.ltb 0.7 (UserIntent.reliability_priority intent)
      && (String.eqb key "reliability" || String.eqb key "ownership"))
  || (py.truthy_str (UserIntent.drivetrain intent)
      && String.eqb key "drivetrain").


(** The [scores] dict of [_score_car] after the emotional factor, and the
    reasons and tradeoffs gathered up to there. *)
Definition base_scores (car : Car.t) (intent : UserIntent.t) (price : Q)
    : gmap string Q :=
  <["emotional" := (_score_emotional car intent).1.1]>
    (<["body_style" := _score_body_style car intent]>
       (<["drivetrain" := (_score_drivetrain car intent).1.1]>
          (<["reliability" := (_score_reliability car intent).1.1]>
             (<["performance" := (_score_performance car intent).1.1]>
                (<["price" := price]> ∅))))).

Definition base_reasons (car : Car.t) (intent : UserIntent.t)
    (price_reason : option message) : list message :=
  (((some_list price_reason
     ++ some_list (_score_performance car intent).1.2)
    ++ some_list (_score_reliability car intent).1.2)
   ++ some_list (_score_drivetrain car intent).1.2)
  ++ (_score_emotional car intent).1.2.

Definition base_tradeoffs (car : Car.t) (intent : UserIntent.t)
    (price_tradeoff : option message) : list message :=
  (((some_list price_tradeoff
     ++ some_list (_score_performance car intent).2)
    ++ some_list (_score_reliability car intent).2)
   ++ some_list (_score_drivetrain car intent).2)
  ++ (_score_emotional car intent).2.

(** The ratings of a car are on the 0-10 scale. *)
Definition ratings_in_scale (car : Car.t) : Prop :=
  (0 <= Car.reliability_score car <= 10)%Q
  /\ (0 <= Car.ownership_cost_score car <= 10)%Q.

End scoring_aux.

(** ** Sample inputs *)

Module Examples.
Local Open Scope string_scope.
Local Open Scope Q_scope.

(** A quick, dependable all-wheel-drive sedan. *)
Definition wrx : Car.t :=
  Car.mk "c1" "Subaru" "WRX" 2020 "Base" 28000 268 258 "AWD" "sedan" 10 10
    ["sporty"; "raw"] ["sport"] ["fun"] 24 4.4.

(** An intent that asks for everything [wrx] has. *)
Definition keen_intent : UserIntent.t :=
  UserIntent.mk None (Some 40000%Z) 0.9 0.9 0.5 (Some "AWD") (Some "sedan")
    ["fun"; "sporty"; "exciting"] [] None [] "".

(** An intent that only names a drivetrain. *)
Definition awd_intent : UserIntent.t :=
  UserIntent.mk None None 0.5 0.5 0.5 (Some "AWD") None [] [] None [] "".

(** A catalog car whose horsepower was recorded as 0. *)
Definition no_power : Car.t :=
  Car.mk "r0" "Acme" "Cart" 2020 "Base" 28000 0 0 "AWD" "sedan" 5 5
    [] [] [] 24 9.

(** A car that is "boring" by its own tags, and an intent that avoids
    that. *)
Definition dull : Car.t :=
  Car.mk "c3" "Acme" "Beige" 2015 "Base" 15000 130 120 "FWD" "sedan" 8 8
    ["comfortable"] [] ["Boring"] 30 9.5.
Definition avoid_boring : UserIntent.t :=
  UserIntent.mk None None 0.5 0.5 0.5 None None [] ["boring"] None [] "".

(** A car priced at 8000 and an intent with a budget of 10000: the
    headroom is exactly 20%. *)
Definition car_8000 : Car.t :=
  Car.mk "c2" "Honda" "Fit" 2012 "Base" 8000 117 106 "FWD" "hatchback" 9 9
    [] [] [] 31 9.
Definition budget_10000 : UserIntent.t :=
  UserIntent.mk None (Some 10000%Z) 0.5 0.5 0.5 None None [] [] None [] "".

End Examples.

(** ** Specification-side definitions for the weights *)

Module weights_aux.
Import ScoringEngine.
Local Open Scope string_scope.
Local Open Scope Q_scope.

(** The [weights] dict by the four conditions that shape it: the reference
    weight is inserted, the performance priority is above 0.7, the
    reliability priority is above 0.7, a drivetrain is requested. *)
Definition weight_table (with_reference perf rel drive : bool)
    : gmap string Q :=
  let weights := base_weights in
  let weights :=
    if with_reference
    then
      map_imap
        (fun key w =>
           Some (if String.eqb key "reference" then w else w * 0.85))
        (<["reference" := 0.15]> weights)
    else weights in
  let weights :=
    if perf
    then <["emotional" := 0.15]> (<["performance" := 0.25]> weights)
    else weights in
  let weights :=
    if rel
    then <["ownership" := 0.15]> (<["reliability" := 0.22]> weights)
    else weights in
  if drive then <["drivetrain" := 0.15]> weights else weights.

(** The sum of [g key score] over the entries of a [scores] dict. *)
Definition sum_by (g : string -> Q -> Q) (scores : gmap string Q) : Q :=
  map_fold (fun key score acc => acc + g key score) 0 scores.

End weights_aux.

(** ** Auxiliary definitions for the batch pass, the catalog and the ranking *)

Module batch_aux.
Import normalize batch.

(** The [master_car_id] the resolver gives a listing. *)
Definition resolved (sql_upper : string -> string) (session : Session)
    (threshold : Q) (listing : CarListing) : option Z :=
  fst <$> find_master_car sql_upper session (listing_make listing)
            (listing_model listing) (listing_year listing)
            (listing_trim listing) threshold.

(** The columns of a listing that no pass writes. *)
Definition same_listing (l l' : CarListing) : Prop :=
  listing_id l' = listing_id l /\ vin l' = vin l
  /\ listing_make l' = listing_make l /\ listing_model l' = listing_model l
  /\ listing_year l' = listing_year l /\ listing_trim l' = listing_trim l.

(** What a pass may do to a listing: nothing, or write [master_car_id]
    and, with it, a reading of the clock into [last_updated]. *)
Definition rewritten (utcnow : nat -> Z) (l l' : CarListing) : Prop :=
  same_listing l l'
  /\ (master_car_id l' = master_car_id l -> l' = l)
  /\ (master_car_id l' <> master_car_id l ->
      exists i, last_updated l' = Some (utcnow i)).

(** A table of one master car and one listing that has not been
    matched. *)
Definition sample_db : Database :=
  mkDatabase
    [mkCarMaster 7 "Chevrolet" "Camaro" 2020 None]
    [mkCarListing 1 "VIN1" "Chevy" "Camaro SS" 2020 None (Some 5%Z) None].

End batch_aux.

Module database_aux.
Import database.
Local Open Scope Z_scope.

(** What the loop of [find_reference_car] has established once it has
    gone through [seen]. *)
Definition reference_inv (reference : string) (seen : list Car.t)
    (st : option Car.t * Z) : Prop :=
  match st.1 with
  | None =>
      st.2 = 0 /\ forall c, c ∈ seen -> mention_score reference c <= 0
  | Some best =>
      mention_score reference best = st.2 /\ 0 < st.2
      /\ exists l1 l2,
           seen = l1 ++ best :: l2
           /\ (forall c, c ∈ l1 -> mention_score reference c < st.2)
           /\ (forall c, c ∈ l2 -> mention_score reference c <= st.2)
  end.

(** The make or the model of the car occurs in the reference, letter case
    apart. *)
Definition names (reference : string) (car : Car.t) : Prop :=
  contains (pystr.lower (Car.make car)) (pystr.lower reference) = true
  \/ contains (pystr.lower (Car.model car)) (pystr.lower reference) = true.
End database_aux.

Module ranking_aux.
Import ranking.
Local Open Scope Q_scope.

(** Highest score first. *)
Definition descending (results : list MatchResult) : Prop :=
  StronglySorted (fun r1 r2 => match_score r2 <= match_score r1) results.

(** The results with a given score. *)
Definition scored (q : Q) (r : MatchResult) : bool :=
  Qeq_bool (match_score r) q.

(** Rounding to one decimal on the rationals, a tie going to the even
    neighbour: what [round(score, 1)] is on a score that is a decimal. *)
Definition round_tenth (q : Q) : Q :=
  let scaled := q * 10 in
  let below := (Qnum scaled / Zpos (Qden scaled))%Z in
  let rest := scaled - inject_Z below in
  let nearest :=
    if py.ltb rest 0.5 then below
    else if py.ltb 0.5 rest then (below + 1)%Z
    else if Z.even below then below else (below + 1)%Z in
  inject_Z nearest / 10.

(** The list a call returned, for sample runs. *)
Definition returned {T : Type} (r : py.result (list T)) : list T :=
  match r with py.Ok v => v | py.Raise _ => [] end.

(** A catalog of three cars, one of them without horsepower, and an
    intent that names that car as its reference. *)
Definition sample_db : database.CarDatabase :=
  database.mkCarDatabase [Examples.wrx; Examples.dull; Examples.car_8000] [].
(** A catalog in which two cars have the same score: [wrx] and a car
    that differs from it in its id only, with another car between
    them. *)
Definition wrx_twin : Car.t :=
  Car.mk "c9" "Subaru" "WRX" 2020 "Base" 28000 268 258 "AWD" "sedan" 10 10
    ["sporty"; "raw"] ["sport"] ["fun"] 24 4.4.
Definition tied_db : database.CarDatabase :=
  database.mkCarDatabase [wrx_twin; Examples.dull; Examples.wrx] [].
(** A catalog of twelve cars, more than an answer holds. *)
Definition twelve_db : database.CarDatabase :=
  database.mkCarDatabase
    (map (fun id : string =>
            Car.mk id "Honda" "Fit" 2012 "Base" 8000 117 106 "FWD"
              "hatchback" 9 9 [] [] [] 31 9)
         ["f1"; "f2"; "f3"; "f4"; "f5"; "f6"]%string
     ++ [Examples.wrx; Examples.dull; Examples.car_8000]
     ++ map (fun id : string =>
               Car.mk id "Subaru" "WRX" 2020 "Base" 28000 268 258 "AWD"
                 "sedan" 10 10 ["sporty"; "raw"]%string ["sport"]%string
                 ["fun"]%string 24 4.4)
          ["w1"; "w2"; "w3"]%string) [].
Definition faulty_db : database.CarDatabase :=
  database.mkCarDatabase [Examples.wrx; Examples.no_power] [].
Definition like_cart : UserIntent.t :=
  UserIntent.mk None None 0.5 0.5 0.5 None None [] []
    (Some "something like the Acme Cart"%string) [] ""%string.
End ranking_aux.

Module reference_aux.
Import ScoringEngine scoring_aux.
Local Open Scope string_scope.
Local Open Scope Q_scope.




End reference_aux.

Module intent_aux.
Local Open Scope Q_scope.

(** The fields that no rule of [_refine_heuristic] writes. *)
Definition same_frame (old new : UserIntent.t) : Prop :=
  UserIntent.budget_min new = UserIntent.budget_min old
  /\ UserIntent.negative_tags new = UserIntent.negative_tags old
  /\ UserIntent.reference_car new = UserIntent.reference_car old
  /\ UserIntent.raw_query new = UserIntent.raw_query old.

(** No priority is lowered, and no tag is removed or reordered. *)
Definition grows (old new : UserIntent.t) : Prop :=
  UserIntent.performance_priority old <= UserIntent.performance_priority new
  /\ UserIntent.reliability_priority old <= UserIntent.reliability_priority new
  /\ UserIntent.comfort_priority old <= UserIntent.comfort_priority new
  /\ UserIntent.emotional_tags old `prefix_of` UserIntent.emotional_tags new
  /\ UserIntent.usage old `prefix_of` UserIntent.usage new.
End intent_aux.
Module difflib_facts.
Import difflib difflib_aux.
Section Facts.
Context {A : Type} `{Countable A}.
Variables a b : list A.

Lemma chain_loop_lookup (rest : list A) (i : Z) (m : gmap A (list Z)) (x : A) :
  default [] (chain_loop rest i m !! x)
  = default [] (m !! x) ++ positions x rest i.
Proof.
  revert i m. induction rest as [|y rest IH]; intros i m; simpl.
  - by rewrite app_nil_r.
  - rewrite IH. destruct (decide (x = y)) as [->|Hne].
    + rewrite lookup_insert_eq. simpl. by rewrite <- app_assoc.
    + rewrite lookup_insert_ne by congruence. done.
Qed.

Lemma chain_loop_None (rest : list A) (i : Z) (m : gmap A (list Z)) (x : A) :
  chain_loop rest i m !! x = None -> m !! x = None /\ positions x rest i = [].
Proof.
  revert i m. induction rest as [|y rest IH]; intros i m; simpl; [done|].
  intros Hn. apply IH in Hn as [Hm Hp]. destruct (decide (x = y)) as [->|Hne].
  - by rewrite lookup_insert_eq in Hm.
  - rewrite lookup_insert_ne in Hm by congruence. done.
Qed.

Lemma b2j_get_Some (x : A) :
  b2j_get b (Some x) = if popular b x then [] else positions x b 0.
Proof.
  unfold b2j_get, chain_b, popular.
  pose proof (chain_loop_lookup b 0 ∅ x) as Hl.
  rewrite lookup_empty in Hl. simpl in Hl.
  destruct (200 <=? Z.of_nat (length b)); simpl; [|done].
  rewrite map_lookup_filter.
  destruct (chain_loop b 0 ∅ !! x) as [js|] eqn:Hx; simpl in Hl; subst; simpl.
  - case_guard; simpl in *; destruct (Z.ltb_spec
        (Z.of_nat (length b) / 100 + 1)
        (Z.of_nat (length (positions x b 0)))); simpl; try done; lia.
  - by destruct (_ <? _).
Qed.

Lemma elem_of_positions (x : A) (rest : list A) (i j : Z) :
  j ∈ positions x rest i <-> i <= j /\ rest !! Z.to_nat (j - i) = Some x.
Proof.
  revert i. induction rest as [|y rest IH]; intros i; simpl.
  - split; [by intros ?%elem_of_nil|]. by intros [_ ?].
  - rewrite elem_of_app, IH. split.
    + intros [Hj|[Hle Hj]].
      * destruct (decide (x = y)) as [->|]; [|by apply elem_of_nil in Hj].
        apply list_elem_of_singleton in Hj as ->. split; [lia|].
        by replace (i - i) with 0 by lia.
      * split; [lia|]. replace (Z.to_nat (j - i)) with (S (Z.to_nat (j - (i + 1)))) by lia.
        done.
    + intros [Hle Hj]. destruct (decide (j = i)) as [->|Hne].
      * left. replace (i - i) with 0 in Hj by lia. simpl in Hj.
        injection Hj as ->. rewrite decide_True by done. by apply list_elem_of_singleton.
      * right. split; [lia|].
        replace (Z.to_nat (j - i)) with (S (Z.to_nat (j - (i + 1)))) in Hj by lia.
        done.
Qed.

Lemma item_Some (l : list A) (i : Z) (x : A) :
  item l i = Some x <-> 0 <= i /\ l !! Z.to_nat i = Some x.
Proof.
  unfold item. case_decide; split.
  - by intros ?.
  - by intros [_ ?].
  - by intros ?.
  - intros [? _]. lia.
Qed.

Lemma same_item_b2j (i j : Z) :
  j ∈ b2j_get b (item a i) -> same_item a b i j = true.
Proof.
  unfold same_item. destruct (item a i) as [x|] eqn:Hx.
  - rewrite b2j_get_Some. destruct (popular b x); [by intros ?%elem_of_nil|].
    intros [Hj Hb]%elem_of_positions. rewrite Z.sub_0_r in Hb.
    rewrite (proj2 (item_Some b j x)) by done. by apply bool_decide_eq_true.
  - by intros ?%elem_of_nil.
Qed.

Lemma is_match_snoc (i j k : Z) :
  0 <= k -> is_match a b i j k -> same_item a b (i + k) (j + k) = true ->
  is_match a b i j (k + 1).
Proof.
  intros Hk Hm Hs t Ht. destruct (decide (t = k)) as [->|]; [done|].
  apply Hm. lia.
Qed.

Lemma is_match_cons (i j k : Z) :
  is_match a b i j k -> same_item a b (i - 1) (j - 1) = true ->
  is_match a b (i - 1) (j - 1) (k + 1).
Proof.
  intros Hm Hs t Ht. destruct (decide (t = 0)) as [->|].
  - by rewrite !Z.add_0_r.
  - replace (i - 1 + t) with (i + (t - 1)) by lia.
    replace (j - 1 + t) with (j + (t - 1)) by lia. apply Hm. lia.
Qed.

Lemma flm_inner_good (alo ahi blo bhi i : Z) (js : list Z)
    (j2len newj2len : gmap Z Z) (best : Match) :
  alo <= i < ahi ->
  (forall j, j ∈ js -> same_item a b i j = true) ->
  row_ok a b alo blo bhi (i - 1) j2len ->
  row_ok a b alo blo bhi i newj2len ->
  good a b alo ahi blo bhi best ->
  row_ok a b alo blo bhi i (flm_inner i blo bhi js j2len newj2len best).1
  /\ good a b alo ahi blo bhi (flm_inner i blo bhi js j2len newj2len best).2.
Proof.
  intros Hi. revert newj2len best.
  induction js as [|j js IH]; intros newj2len best Hjs Hprev Hnew Hbest;
    simpl; [done|].
  assert (Hjs' : forall j', j' ∈ js -> same_item a b i j' = true)
    by (intros; apply Hjs; by right).
  destruct (Z.ltb_spec j blo); [by apply IH|].
  destruct (Z.leb_spec bhi j); [done|].
  assert (Hsame : same_item a b i j = true) by (apply Hjs; by left).
  set (k := default 0 (j2len !! (j - 1)) + 1).
  assert (Hk : 1 <= k /\ alo <= i - k + 1 /\ blo <= j - k + 1
               /\ is_match a b (i - k + 1) (j - k + 1) k).
  { subst k. destruct (j2len !! (j - 1)) as [k0|] eqn:Hk0; simpl.
    - destruct (Hprev _ _ Hk0) as (? & ? & ? & ? & Hm).
      repeat split; try lia.
      replace (i - (k0 + 1) + 1) with (i - 1 - k0 + 1) by lia.
      replace (j - (k0 + 1) + 1) with (j - 1 - k0 + 1) by lia.
      apply is_match_snoc; [lia|done|].
      replace (i - 1 - k0 + 1 + k0) with i by lia.
      by replace (j - 1 - k0 + 1 + k0) with j by lia.
    - repeat split; try lia. intros t Ht.
      replace (i - (0 + 1) + 1 + t) with i by lia.
      by replace (j - (0 + 1) + 1 + t) with j by lia. }
  destruct Hk as (Hk1 & Hka & Hkb & Hkm).
  apply IH; [done|done| |].
  - intros j' k'. destruct (decide (j' = j)) as [->|Hne].
    + rewrite lookup_insert_eq. intros [= <-]. repeat split; done || lia.
    + rewrite lookup_insert_ne by done. apply Hnew.
  - destruct (Z.ltb_spec (m_size best) k); [|done].
    split; [|done]. unfold in_window; simpl. lia.
Qed.

Lemma flm_outer_good (alo ahi blo bhi : Z) (n : nat) (i : Z)
    (j2len : gmap Z Z) (best : Match) :
  alo <= i -> i + Z.of_nat n <= ahi ->
  row_ok a b alo blo bhi (i - 1) j2len ->
  good a b alo ahi blo bhi best ->
  good a b alo ahi blo bhi (flm_outer a b n i blo bhi j2len best).
Proof.
  revert i j2len best. induction n as [|n IH]; intros i j2len best Hlo Hhi Hrow Hbest;
    simpl; [done|].
  destruct (flm_inner i blo bhi (b2j_get b (item a i)) j2len ∅ best)
    as [newj2len best'] eqn:Hin.
  pose proof (flm_inner_good alo ahi blo bhi i (b2j_get b (item a i))
                j2len ∅ best) as Hg.
  rewrite Hin in Hg. simpl in Hg.
  destruct Hg as [Hrow' Hbest']; [lia|apply same_item_b2j|done| |done|].
  { intros j k. by rewrite lookup_empty. }
  apply IH; [lia|lia| |done].
  by replace (i + 1 - 1) with i by lia.
Qed.

Lemma extend_back_good (alo ahi blo bhi : Z) (n : nat) (junk : bool) (m : Match) :
  good a b alo ahi blo bhi m ->
  good a b alo ahi blo bhi (extend_back a b n junk alo blo m).
Proof.
  revert m. induction n as [|n IH]; intros m Hm; simpl; [done|].
  destruct (_ && _) eqn:Hc; [|done].
  repeat (apply andb_prop in Hc as [Hc ?]).
  apply IH. destruct Hm as [(? & ? & ? & ? & ?) Hmatch].
  split; [unfold in_window; simpl; lia|]. simpl. by apply is_match_cons.
Qed.

Lemma extend_fwd_good (alo ahi blo bhi : Z) (n : nat) (junk : bool) (m : Match) :
  good a b alo ahi blo bhi m ->
  good a b alo ahi blo bhi (extend_fwd a b n junk ahi bhi m).
Proof.
  revert m. induction n as [|n IH]; intros m Hm; simpl; [done|].
  destruct (_ && _) eqn:Hc; [|done].
  repeat (apply andb_prop in Hc as [Hc ?]).
  apply IH. destruct Hm as [(? & ? & ? & ? & ?) Hmatch].
  split; [unfold in_window; simpl; lia|]. simpl. by apply is_match_snoc.
Qed.

Lemma find_longest_match_good (alo ahi blo bhi : Z) :
  alo <= ahi -> blo <= bhi ->
  good a b alo ahi blo bhi (find_longest_match a b alo ahi blo bhi).
Proof.
  intros Ha Hb. unfold find_longest_match, fwd, back.
  apply extend_fwd_good, extend_back_good, extend_fwd_good, extend_back_good.
  apply flm_outer_good; [lia|lia| |].
  - intros j k. by rewrite lookup_empty.
  - split; [unfold in_window; simpl; lia|]. intros t Ht. simpl in Ht. lia.
Qed.

Lemma sum_sizes_app (l1 l2 : list Match) :
  sum_sizes (l1 ++ l2) = sum_sizes l1 + sum_sizes l2.
Proof. induction l1 as [|x l1 IH]; simpl; [done|]. rewrite IH. lia. Qed.

Lemma blocks_sum (fuel : nat) (alo ahi blo bhi : Z) :
  alo <= ahi -> blo <= bhi ->
  0 <= sum_sizes (blocks a b fuel alo ahi blo bhi)
  /\ sum_sizes (blocks a b fuel alo ahi blo bhi) <= ahi - alo
  /\ sum_sizes (blocks a b fuel alo ahi blo bhi) <= bhi - blo
  /\ (sum_sizes (blocks a b fuel alo ahi blo bhi) = ahi - alo ->
      ahi - alo = bhi - blo -> is_match a b alo blo (ahi - alo)).
Proof.
  revert alo ahi blo bhi.
  induction fuel as [|fuel IH]; intros alo ahi blo bhi Ha Hb; simpl.
  { repeat split; try lia. intros ? ? t Ht. lia. }
  pose proof (find_longest_match_good alo ahi blo bhi Ha Hb) as [Hw Hm].
  set (x := find_longest_match a b alo ahi blo bhi) in *.
  destruct Hw as (? & ? & ? & ? & ?).
  destruct (Z.eqb_spec (m_size x) 0) as [Hz|Hnz]; simpl.
  { repeat split; try lia. intros ? ? t Ht. lia. }
  rewrite sum_sizes_app. simpl.
  set (L := if (alo <? m_a x) && (blo <? m_b x)
            then blocks a b fuel alo (m_a x) blo (m_b x) else []).
  set (R := if (m_a x + m_size x <? ahi) && (m_b x + m_size x <? bhi)
            then blocks a b fuel (m_a x + m_size x) ahi (m_b x + m_size x) bhi
            else []).
  assert (HL : 0 <= sum_sizes L /\ sum_sizes L <= m_a x - alo
               /\ sum_sizes L <= m_b x - blo
               /\ (sum_sizes L = m_a x - alo -> m_a x - alo = m_b x - blo ->
                   is_match a b alo blo (m_a x - alo))).
  { subst L. destruct ((alo <? m_a x) && (blo <? m_b x)) eqn:Hc.
    - apply andb_prop in Hc as [?%Z.ltb_lt ?%Z.ltb_lt]. apply IH; lia.
    - simpl. apply andb_false_iff in Hc as [?%Z.ltb_ge|?%Z.ltb_ge];
        (repeat split; try lia); intros ? ? t Ht; lia. }
  assert (HR : 0 <= sum_sizes R /\ sum_sizes R <= ahi - (m_a x + m_size x)
               /\ sum_sizes R <= bhi - (m_b x + m_size x)
               /\ (sum_sizes R = ahi - (m_a x + m_size x) ->
                   ahi - (m_a x + m_size x) = bhi - (m_b x + m_size x) ->
                   is_match a b (m_a x + m_size x) (m_b x + m_size x)
                     (ahi - (m_a x + m_size x)))).
  { subst R.
    destruct ((m_a x + m_size x <? ahi) && (m_b x + m_size x <? bhi)) eqn:Hc.
    - apply andb_prop in Hc as [?%Z.ltb_lt ?%Z.ltb_lt]. apply IH; lia.
    - simpl. apply andb_false_iff in Hc as [?%Z.ltb_ge|?%Z.ltb_ge];
        (repeat split; try lia); intros ? ? t Ht; lia. }
  clearbody L R. destruct HL as (? & ? & ? & HLm), HR as (? & ? & ? & HRm).
  repeat split; try lia.
  intros Hsum Heq t Ht.
  destruct (Z.ltb_spec t (m_a x - alo)); [apply HLm; lia|].
  destruct (Z.ltb_spec t (m_a x - alo + m_size x)).
  - replace (alo + t) with (m_a x + (t - (m_a x - alo))) by lia.
    replace (blo + t) with (m_b x + (t - (m_a x - alo))) by lia.
    apply Hm. lia.
  - replace (alo + t) with (m_a x + m_size x + (t - (m_a x - alo + m_size x))) by lia.
    replace (blo + t) with (m_b x + m_size x + (t - (m_a x - alo + m_size x))) by lia.
    apply HRm; lia.
Qed.

Lemma is_match_lookup (n : Z) (t : nat) :
  is_match a b 0 0 n -> Z.of_nat t < n -> a !! t = b !! t /\ is_Some (a !! t).
Proof.
  intros Hm Ht.
  assert (Hs : same_item a b (Z.of_nat t) (Z.of_nat t) = true)
    by (apply (Hm (Z.of_nat t)); lia).
  unfold same_item, item in Hs. rewrite !decide_True in Hs by lia.
  rewrite Nat2Z.id in Hs.
  destruct (a !! t) as [x|], (b !! t) as [y|]; try discriminate Hs.
  apply bool_decide_eq_true in Hs as ->. eauto.
Qed.

Lemma matching_blocks_sum :
  0 <= sum_sizes (matching_blocks a b)
  /\ sum_sizes (matching_blocks a b) <= la a
  /\ sum_sizes (matching_blocks a b) <= lb b
  /\ (sum_sizes (matching_blocks a b) = la a -> la a = lb b -> a = b).
Proof.
  unfold matching_blocks.
  destruct (blocks_sum (S (length a)) 0 (la a) 0 (lb b)) as (H0 & H1 & H2 & H3);
    [unfold la; lia|unfold lb; lia|].
  rewrite !Z.sub_0_r in *. repeat split; try done.
  intros Hs Hl. specialize (H3 Hs Hl).
  unfold la, lb in Hl. apply list_eq. intros t.
  destruct (decide (t < length a)%nat) as [Hlt|Hge].
  - apply (is_match_lookup (la a) t H3). unfold la. lia.
  - rewrite !lookup_ge_None_2; [done|lia|lia].
Qed.

Lemma calculate_ratio_range (m l : Z) :
  0 <= m -> 2 * m <= l -> (0 <= calculate_ratio m l <= 1)%Q.
Proof.
  intros Hm Hl. unfold calculate_ratio.
  destruct (Z.eqb_spec l 0); [split; discriminate|].
  destruct l as [|p|p]; try lia.
  unfold Qle, Qdiv, Qmult, Qinv; simpl. split; lia.
Qed.

Lemma calculate_ratio_one (m l : Z) :
  0 <= m -> 2 * m <= l -> (calculate_ratio m l == 1)%Q -> 2 * m = l.
Proof.
  intros Hm Hl. unfold calculate_ratio.
  destruct (Z.eqb_spec l 0); [lia|].
  destruct l as [|p|p]; try lia.
  unfold Qeq, Qdiv, Qmult, Qinv; simpl. lia.
Qed.

Lemma calculate_ratio_full (m : Z) :
  0 <= m -> (calculate_ratio m (m + m) == 1)%Q.
Proof.
  intros Hm. unfold calculate_ratio.
  destruct (Z.eqb_spec (m + m) 0); [reflexivity|].
  destruct m as [|p|p]; try lia.
  unfold Qeq, Qdiv, Qmult, Qinv; simpl. lia.
Qed.

Lemma ratio_range : (0 <= ratio a b <= 1)%Q.
Proof.
  destruct matching_blocks_sum as (? & ? & ? & _).
  apply calculate_ratio_range; lia.
Qed.

Lemma ratio_one_eq : (ratio a b == 1)%Q -> a = b.
Proof.
  destruct matching_blocks_sum as (? & ? & ? & Heq).
  intros Hr. apply calculate_ratio_one in Hr; [|lia|lia].
  apply Heq; lia.
Qed.
End Facts.

Section DiagonalFacts.
Context {A : Type} `{Countable A}.
Variable a : list A.

Lemma positions_lower (x : A) (rest : list A) (i j : Z) :
  j ∈ positions x rest i -> i <= j.
Proof. by intros [? _]%elem_of_positions. Qed.

Lemma positions_sorted (x : A) (rest : list A) (i : Z) :
  StronglySorted Z.lt (positions x rest i).
Proof.
  revert i. induction rest as [|y rest IH]; intros i; simpl; [constructor|].
  destruct (decide (x = y)); simpl; [|done].
  constructor; [done|]. apply Forall_forall. intros j Hj.
  apply positions_lower in Hj. lia.
Qed.

Lemma runZ_nonneg (i : Z) : 0 <= runZ a i.
Proof.
  unfold runZ. case_decide; [|done].
  induction (Z.to_nat i) as [|n IH]; simpl;
    destruct (a !! _); try done; destruct (popular a _); lia.
Qed.

Lemma runZ_neg (i : Z) : i < 0 -> runZ a i = 0.
Proof. intros. unfold runZ. by rewrite decide_False by lia. Qed.

Lemma runZ_step (i : Z) (x : A) :
  item a i = Some x ->
  runZ a i = if popular a x then 0 else 1 + runZ a (i - 1).
Proof.
  intros [Hi Hx]%item_Some. unfold runZ.
  rewrite decide_True by done.
  destruct (Z.to_nat i) as [|n] eqn:Hn; simpl; rewrite Hx.
  - rewrite decide_False by lia. done.
  - rewrite decide_True by lia. by replace (Z.to_nat (i - 1)) with n by lia.
Qed.

Lemma flm_inner_diag (n i : Z) (x : A) (js : list Z)
    (j2len newj2len : gmap Z Z) (best : Match) :
  item a i = Some x -> popular a x = false ->
  StronglySorted Z.lt js ->
  (forall j, j ∈ js -> 0 <= j < n /\ item a j = Some x) ->
  row_diag a (i - 1) j2len [] ->
  row_diag a i newj2len js ->
  best_diag a i best js ->
  row_diag a i (flm_inner i 0 n js j2len newj2len best).1 []
  /\ best_diag a i (flm_inner i 0 n js j2len newj2len best).2 [].
Proof.
  intros Hx Hpop. revert newj2len best.
  induction js as [|j js IH]; intros newj2len best Hsorted Hjs Hprev Hnew Hbest;
    simpl; [done|].
  destruct (Hjs j) as [Hj Hxj]; [by left|].
  apply StronglySorted_inv in Hsorted as [Hsorted Hall].
  rewrite Forall_forall in Hall.
  destruct (Z.ltb_spec j 0); [lia|]. destruct (Z.leb_spec n j); [lia|].
  pose proof (runZ_step i x Hx) as Hri. rewrite Hpop in Hri.
  pose proof (runZ_step j x Hxj) as Hrj. rewrite Hpop in Hrj.
  destruct Hprev as [Hprev Hprevd], Hnew as [Hnew Hnewd].
  destruct Hbest as (Hd & Hsz & Hdom & Hcur).
  set (k := default 0 (j2len !! (j - 1)) + 1).
  assert (Hk : 1 <= k /\ k <= runZ a i /\ k <= runZ a j
               /\ (j = i -> k = runZ a i)).
  { subst k. split_and!.
    - destruct (j2len !! (j - 1)) as [k0|] eqn:Hk0; simpl; [|lia].
      destruct (Hprev _ _ Hk0). lia.
    - destruct (j2len !! (j - 1)) as [k0|] eqn:Hk0; simpl.
      + destruct (Hprev _ _ Hk0) as (? & ? & ?). lia.
      + pose proof (runZ_nonneg (i - 1)). lia.
    - destruct (j2len !! (j - 1)) as [k0|] eqn:Hk0; simpl.
      + destruct (Hprev _ _ Hk0) as (? & ? & ?). lia.
      + pose proof (runZ_nonneg (j - 1)). lia.
    - intros ->. destruct Hprevd as [?%elem_of_nil|Hp]; [done|].
      rewrite Hp. lia. }
  destruct Hk as (Hk1 & Hki & Hkj & Hkd).
  apply IH; [done|by intros; apply Hjs; right|done| |].
  - split.
    + intros j' k'. destruct (decide (j' = j)) as [->|Hne].
      * rewrite lookup_insert_eq. intros [= <-]. done.
      * rewrite lookup_insert_ne by done. apply Hnew.
    + destruct (decide (j = i)) as [->|Hne].
      * right. rewrite lookup_insert_eq. simpl. by apply Hkd.
      * rewrite lookup_insert_ne by done.
        destruct Hnewd as [Hin|?]; [|by right].
        apply elem_of_cons in Hin as [?|?]; [congruence|by left].
  - assert (Hafter : i < j -> runZ a i <= m_size best).
    { intros Hlt. destruct Hcur as [Hin|?]; [|done].
      apply elem_of_cons in Hin as [?|Hin]; [lia|].
      apply Hall in Hin. lia. }
    destruct (Z.ltb_spec (m_size best) k) as [Hup|Hno].
    + assert (j = i) as ->.
      { destruct (Z.lt_trichotomy j i) as [Hlt|[?|Hgt]]; [|done|].
        - specialize (Hdom j). lia.
        - specialize (Hafter Hgt). lia. }
      specialize (Hkd eq_refl). unfold best_diag; simpl. split_and!; try lia.
      intros i' Hi'. specialize (Hdom i' Hi'). lia.
    + unfold best_diag. split_and!; try done.
      destruct (Z.lt_trichotomy j i) as [Hlt|[->|Hgt]].
      * destruct Hcur as [Hin|?]; [|by right].
        apply elem_of_cons in Hin as [?|?]; [lia|by left].
      * right. specialize (Hkd eq_refl). lia.
      * right. by apply Hafter.
Qed.

Lemma item_lt (i : Z) : 0 <= i < la a -> is_Some (item a i).
Proof.
  intros Hi. unfold item, la in *. rewrite decide_True by lia.
  apply lookup_lt_is_Some. lia.
Qed.

Lemma flm_row_diag (i : Z) (j2len : gmap Z Z) (best : Match) :
  0 <= i < la a ->
  row_diag a (i - 1) j2len [] ->
  best_diag a i best [i] ->
  row_diag a i
    (flm_inner i 0 (la a) (b2j_get a (item a i)) j2len ∅ best).1 []
  /\ best_diag a i
       (flm_inner i 0 (la a) (b2j_get a (item a i)) j2len ∅ best).2 [].
Proof.
  intros Hi Hprev Hbest. destruct (item_lt i Hi) as [x Hx]. rewrite Hx.
  rewrite b2j_get_Some. destruct (popular a x) eqn:Hpop; simpl.
  - pose proof (runZ_step i x Hx) as Hr. rewrite Hpop in Hr.
    destruct Hbest as (? & ? & ? & _). split.
    + split; [intros j k; by rewrite lookup_empty|]. right.
      by rewrite lookup_empty, Hr.
    + unfold best_diag. split_and!; try done. right. lia.
  - assert (Hin : i ∈ positions x a 0).
    { apply elem_of_positions. rewrite Z.sub_0_r.
      by apply item_Some in Hx as [? ?]. }
    apply (flm_inner_diag (la a) i x); try done.
    + apply positions_sorted.
    + intros j [Hj Hjx]%elem_of_positions. rewrite Z.sub_0_r in Hjx.
      split; [|by apply item_Some].
      apply lookup_lt_Some in Hjx. unfold la. lia.
    + split; [intros j k; by rewrite lookup_empty|by left].
    + destruct Hbest as (? & ? & ? & _). unfold best_diag.
      split_and!; try done. by left.
Qed.

Lemma flm_outer_diag (n : nat) (i : Z) (j2len : gmap Z Z) (best : Match) :
  0 <= i -> i + Z.of_nat n <= la a ->
  row_diag a (i - 1) j2len [] ->
  best_diag a i best [i] ->
  m_a (flm_outer a a n i 0 (la a) j2len best)
  = m_b (flm_outer a a n i 0 (la a) j2len best).
Proof.
  revert i j2len best.
  induction n as [|n IH]; intros i j2len best Hlo Hhi Hrow Hbest; simpl.
  { by destruct Hbest. }
  destruct (flm_row_diag i j2len best) as [Hrow' Hbest']; [lia|done|done|].
  destruct (flm_inner i 0 (la a) (b2j_get a (item a i)) j2len ∅ best)
    as [newj2len best']. simpl in *.
  apply IH; [lia|lia| |].
  - by replace (i + 1 - 1) with i by lia.
  - destruct Hbest' as (? & ? & Hdom & [?%elem_of_nil|Hcur]); [done|].
    unfold best_diag. split_and!; try done; [|left; by left].
    intros i' Hi'. destruct (decide (i' = i)) as [->|]; [done|].
    apply Hdom. lia.
Qed.

Lemma same_item_self (i : Z) :
  0 <= i < la a -> same_item a a i i = true.
Proof.
  intros Hi. destruct (item_lt i Hi) as [x Hx]. unfold same_item.
  rewrite Hx. by apply bool_decide_eq_true.
Qed.

Lemma isbjunk_false (o : option A) : isbjunk o = false.
Proof.
  destruct o as [x|]; [|done]. unfold isbjunk, bjunk.
  apply bool_decide_eq_false. apply not_elem_of_empty.
Qed.

Lemma extend_back_self (n : nat) (size : Z) :
  Z.of_nat n <= la a ->
  extend_back a a n false 0 0 (mkMatch (Z.of_nat n) (Z.of_nat n) size)
  = mkMatch 0 0 (size + Z.of_nat n).
Proof.
  revert size. induction n as [|n IH]; intros size Hn.
  { simpl. f_equal. lia. }
  cbn [extend_back m_a m_b m_size].
  rewrite isbjunk_false, same_item_self by lia.
  replace (0 <? Z.of_nat (S n)) with true by (symmetry; apply Z.ltb_lt; lia).
  simpl andb. cbv iota.
  replace (Z.of_nat (S n) - 1) with (Z.of_nat n) by lia.
  rewrite IH by lia. f_equal. lia.
Qed.

Lemma extend_fwd_self (n : nat) (size : Z) :
  0 <= size -> size + Z.of_nat n <= la a ->
  extend_fwd a a n false (la a) (la a) (mkMatch 0 0 size)
  = mkMatch 0 0 (size + Z.of_nat n).
Proof.
  revert size. induction n as [|n IH]; intros size Hs Hn.
  { simpl. f_equal. lia. }
  cbn [extend_fwd m_a m_b m_size]. rewrite Z.add_0_l.
  rewrite isbjunk_false, same_item_self by lia.
  replace (size <? la a) with true by (symmetry; apply Z.ltb_lt; lia).
  simpl andb. cbv iota.
  rewrite IH by lia. f_equal. lia.
Qed.

Lemma find_longest_match_self :
  find_longest_match a a 0 (la a) 0 (la a) = mkMatch 0 0 (la a).
Proof.
  assert (Hla : 0 <= la a) by (unfold la; lia).
  unfold find_longest_match.
  pose proof (flm_outer_good a a 0 (la a) 0 (la a) (Z.to_nat (la a - 0)) 0
                ∅ (mkMatch 0 0 0)) as Hgood.
  pose proof (flm_outer_diag (Z.to_nat (la a - 0)) 0 ∅ (mkMatch 0 0 0))
    as Hdiag.
  destruct (flm_outer a a (Z.to_nat (la a - 0)) 0 0 (la a) ∅ (mkMatch 0 0 0))
    as [p q s]. simpl in Hdiag.
  destruct Hgood as [(Hp & Hps & _ & _ & Hs) _]; [lia|lia| | |].
  { intros j k. by rewrite lookup_empty. }
  { split; [unfold in_window; simpl; lia|]. intros t Ht. simpl in Ht. lia. }
  simpl in Hp, Hps, Hs.
  rewrite <- Hdiag; [|lia|lia| |].
  2:{ split; [intros j k; by rewrite lookup_empty|]. right.
      by rewrite lookup_empty, runZ_neg by lia. }
  2:{ unfold best_diag; simpl. split_and!; try lia. left. by left. }
  assert (E1 : back a a false 0 0 (mkMatch p p s) = mkMatch 0 0 (s + p)).
  { unfold back. cbn [m_a]. rewrite Z.sub_0_r.
    pose proof (extend_back_self (Z.to_nat p) s) as E.
    rewrite Z2Nat.id in E by lia. apply E. lia. }
  assert (E2 : fwd a a false (la a) (la a) (mkMatch 0 0 (s + p))
               = mkMatch 0 0 (la a)).
  { unfold fwd. cbn [m_a m_size]. rewrite extend_fwd_self by lia.
    f_equal. lia. }
  rewrite E1, E2. unfold back, fwd. cbn [m_a m_size].
  replace (Z.to_nat (0 - 0)) with O by lia. cbn [extend_back m_a m_size].
  replace (Z.to_nat (la a - (0 + la a))) with O by lia. done.
Qed.

Lemma matching_blocks_self :
  a <> [] -> matching_blocks a a = [mkMatch 0 0 (la a)].
Proof.
  intros Hne. unfold matching_blocks. change (lb a) with (la a).
  change (blocks a a (S (length a)) 0 (la a) 0 (la a))
    with (let x := find_longest_match a a 0 (la a) 0 (la a) in
          if m_size x =? 0 then []
          else (if (0 <? m_a x) && (0 <? m_b x)
                then blocks a a (length a) 0 (m_a x) 0 (m_b x) else [])
               ++ x ::
               (if (m_a x + m_size x <? la a) && (m_b x + m_size x <? la a)
                then blocks a a (length a) (m_a x + m_size x) (la a)
                       (m_b x + m_size x) (la a)
                else [])).
  rewrite find_longest_match_self. cbn [m_a m_b m_size].
  assert (Hla : 0 < la a) by (unfold la; destruct a; simpl; [done|lia]).
  replace (la a =? 0) with false by (symmetry; apply Z.eqb_neq; lia).
  rewrite Z.ltb_irrefl, Z.add_0_l, Z.ltb_irrefl. done.
Qed.

Lemma ratio_self : (ratio a a == 1)%Q.
Proof.
  unfold ratio. destruct (decide (a = [])) as [->|Hne]; [reflexivity|].
  rewrite matching_blocks_self by done. change (lb a) with (la a).
  cbn [sum_sizes fold_right m_size]. rewrite Z.add_0_r.
  apply calculate_ratio_full. unfold la. lia.
Qed.
End DiagonalFacts.
End difflib_facts.

(** ** Facts on the float comparisons *)

Module py_facts.
Import py.

Lemma ltb_lt (x y : Q) : ltb x y = true <-> (x < y)%Q.
Proof.
  unfold ltb. rewrite Qlt_alt. destruct (x ?= y)%Q; split; congruence.
Qed.

Lemma ltb_ge (x y : Q) : ltb x y = false <-> (y <= x)%Q.
Proof.
  rewrite <- not_true_iff_false, ltb_lt. split.
  - apply Qnot_lt_le.
  - apply Qle_not_lt.
Qed.

Lemma leb_le (x y : Q) : leb x y = true <-> (x <= y)%Q.
Proof.
  unfold leb. rewrite Qle_alt. destruct (x ?= y)%Q; split; congruence.
Qed.

Lemma leb_gt (x y : Q) : leb x y = false <-> (y < x)%Q.
Proof.
  rewrite <- not_true_iff_false, leb_le. split.
  - apply Qnot_le_lt.
  - apply Qlt_not_le.
Qed.

#[global] Instance ltb_proper : Proper (Qeq ==> Qeq ==> eq) ltb.
Proof.
  intros x x' Hx y y' Hy. unfold ltb. by rewrite Hx, Hy.
Qed.

#[global] Instance leb_proper : Proper (Qeq ==> Qeq ==> eq) leb.
Proof.
  intros x x' Hx y y' Hy. unfold leb. by rewrite Hx, Hy.
Qed.

Lemma truediv_Ok (x y : Q) :
  ~ (y == 0)%Q -> truediv x y = Ok (x / y)%Q.
Proof.
  intros Hy. unfold truediv.
  destruct (Qeq_bool y 0) eqn:E; [|done]. by apply Qeq_bool_eq in E.
Qed.

Lemma truediv_Raise (x y : Q) :
  (y == 0)%Q -> truediv x y = Raise ZeroDivisionError.
Proof.
  intros Hy. unfold truediv. by rewrite (Qeq_eq_bool _ _ Hy).
Qed.

End py_facts.

(** ** Facts on [normalize.py] *)

Module normalize_facts.
Import normalize normalize_aux.

Lemma list_ascii_inj (s1 s2 : string) :
  list_ascii_of_string s1 = list_ascii_of_string s2 -> s1 = s2.
Proof.
  intros E. rewrite <- (string_of_list_ascii_of_string s1),
    <- (string_of_list_ascii_of_string s2). by rewrite E.
Qed.

Lemma truthy_upper (s : string) : pystr.truthy (pystr.upper s) = pystr.truthy s.
Proof. by destruct s. Qed.

Lemma similarity_range (s1 s2 : string) :
  (0 <= similarity_score s1 s2 <= 1)%Q.
Proof.
  unfold similarity_score. destruct (_ || _); [split; discriminate|].
  apply difflib_facts.ratio_range.
Qed.

Lemma similarity_empty_l (s : string) : similarity_score "" s = 0%Q.
Proof. done. Qed.

Lemma similarity_empty_r (s : string) : similarity_score s "" = 0%Q.
Proof. unfold similarity_score. by rewrite orb_true_r. Qed.

Lemma similarity_one (s1 s2 : string) :
  (similarity_score s1 s2 == 1)%Q ->
  pystr.upper s1 = pystr.upper s2 /\ s1 <> ""%string.
Proof.
  unfold similarity_score. destruct s1 as [|c1 s1]; [discriminate|].
  destruct s2 as [|c2 s2]; [discriminate|]. simpl orb. cbv iota.
  intros E%difflib_facts.ratio_one_eq. by apply list_ascii_inj in E.
Qed.

Lemma similarity_same_upper (s1 s2 : string) :
  pystr.upper s1 = pystr.upper s2 -> s1 <> ""%string ->
  (similarity_score s1 s2 == 1)%Q.
Proof.
  intros E Hne. unfold similarity_score.
  destruct s1 as [|c1 s1]; [done|].
  destruct s2 as [|c2 s2]; [discriminate|]. simpl orb. cbv iota.
  unfold difflib.ratio_str. rewrite E. apply difflib_facts.ratio_self.
Qed.

Lemma similarity_lt_one (s1 s2 : string) :
  pystr.upper s1 <> pystr.upper s2 -> (similarity_score s1 s2 < 1)%Q.
Proof.
  intros Hne. destruct (similarity_range s1 s2) as [_ Hle].
  apply Qle_lteq in Hle as [?|E]; [done|].
  by apply similarity_one in E as [? _].
Qed.

(** *** The fuzzy loop *)

Lemma fuzzy_step_inv (nm : string) (th : Q) (seen : list CarMaster)
    (st : option CarMaster * Q) (c : CarMaster) :
  fuzzy_inv nm th seen st ->
  fuzzy_inv nm th (seen ++ [c]) (fuzzy_step nm th st c).
Proof.
  unfold fuzzy_inv, fuzzy_step. destruct st as [[best|] bs]; simpl.
  - intros (-> & Hpos & Hth & l1 & l2 & -> & H1 & H2).
    destruct (py.ltb _ _ && py.leb _ _) eqn:Hc; simpl.
    + apply andb_prop in Hc as [Hlt%py_facts.ltb_lt Hle%py_facts.leb_le].
      split_and!; [done| |done|].
      { by eapply Qlt_trans. }
      exists (l1 ++ best :: l2), []. split_and!; [done| |constructor].
      rewrite Forall_app, Forall_cons. split_and!; [|done|].
      * eapply Forall_impl; [exact H1|]. simpl. intros x Hx.
        by eapply Qlt_trans.
      * eapply Forall_impl; [exact H2|]. simpl. intros x Hx.
        by eapply Qle_lt_trans.
    + split_and!; [done..|].
      exists l1, (l2 ++ [c]). split_and!; [by rewrite <- app_assoc|done|].
      rewrite Forall_app, Forall_singleton. split; [done|].
      apply andb_false_iff in Hc as [Hc%py_facts.ltb_ge|Hc%py_facts.leb_gt];
        [done|].
      apply Qlt_le_weak. by eapply Qlt_le_trans.
  - intros [-> Hall].
    destruct (py.ltb _ _ && py.leb _ _) eqn:Hc; simpl.
    + apply andb_prop in Hc as [Hlt%py_facts.ltb_lt Hle%py_facts.leb_le].
      split_and!; [done..|]. exists seen, []. split_and!; [done| |constructor].
      eapply Forall_impl; [exact Hall|]. simpl. intros x Hx.
      destruct (Qlt_le_dec (similarity_score nm (model x))
                           (similarity_score nm (model c))) as [?|Hge]; [done|].
      exfalso. apply Hx. split.
      * by eapply Qlt_le_trans.
      * by eapply Qle_trans.
    + split; [done|]. rewrite Forall_app, Forall_singleton. split; [done|].
      intros [Hpos Hth]. apply py_facts.ltb_lt in Hpos.
      apply py_facts.leb_le in Hth. by rewrite Hpos, Hth in Hc.
Qed.

Lemma fuzzy_fold_inv (nm : string) (th : Q) (rest seen : list CarMaster)
    (st : option CarMaster * Q) :
  fuzzy_inv nm th seen st ->
  fuzzy_inv nm th (seen ++ rest) (fold_left (fuzzy_step nm th) rest st).
Proof.
  revert seen st. induction rest as [|c rest IH]; intros seen st Hinv; simpl.
  - by rewrite app_nil_r.
  - replace (seen ++ c :: rest) with ((seen ++ [c]) ++ rest)
      by (by rewrite <- app_assoc).
    apply IH. by apply fuzzy_step_inv.
Qed.

Lemma fuzzy_loop_inv (nm : string) (th : Q) (candidates : list CarMaster) :
  fuzzy_inv nm th candidates (fuzzy_loop nm th candidates).
Proof.
  apply (fuzzy_fold_inv nm th candidates []). split; [done|constructor].
Qed.

Lemma fuzzy_step_threshold (nm : string) (th th' : Q)
    (st : option CarMaster * Q) (c : CarMaster) :
  (th == th')%Q -> fuzzy_step nm th st c = fuzzy_step nm th' st c.
Proof. intros E. unfold fuzzy_step. by rewrite E. Qed.

Lemma fuzzy_loop_threshold (nm : string) (th th' : Q)
    (candidates : list CarMaster) :
  (th == th')%Q -> fuzzy_loop nm th candidates = fuzzy_loop nm th' candidates.
Proof.
  intros E. unfold fuzzy_loop. generalize (@None CarMaster, 0%Q).
  induction candidates as [|c cs IH]; intros st; simpl; [done|].
  by rewrite IH, (fuzzy_step_threshold nm th th').
Qed.

(** *** The queries *)

Lemma head_filter_None {T} (f : T -> bool) (l : list T) :
  head (List.filter f l) = None <-> List.filter f l = [].
Proof. by destruct (List.filter f l). Qed.

Lemma filter_nil_iff {T} (f : T -> bool) (l : list T) :
  List.filter f l = [] <-> forall x, x ∈ l -> f x = false.
Proof.
  induction l as [|y l IH]; simpl.
  - split; [by intros _ x ?%elem_of_nil|done].
  - destruct (f y) eqn:Hy.
    + split; [done|]. intros Hall. rewrite Hall in Hy; [done|by left].
    + rewrite IH. split.
      * intros Hall x [->|?]%elem_of_cons; [done|by apply Hall].
      * intros Hall x ?. apply Hall. by right.
Qed.

Lemma elem_of_filter {T} (f : T -> bool) (l : list T) (x : T) :
  x ∈ List.filter f l <-> x ∈ l /\ f x = true.
Proof. rewrite !list_elem_of_In. apply filter_In. Qed.

Section Database.
Variable sql_upper : string -> string.

Lemma exact_clause_split (nmk nmd : string) (yr : Z) (c : CarMaster) :
  exact_clause sql_upper nmk nmd yr c
  = make_year_clause sql_upper nmk yr c && model_clause sql_upper nmd c.
Proof.
  unfold exact_clause, make_year_clause.
  destruct (String.eqb _ _), (model_clause _ _ _), (_ =? _)%Z; done.
Qed.

Lemma find_master_car_resolve (session : Session) (mk mdl : string)
    (yr : Z) (trm : option string) (threshold : Q) :
  find_master_car sql_upper session mk mdl yr trm threshold
  = to_return (resolve sql_upper mk mdl yr session threshold).
Proof.
  unfold find_master_car, resolve, to_return.
  destruct (head (List.filter (exact_clause _ _ _ _) session)); [done|].
  destruct (fuzzy_loop _ _ _) as [[best|] bs]; [done|].
  by destruct (head (List.filter (make_year_clause _ _ _) session)).
Qed.

(** Without an exact match, a candidate of the fuzzy step on whose model
    the database and Python agree about the upper case is not at
    similarity 1. *)
Lemma no_exact_lt_one (nmk nmd : string) (yr : Z) (session : Session)
    (c : CarMaster) :
  List.filter (exact_clause sql_upper nmk nmd yr) session = [] ->
  c ∈ List.filter (make_year_clause sql_upper nmk yr) session ->
  sql_upper (model c) = pystr.upper (model c) ->
  (similarity_score nmd (model c) < 1)%Q.
Proof.
  intros Hex [Hc Hmy]%elem_of_filter Hagree.
  rewrite filter_nil_iff in Hex. specialize (Hex c Hc).
  rewrite exact_clause_split, Hmy in Hex. simpl in Hex.
  apply similarity_lt_one. unfold model_clause in Hex.
  apply String.eqb_neq in Hex. congruence.
Qed.
End Database.

End normalize_facts.

(** ** Facts on [scoring_engine.py] *)

Module scoring_facts.
Import ScoringEngine scoring_aux.
Local Open Scope Q_scope.

(** *** Price *)

Lemma inject_Z_nonzero (z : Z) : z <> 0%Z -> ~ inject_Z z == 0.
Proof. intros Hz E. apply Hz. unfold Qeq in E. simpl in E. lia. Qed.

Lemma fraction_lt (n d a b : Z) :
  (0 < d)%Z -> (0 < b)%Z ->
  (inject_Z a / inject_Z b < inject_Z n / inject_Z d <-> (a * d < n * b)%Z).
Proof.
  intros Hd Hb. destruct d as [|d|d]; try lia. destruct b as [|b|b]; try lia.
  unfold Qlt, Qdiv, Qmult, Qinv. simpl. lia.
Qed.

Lemma price_score_cases (car : Car.t) (intent : UserIntent.t) (b : Z) :
  UserIntent.budget_max intent = Some b -> (0 < b)%Z ->
  let p := Car.avg_price car in
  _score_price car intent =
    if (p <=? b)%Z then
      if (b <? 5 * (b - p))%Z
      then py.Ok (100, Some (WellUnderBudget p), None)
      else py.Ok (95, Some (FitsBudget b), None)
    else
      if (10 * (p - b) <? b)%Z
      then py.Ok (75, None, Some (SlightlyOverBudget p))
      else if (5 * (p - b) <? b)%Z
      then py.Ok (50, None, Some (AboveBudget p))
      else py.Ok (20, None, Some (SignificantlyOverBudget p)).
Proof.
  intros Hb Hpos p. unfold _score_price. rewrite Hb. simpl.
  replace (b =? 0)%Z with false by (symmetry; apply Z.eqb_neq; lia). simpl.
  fold p. rewrite !py_facts.truediv_Ok by (apply inject_Z_nonzero; lia).
  destruct (p <=? b)%Z; unfold mbind, result_bind, py.bind.
  - change 0.2 with (inject_Z 2 / inject_Z 10).
    destruct (Z.ltb_spec b (5 * (b - p))) as [Hlt|Hge].
    + rewrite (proj2 (py_facts.ltb_lt _ _)); [done|].
      apply fraction_lt; lia.
    + rewrite (proj2 (py_facts.ltb_ge _ _)); [done|].
      apply Qnot_lt_le. rewrite fraction_lt by lia. lia.
  - change 0.1 with (inject_Z 1 / inject_Z 10).
    change 0.2 with (inject_Z 2 / inject_Z 10).
    destruct (Z.ltb_spec (10 * (p - b)) b) as [Hlt|Hge].
    + rewrite (proj2 (py_facts.ltb_lt _ _)); [done|].
      apply fraction_lt; lia.
    + rewrite (proj2 (py_facts.ltb_ge _ _)).
      2:{ apply Qnot_lt_le. rewrite fraction_lt by lia. lia. }
      destruct (Z.ltb_spec (5 * (p - b)) b) as [Hlt|Hge'].
      * rewrite (proj2 (py_facts.ltb_lt _ _)); [done|].
        apply fraction_lt; lia.
      * rewrite (proj2 (py_facts.ltb_ge _ _)); [done|].
        apply Qnot_lt_le. rewrite fraction_lt by lia. lia.
Qed.

Lemma price_score_no_budget (car : Car.t) (intent : UserIntent.t) :
  py.truthy_int (UserIntent.budget_max intent) = false ->
  _score_price car intent = py.Ok (80, None, None).
Proof. intros Hb. unfold _score_price. by rewrite Hb. Qed.

Lemma price_score_total (car : Car.t) (intent : UserIntent.t) :
  exists score reason tradeoff,
    _score_price car intent = py.Ok (score, reason, tradeoff)
    /\ 0 <= score <= 100
    /\ (forall m, reason = Some m -> is_reference_message m = false).
Proof.
  unfold _score_price.
  destruct (UserIntent.budget_max intent) as [b|]; simpl.
  2:{ eexists _, _, _. split_and!; done. }
  destruct (Z.eqb_spec b 0) as [->|Hb]; simpl.
  { eexists _, _, _. split_and!; done. }
  rewrite !py_facts.truediv_Ok by (by apply inject_Z_nonzero).
  unfold mbind, result_bind, py.bind.
  repeat (match goal with |- context [if ?c then _ else _] => destruct c end);
    eexists _, _, _; split_and!; try done;
    by intros m [= <-].
Qed.

(** *** Emotional affinity *)

Lemma wanted_fold (profile : gset string) (tags : list string) (p : Z)
    (matches : list string) :
  fold_left (wanted_step profile) tags (p, matches)
  = ((p + sum_points (wanted_points profile) tags)%Z,
     matches ++ List.filter
       (fun tag => direct profile tag
                   || table_hit EMOTIONAL_SIMILARITIES profile tag) tags).
Proof.
  revert p matches. induction tags as [|tag tags IH]; intros p matches; simpl.
  - by rewrite Z.add_0_r, app_nil_r.
  - unfold wanted_step at 2, wanted_points at 1, direct, table_hit. simpl.
    destruct (bool_decide (pystr.lower tag ∈ profile)); simpl.
    + rewrite IH, <- app_assoc. simpl. f_equal; lia.
    + destruct (EMOTIONAL_SIMILARITIES !! pystr.lower tag) as [similar|].
      * destruct (bool_decide (profile ∩ similar ≠ ∅)); simpl.
        -- rewrite IH, <- app_assoc. simpl. f_equal; lia.
        -- rewrite IH. f_equal; lia.
      * rewrite IH. f_equal; lia.
Qed.

Lemma avoid_fold (profile : gset string) (tags : list string)
    (st : avoid_state) :
  fold_left (avoid_step profile) tags st
  = mkAvoid
      (negative_penalty st + negative_of profile tags)
      (positive_score st + sum_points (opposite_points profile) tags)
      (reasons st
       ++ map (fun tag => DefinitelyNot (pystr.lower tag))
            (List.filter
               (fun tag => negb (direct profile tag)
                           && table_hit NEGATIVE_OPPOSITES profile tag) tags))
      (tradeoffs st ++ tradeoffs_of profile tags).
Proof.
  revert st. induction tags as [|tag tags IH]; intros [neg pos rs ts]; simpl.
  - unfold negative_of, tradeoffs_of. simpl.
    by rewrite !Z.add_0_r, !app_nil_r.
  - rewrite IH. unfold avoid_step, opposite_points, negative_of, tradeoffs_of,
      direct, table_hit. simpl.
    destruct (bool_decide (pystr.lower tag ∈ profile)); simpl.
    + rewrite <- app_assoc. simpl. f_equal; lia.
    + destruct (NEGATIVE_OPPOSITES !! pystr.lower tag) as [opposites|].
      * destruct (bool_decide (profile ∩ opposites ≠ ∅)); simpl.
        -- rewrite <- app_assoc. simpl. f_equal; lia.
        -- f_equal; lia.
      * f_equal; lia.
Qed.

Lemma score_emotional_eq (car : Car.t) (intent : UserIntent.t) :
  let profile := car_emotions car in
  let wanted := UserIntent.emotional_tags intent in
  let avoided := UserIntent.negative_tags intent in
  _score_emotional car intent
  = (if is_empty wanted && is_empty avoided then 70
     else inject_Z (clamp (50 + Z.min (positive_of profile wanted avoided) 50
                           - Z.min (negative_of profile avoided) 40) 0 100),
     (let matches :=
        List.filter
          (fun tag => direct profile tag
                      || table_hit EMOTIONAL_SIMILARITIES profile tag) wanted in
      if is_empty matches then [] else [MatchesVibe (take 3 matches)])
     ++ map (fun tag => DefinitelyNot (pystr.lower tag))
          (List.filter
             (fun tag => negb (direct profile tag)
                         && table_hit NEGATIVE_OPPOSITES profile tag) avoided),
     tradeoffs_of profile avoided).
Proof.
  intros profile wanted avoided. unfold _score_emotional.
  fold profile wanted avoided. rewrite wanted_fold. simpl.
  rewrite avoid_fold. simpl. unfold positive_of, clamp.
  by destruct (is_empty wanted && is_empty avoided).
Qed.

Lemma score_emotional_range (car : Car.t) (intent : UserIntent.t) :
  0 <= (_score_emotional car intent).1.1 <= 100.
Proof.
  rewrite score_emotional_eq. simpl. destruct (_ && _).
  - split; discriminate.
  - unfold clamp. rewrite <- (Zle_Qle 0), <- (Zle_Qle _ 100). lia.
Qed.


(** *** The other factors *)

Ltac closed_range := split; vm_compute; discriminate.

Lemma score_performance_range (car : Car.t) (intent : UserIntent.t) :
  0 <= (_score_performance car intent).1.1 <= 100.
Proof.
  unfold _score_performance, performance_tier.
  repeat (match goal with |- context [if ?c then _ else _] => destruct c end);
    closed_range.
Qed.


Lemma score_reliability_range (car : Car.t) (intent : UserIntent.t) :
  ratings_in_scale car -> 0 <= (_score_reliability car intent).1.1 <= 100.
Proof.
  intros [[Hlo Hhi] _]. unfold _score_reliability.
  assert (Hbase : 0 <= Car.reliability_score car * 10 <= 100) by lra.
  repeat (match goal with |- context [if ?c then _ else _] => destruct c end);
    simpl; try done.
  split.
  - eapply Qle_trans; [|apply Q.le_max_r]. discriminate.
  - apply Q.max_lub; [lra|discriminate].
Qed.


Lemma score_drivetrain_range (car : Car.t) (intent : UserIntent.t) :
  0 <= (_score_drivetrain car intent).1.1 <= 100.
Proof.
  unfold _score_drivetrain.
  repeat (match goal with |- context [if ?c then _ else _] => destruct c end);
    closed_range.
Qed.


Lemma score_body_style_range (car : Car.t) (intent : UserIntent.t) :
  0 <= _score_body_style car intent <= 100.
Proof.
  unfold _score_body_style.
  repeat (match goal with |- context [if ?c then _ else _] => destruct c end);
    closed_range.
Qed.

Lemma score_ownership_range (car : Car.t) (intent : UserIntent.t) :
  ratings_in_scale car -> 0 <= _score_ownership_cost car intent <= 100.
Proof. intros [_ [Hlo Hhi]]. unfold _score_ownership_cost. lra. Qed.

Lemma closeness_nonneg (diff t1 t2 t3 : Q) (p1 p2 p3 : Z) :
  (0 <= p1)%Z -> (0 <= p2)%Z -> (0 <= p3)%Z ->
  (0 <= closeness diff t1 t2 t3 p1 p2 p3)%Z.
Proof.
  intros. unfold closeness.
  repeat (match goal with |- context [if ?c then _ else _] => destruct c end);
    lia.
Qed.

(** The reference scorer returns whenever the reference car has a
    horsepower and an average price other than 0. *)
Lemma score_reference_total (car reference : Car.t) :
  Car.power_hp reference <> 0%Z -> Car.avg_price reference <> 0%Z ->
  exists score reason,
    _score_reference_similarity car reference = py.Ok (score, reason)
    /\ 0 <= score <= 100.
Proof.
  intros Hhp Hprice. unfold _score_reference_similarity.
  rewrite !py_facts.truediv_Ok by (by apply inject_Z_nonzero).
  unfold mbind, mret, result_bind, result_ret, py.bind.
  eexists _, _. split; [done|].
  set (c1 := closeness _ 0.1 0.2 0.3 20 12 5).
  set (c2 := closeness _ 0.3 0.6 1.0 15 10 5).
  set (c3 := closeness _ 0.1 0.2 0.3 15 10 5).
  assert (0 <= c1)%Z by (by apply closeness_nonneg).
  assert (0 <= c2)%Z by (by apply closeness_nonneg).
  assert (0 <= c3)%Z by (by apply closeness_nonneg).
  rewrite <- (Zle_Qle 0), <- (Zle_Qle _ 100).
  destruct (String.eqb (Car.drivetrain car) (Car.drivetrain reference)),
    (String.eqb (Car.body_type car) (Car.body_type reference)); lia.
Qed.

Lemma score_reference_range (car reference : Car.t) (score : Q)
    (reason : option message) :
  _score_reference_similarity car reference = py.Ok (score, reason) ->
  0 <= score <= 100.
Proof.
  unfold _score_reference_similarity, mbind, mret, result_bind, result_ret,
    py.bind.
  destruct (py.truediv _ _) as [power_diff|]; [|done].
  destruct (py.truediv _ _) as [price_diff|]; [|done].
  intros [= <- _].
  set (c1 := closeness _ 0.1 0.2 0.3 20 12 5).
  set (c2 := closeness _ 0.3 0.6 1.0 15 10 5).
  set (c3 := closeness _ 0.1 0.2 0.3 15 10 5).
  assert (0 <= c1)%Z by (by apply closeness_nonneg).
  assert (0 <= c2)%Z by (by apply closeness_nonneg).
  assert (0 <= c3)%Z by (by apply closeness_nonneg).
  rewrite <- (Zle_Qle 0), <- (Zle_Qle _ 100).
  destruct (String.eqb (Car.drivetrain car) (Car.drivetrain reference)),
    (String.eqb (Car.body_type car) (Car.body_type reference)); lia.
Qed.

Lemma score_reference_raises (car reference : Car.t) :
  Car.power_hp reference = 0%Z ->
  _score_reference_similarity car reference = py.Raise py.ZeroDivisionError.
Proof.
  intros Hhp. unfold _score_reference_similarity.
  rewrite Hhp, (py_facts.truediv_Raise _ (inject_Z 0)) by reflexivity.
  reflexivity.
Qed.

(** *** The factor passes *)

Lemma factor_scores_eq (car : Car.t) (intent : UserIntent.t)
    (reference_car : option Car.t) :
  factor_scores car intent reference_car =
    match _score_price car intent with
    | py.Ok (price, price_reason, price_tradeoff) =>
        let scores := base_scores car intent price in
        let reasons := base_reasons car intent price_reason in
        let tradeoffs := base_tradeoffs car intent price_tradeoff in
        let own := _score_ownership_cost car intent in
        match reference_car with
        | Some reference =>
            if negb (String.eqb (Car.id car) (Car.id reference)) then
              match _score_reference_similarity car reference with
              | py.Ok (ref_score, ref_reason) =>
                  py.Ok (<["ownership" := own]>
                           (<["reference" := ref_score]> scores),
                         reasons ++ some_list ref_reason, tradeoffs)
              | py.Raise e => py.Raise e
              end
            else py.Ok (<["ownership" := own]> scores, reasons, tradeoffs)
        | None => py.Ok (<["ownership" := own]> scores, reasons, tradeoffs)
        end
    | py.Raise e => py.Raise e
    end.
Proof.
  unfold factor_scores, base_scores, base_reasons, base_tradeoffs.
  destruct (_score_price car intent) as [[[price pr] pt]|e]; [|done].
  unfold mbind, mret, result_bind, result_ret, py.bind.
  destruct (_score_performance car intent) as [[? ?] ?].
  destruct (_score_reliability car intent) as [[? ?] ?].
  destruct (_score_drivetrain car intent) as [[? ?] ?].
  destruct (_score_emotional car intent) as [[? ?] ?]. simpl.
  destruct reference_car as [reference|]; [|done].
  destruct (negb _); [|done].
  by destruct (_score_reference_similarity car reference) as [[? ?]|e].
Qed.


Lemma base_scores_range (car : Car.t) (intent : UserIntent.t) (price : Q)
    (key : string) (v : Q) :
  ratings_in_scale car -> 0 <= price <= 100 ->
  base_scores car intent price !! key = Some v -> 0 <= v <= 100.
Proof.
  intros Hscale Hprice. unfold base_scores.
  rewrite !lookup_insert_Some, lookup_empty.
  intros [[_ <-]|[_ [[_ <-]|[_ [[_ <-]|[_ [[_ <-]|[_ [[_ <-]|[_ [[_ <-]|[_ ?]]]]]]]]]]]];
    [apply score_emotional_range|apply score_body_style_range
    |apply score_drivetrain_range|by apply score_reliability_range
    |apply score_performance_range|done|done].
Qed.


Lemma factor_scores_range (car : Car.t) (intent : UserIntent.t)
    (reference_car : option Car.t) (scores : gmap string Q)
    (reasons tradeoffs : list message) :
  ratings_in_scale car ->
  factor_scores car intent reference_car = py.Ok (scores, reasons, tradeoffs) ->
  forall key v, scores !! key = Some v -> 0 <= v <= 100.
Proof.
  intros Hscale. rewrite factor_scores_eq.
  destruct (price_score_total car intent)
    as (price & pr & pt & -> & Hprice & _). simpl.
  assert (Hbase : forall key v,
             (<["ownership" := _score_ownership_cost car intent]>
                (base_scores car intent price)) !! key = Some v ->
             0 <= v <= 100).
  { intros key v [[_ <-]|[_ Hv]]%lookup_insert_Some.
    - by apply score_ownership_range.
    - by eapply base_scores_range. }
  destruct reference_car as [reference|]; [|by intros [= <- _ _]].
  destruct (negb _); [|by intros [= <- _ _]].
  destruct (_score_reference_similarity car reference)
    as [[ref_score ref_reason]|e] eqn:Href; [|done].
  intros [= <- _ _] key v [[_ <-]|[_ [[_ <-]|[_ Hv]]%lookup_insert_Some]]%lookup_insert_Some.
  - by apply score_ownership_range.
  - by eapply score_reference_range.
  - by eapply base_scores_range.
Qed.

(** *** The weights *)

Lemma overridden_false (intent : UserIntent.t) (key : string) :
  overridden intent key = false ->
  (py.ltb 0.7 (UserIntent.performance_priority intent) = true ->
     key <> "performance"%string /\ key <> "emotional"%string)
  /\ (py.ltb 0.7 (UserIntent.reliability_priority intent) = true ->
       key <> "reliability"%string /\ key <> "ownership"%string)
  /\ (py.truthy_str (UserIntent.drivetrain intent) = true ->
       key <> "drivetrain"%string).
Proof.
  unfold overridden. intros Ho.
  apply orb_false_iff in Ho as [Ho Hd]. apply orb_false_iff in Ho as [Hp Hr].
  split_and!; intros Hc; rewrite Hc in *; simpl in *.
  - apply orb_false_iff in Hp as [?%String.eqb_neq ?%String.eqb_neq]. done.
  - apply orb_false_iff in Hr as [?%String.eqb_neq ?%String.eqb_neq]. done.
  - by apply String.eqb_neq.
Qed.

(** A key the priorities do not replace keeps the weight it has after the
    reference step. *)
Lemma weights_of_lookup (scores : gmap string Q) (intent : UserIntent.t)
    (has_reference : bool) (key : string) :
  overridden intent key = false ->
  weights_of scores intent has_reference !! key =
    (if has_reference && bool_decide (is_Some (scores !! "reference"))
     then map_imap
            (fun k w => Some (if String.eqb k "reference" then w else w * 0.85))
            (<["reference" := 0.15]> base_weights)
     else base_weights) !! key.
Proof.
  intros (Hp & Hr & Hd)%overridden_false. unfold weights_of.
  destruct (py.truthy_str _).
  { specialize (Hd eq_refl). rewrite lookup_insert_ne by done.
    destruct (py.ltb 0.7 (UserIntent.reliability_priority intent)).
    - destruct (Hr eq_refl). rewrite !lookup_insert_ne by done.
      destruct (py.ltb 0.7 (UserIntent.performance_priority intent)); [|done].
      destruct (Hp eq_refl). by rewrite !lookup_insert_ne by done.
    - destruct (py.ltb 0.7 (UserIntent.performance_priority intent)); [|done].
      destruct (Hp eq_refl). by rewrite !lookup_insert_ne by done. }
  destruct (py.ltb 0.7 (UserIntent.reliability_priority intent)).
  - destruct (Hr eq_refl). rewrite !lookup_insert_ne by done.
    destruct (py.ltb 0.7 (UserIntent.performance_priority intent)); [|done].
    destruct (Hp eq_refl). by rewrite !lookup_insert_ne by done.
  - destruct (py.ltb 0.7 (UserIntent.performance_priority intent)); [|done].
    destruct (Hp eq_refl). by rewrite !lookup_insert_ne by done.
Qed.

Lemma overridden_reference (intent : UserIntent.t) :
  overridden intent "reference" = false.
Proof.
  unfold overridden. simpl. by rewrite !andb_false_r.
Qed.



Lemma weights_unscaled (scores : gmap string Q) (intent : UserIntent.t)
    (has_reference : bool) :
  scores !! "reference"%string = None ->
  weights_of scores intent has_reference !! "reference"%string = None
  /\ forall key w, base_weights !! key = Some w ->
       overridden intent key = false ->
       weights_of scores intent has_reference !! key = Some w.
Proof.
  intros Hn.
  assert (Hc : has_reference && bool_decide (is_Some (scores !! "reference"%string))
               = false).
  { rewrite Hn, (bool_decide_eq_false_2 (is_Some None)).
    - apply andb_false_r.
    - by intros [? ?]. }
  split.
  - rewrite weights_of_lookup by apply overridden_reference. by rewrite Hc.
  - intros key w Hw Ho. rewrite weights_of_lookup by done. by rewrite Hc.
Qed.

Lemma weights_scaled (scores : gmap string Q) (intent : UserIntent.t) :
  is_Some (scores !! "reference"%string) ->
  weights_of scores intent true !! "reference"%string = Some 0.15
  /\ forall key w, base_weights !! key = Some w ->
       overridden intent key = false ->
       weights_of scores intent true !! key = Some (w * 0.85).
Proof.
  intros Hs.
  assert (Hc : true && bool_decide (is_Some (scores !! "reference"%string)) = true)
    by (by rewrite bool_decide_eq_true_2).
  split.
  - rewrite weights_of_lookup by apply overridden_reference. rewrite Hc.
    rewrite map_lookup_imap, lookup_insert_eq. done.
  - intros key w Hw Ho. rewrite weights_of_lookup by done. rewrite Hc.
    assert (key <> "reference"%string) by (intros ->; discriminate Hw).
    rewrite map_lookup_imap, lookup_insert_ne, Hw by done. simpl.
    by rewrite (proj2 (String.eqb_neq _ _)).
Qed.

(** *** The aggregate *)

Lemma weighted_score_eq (scores : gmap string Q) (intent : UserIntent.t)
    (has_reference : bool) :
  let weights := weights_of scores intent has_reference in
  let total_weight := total_weight_of weights scores in
  let weighted_sum := weighted_sum_of weights scores in
  exists q, _calculate_weighted_score scores intent has_reference = py.Ok q
    /\ (0 < total_weight -> q == weighted_sum)
    /\ (total_weight <= 0 -> q = 50).
Proof.
  intros weights total_weight weighted_sum. unfold _calculate_weighted_score.
  fold weights. fold total_weight. fold weighted_sum.
  destruct (py.ltb 0 total_weight) eqn:Hc.
  - apply py_facts.ltb_lt in Hc.
    rewrite py_facts.truediv_Ok by (intros E; rewrite E in Hc; discriminate Hc).
    eexists. split; [done|]. split.
    + intros _. field. intros E. rewrite E in Hc. discriminate Hc.
    + intros Hle. exfalso. by apply (Qlt_not_le _ _ Hc).
  - apply py_facts.ltb_ge in Hc. eexists. split; [done|]. split; [|done].
    intros Hlt. exfalso. by apply (Qlt_not_le _ _ Hlt).
Qed.

Lemma score_car_eq (car : Car.t) (intent : UserIntent.t)
    (reference_car : option Car.t) :
  _score_car car intent reference_car =
    match factor_scores car intent reference_car with
    | py.Ok (scores, reasons, tradeoffs) =>
        match _calculate_weighted_score scores intent
                (is_some reference_car) with
        | py.Ok final_score =>
            py.Ok (final_score, take 4 reasons, take 3 tradeoffs)
        | py.Raise e => py.Raise e
        end
    | py.Raise e => py.Raise e
    end.
Proof.
  unfold _score_car, mbind, mret, result_bind, result_ret, py.bind.
  destruct (factor_scores car intent reference_car)
    as [[[scores reasons] tradeoffs]|e]; [|reflexivity].
  cbv beta iota.
  destruct (_calculate_weighted_score scores intent (is_some reference_car));
    reflexivity.
Qed.

Lemma factor_scores_returns (car : Car.t) (intent : UserIntent.t)
    (reference_car : option Car.t) :
  (forall reference, reference_car = Some reference ->
     Car.power_hp reference <> 0%Z /\ Car.avg_price reference <> 0%Z) ->
  exists v, factor_scores car intent reference_car = py.Ok v.
Proof.
  intros Href. rewrite factor_scores_eq.
  destruct (price_score_total car intent) as (price & pr & pt & -> & _ & _).
  cbv beta iota zeta.
  destruct reference_car as [reference|]; [|by eexists].
  destruct (negb _); [|by eexists].
  destruct (Href reference eq_refl) as [Hhp Hprice].
  destruct (score_reference_total car reference Hhp Hprice)
    as (s & r & -> & _).
  by eexists.
Qed.

(** [_score_car] returns unless the reference scorer raises. *)
Lemma score_car_returns (car : Car.t) (intent : UserIntent.t)
    (reference_car : option Car.t) :
  (forall reference, reference_car = Some reference ->
     Car.power_hp reference <> 0%Z /\ Car.avg_price reference <> 0%Z) ->
  exists v, _score_car car intent reference_car = py.Ok v.
Proof.
  intros Href. rewrite score_car_eq.
  destruct (factor_scores_returns car intent reference_car Href)
    as ([[scores reasons] tradeoffs] & ->).
  destruct (weighted_score_eq scores intent (is_some reference_car))
    as (q & -> & _).
  by eexists.
Qed.



Lemma base_scores_no_reference (car : Car.t) (intent : UserIntent.t)
    (price own : Q) :
  (<["ownership" := own]> (base_scores car intent price))
    !! "reference"%string = None.
Proof.
  unfold base_scores. by rewrite !lookup_insert_ne, lookup_empty by done.
Qed.

Lemma factor_scores_other (car R : Car.t) (intent : UserIntent.t)
    (scores : gmap string Q) (reasons tradeoffs : list message) :
  Car.id car <> Car.id R ->
  factor_scores car intent (Some R) = py.Ok (scores, reasons, tradeoffs) ->
  is_Some (scores !! "reference"%string).
Proof.
  intros Hid. rewrite factor_scores_eq.
  destruct (_score_price car intent) as [[[? ?] ?]|]; [|done].
  rewrite (proj2 (String.eqb_neq _ _)) by done. cbn [negb].
  cbv beta iota zeta.
  destruct (_score_reference_similarity car R) as [[ref_score ?]|]; [|done].
  intros [= <- _ _].
  rewrite lookup_insert_ne by done. rewrite lookup_insert_eq. by eexists.
Qed.

End scoring_facts.

(** * The resolver and the similarity ratio *)

Section ResolverClaims.
Import normalize.
Local Open Scope Q_scope.

Variable sql_upper : string -> string.
Local Notation make_year_clause := (normalize.make_year_clause sql_upper).
Local Notation exact_clause := (normalize.exact_clause sql_upper).
Local Notation find_master_car := (normalize.find_master_car sql_upper).
Local Notation resolve := (normalize.resolve sql_upper).

Variables (mk mdl : string) (yr : Z) (candidates : Session).

(** C3, amended: for every call of the resolver the tier is one of
    [EXACT], [FUZZY], [FALLBACK], [NONE] (the four constructors of
    [Tier]); the confidence is exactly 1 at [EXACT], lies in
    [[threshold, 1]] at [FUZZY], is exactly 0.3 at [FALLBACK], and is 0
    with no match id at [NONE].  At [FUZZY] the confidence is below 1 when
    the database and Python agree on the upper case of the candidates'
    models.  The labelled result is what [find_master_car] returns. *)
Theorem resolve_tier_confidence (trm : option string) (threshold : Q) :
  let r := resolve mk mdl yr candidates threshold in
  find_master_car candidates mk mdl yr trm threshold = to_return r
  /\ match tier r with
     | EXACT => confidence r = 1 /\ is_Some (matched_vehicle_id r)
     | FUZZY =>
         threshold <= confidence r /\ confidence r <= 1
         /\ is_Some (matched_vehicle_id r)
         /\ ((forall c, c ∈ candidates ->
                sql_upper (model c) = pystr.upper (model c)) ->
             confidence r < 1)
     | FALLBACK => confidence r = 0.3 /\ is_Some (matched_vehicle_id r)
     | NONE => confidence r = 0 /\ matched_vehicle_id r = None
     end.
Proof.
  intros r. split; [apply normalize_facts.find_master_car_resolve|].
  subst r. unfold normalize.resolve.
  destruct (head (List.filter (exact_clause _ _ _) candidates)) eqn:Hex;
    simpl; [by eauto|].
  apply normalize_facts.head_filter_None in Hex.
  pose proof (normalize_facts.fuzzy_loop_inv (normalize_model mdl) threshold
                (List.filter (make_year_clause (normalize_make mk) yr)
                   candidates)) as Hinv.
  unfold normalize_aux.fuzzy_inv in Hinv.
  destruct (fuzzy_loop _ _ _) as [[best|] bs]; simpl in *.
  - destruct Hinv as (-> & _ & Hth & l1 & l2 & Hsplit & _).
    assert (Hbest : best ∈ List.filter
              (make_year_clause (normalize_make mk) yr) candidates).
    { rewrite Hsplit. apply elem_of_app. right. by left. }
    split_and!; [done| |by eauto|].
    + apply normalize_facts.similarity_range.
    + intros Hagree.
      eapply normalize_facts.no_exact_lt_one; [exact Hex|exact Hbest|].
      apply Hagree.
      by apply normalize_facts.elem_of_filter in Hbest as [? _].
  - destruct (head (List.filter (make_year_clause _ _) candidates));
      simpl; by eauto.
Qed.


End ResolverClaims.


(** C3, as stated, fails: a fuzzy match can have a confidence of exactly
    1.  With a database whose [upper] converts the ASCII letters only (as
    that of SQLite does), the row ["Mégane"] is no exact match of the
    listing ["MÉGANE"], and Python's [str.upper] makes the two models
    equal, so the fuzzy step returns the row at similarity 1. *)
Lemma resolve_fuzzy_confidence_one :
  let r :=
    normalize.resolve sql_aux.ascii_upper "Renault" sql_aux.MEGANE 2020
      [normalize.mkCarMaster 1 "Renault" sql_aux.megane 2020 None] 0.8%Q in
  normalize.tier r = normalize.FUZZY
  /\ normalize.matched_vehicle_id r = Some 1%Z
  /\ (normalize.confidence r == 1)%Q
  /\ ~ (normalize.confidence r < 1)%Q.
Proof.
  vm_compute. split_and!; [reflexivity|reflexivity|reflexivity|discriminate].
Qed.

Lemma resolve_tier_confidence_witness :
  (normalize.confidence
     (normalize.resolve sql_aux.ascii_upper "Chevy" "Camaro SS" 2020
        [normalize.mkCarMaster 7 "Chevrolet" "Camaro" 2020 None] 0.8%Q) < 1)%Q.
Proof.
  pose proof (resolve_tier_confidence sql_aux.ascii_upper
    "Chevy" "Camaro SS" 2020
    [normalize.mkCarMaster 7 "Chevrolet" "Camaro" 2020 None] None 0.8%Q)
    as H.
  cbv zeta in H. apply proj2 in H.
  replace (normalize.tier
             (normalize.resolve sql_aux.ascii_upper "Chevy" "Camaro SS" 2020
                [normalize.mkCarMaster 7 "Chevrolet" "Camaro" 2020 None]
                0.8%Q))
    with normalize.FUZZY in H by (vm_compute; reflexivity).
  cbv beta iota in H. destruct H as (_ & _ & _ & H). apply H.
  intros c Hc. apply list_elem_of_singleton in Hc as ->.
  vm_compute. reflexivity.
Defined.

Section SimilarityClaims.
Import normalize.
Local Open Scope Q_scope.

(** C5, as stated, fails: the ratio of [SequenceMatcher] depends on the
    order of its arguments, and two empty strings score 0, not 1. *)
Lemma similarity_not_symmetric :
  ~ (forall a b : string,
       similarity_score a b == similarity_score b a
       /\ similarity_score a a == 1
       /\ similarity_score "" b == 0
       /\ 0 <= similarity_score a b <= 1).
Proof.
  intros Hall. destruct (Hall "tide" "diet")%string as [Hsym _].
  vm_compute in Hsym. discriminate Hsym.
Qed.

(** C5, amended: the result always lies in [[0,1]]; an empty string on
    either side scores 0; a non-empty string scores 1 against itself; and
    a pair scores 1 in one order exactly when it does in the other. *)
Theorem similarity_score_properties (a b : string) :
  0 <= similarity_score a b <= 1
  /\ similarity_score "" b = 0
  /\ similarity_score a "" = 0
  /\ (a <> ""%string -> similarity_score a a == 1)
  /\ (similarity_score a b == 1 <-> similarity_score b a == 1).
Proof.
  split_and!.
  - apply normalize_facts.similarity_range.
  - apply normalize_facts.similarity_range.
  - apply normalize_facts.similarity_empty_l.
  - apply normalize_facts.similarity_empty_r.
  - intros Hne. by apply normalize_facts.similarity_same_upper.
  - assert (Hone : forall s1 s2 : string,
               similarity_score s1 s2 == 1 -> similarity_score s2 s1 == 1).
    { intros s1 s2 [Hup Hne]%normalize_facts.similarity_one.
      apply normalize_facts.similarity_same_upper; [done|].
      intros ->. destruct s1; [done|discriminate Hup]. }
    split; apply Hone.
Qed.

End SimilarityClaims.

Lemma similarity_score_properties_witness :
  (normalize.similarity_score "Camaro" "Camaro" == 1)%Q.
Proof.
  refine (proj1 (proj2 (proj2 (proj2
    (similarity_score_properties "Camaro" "Camaro")))) _).
  discriminate.
Defined.

(** * The scoring engine *)

Section ScoringClaims.
Import ScoringEngine scoring_aux Examples.
Local Open Scope Q_scope.

(** C1: the scores are meant to stay in [[0,100]], and every factor does
    for a car rated on the 0-10 scale; the aggregate does not.  For [wrx]
    under [keen_intent] all seven factors are 100 and the weights after the
    priority overrides add up to 1.22, so the aggregate is 122. *)
Theorem aggregate_exceeds_scale :
  ratings_in_scale wrx
  /\ (forall scores reasons tradeoffs,
        factor_scores wrx keen_intent None
        = py.Ok (scores, reasons, tradeoffs) ->
        forall key v, scores !! key = Some v -> 0 <= v <= 100)
  /\ exists q reasons tradeoffs,
       _score_car wrx keen_intent None = py.Ok (q, reasons, tradeoffs)
       /\ q == 122 /\ 100 < q.
Proof.
  assert (Hscale : ratings_in_scale wrx) by (by split; split).
  split_and!; [done| |].
  - intros scores reasons tradeoffs.
    by apply scoring_facts.factor_scores_range.
  - eexists _, _, _. split; [vm_compute; reflexivity|].
    split; vm_compute; reflexivity.
Qed.

(** C2: the aggregate is the weighted sum of the factors present, not that
    sum divided by the total weight.  For [wrx] under [awd_intent] the
    weights add up to 1.05: the weighted sum, which the code returns, is
    93, and the weighted average is 93 / 1.05. *)
Theorem aggregate_not_weighted_average :
  let scores :=
    <["ownership" := _score_ownership_cost wrx awd_intent]>
      (base_scores wrx awd_intent 80) in
  let weights := weights_of scores awd_intent false in
  (exists reasons tradeoffs,
     factor_scores wrx awd_intent None = py.Ok (scores, reasons, tradeoffs))
  /\ total_weight_of weights scores == 1.05
  /\ weighted_sum_of weights scores == 93
  /\ exists q,
       _calculate_weighted_score scores awd_intent false = py.Ok q
       /\ q == 93
       /\ ~ q == weighted_sum_of weights scores
                 / total_weight_of weights scores.
Proof.
  intros scores weights. split_and!.
  - rewrite scoring_facts.factor_scores_eq.
    change (_score_price wrx awd_intent)
      with (py.Ok (T := Q * option message * option message)
              (80, None, None)).
    cbv beta iota zeta. by eexists _, _.
  - vm_compute. reflexivity.
  - vm_compute. reflexivity.
  - eexists. split; [vm_compute; reflexivity|].
    split; vm_compute; [reflexivity|discriminate].
Qed.

(** C6: the scoring pass is not total.  With a reference car whose
    horsepower is 0, scoring any other car raises [ZeroDivisionError] in
    the reference-similarity scorer. *)
Theorem score_car_raises_on_zero_horsepower :
  Car.id wrx <> Car.id no_power
  /\ _score_reference_similarity wrx no_power = py.Raise py.ZeroDivisionError
  /\ _score_car wrx keen_intent (Some no_power)
     = py.Raise py.ZeroDivisionError.
Proof.
  split_and!; [discriminate|vm_compute; reflexivity|vm_compute; reflexivity].
Qed.

(** C4, as stated, fails: a car under budget with a headroom of exactly
    20% (so of at least 20%) scores 95, not 100. *)
Lemma price_score_at_exact_headroom :
  UserIntent.budget_max budget_10000 = Some 10000%Z
  /\ (Car.avg_price car_8000 <= 10000)%Z
  /\ 0.2 <= inject_Z (10000 - Car.avg_price car_8000) / inject_Z 10000
  /\ _score_price car_8000 budget_10000
     = py.Ok (95, Some (FitsBudget 10000), None)
  /\ ~ (exists q reason tradeoff,
          _score_price car_8000 budget_10000 = py.Ok (q, reason, tradeoff)
          /\ q == 100).
Proof.
  split_and!;
    [reflexivity|by vm_compute|by vm_compute|vm_compute; reflexivity|].
  intros (q & reason & tradeoff & Hq & E).
  change (_score_price car_8000 budget_10000)
    with (py.Ok (T := Q * option message * option message)
            (95, Some (FitsBudget 10000), None)) in Hq.
  injection Hq as <- _ _. discriminate E.
Qed.

(** C4, amended: with no [budget_max], or a [budget_max] of 0, the price
    score is a neutral 80; with a positive budget, a car priced at or under
    it scores 100 when the headroom is more than 20% of the budget and 95
    otherwise, both with a reason and no tradeoff; a car priced over it
    scores 75 when less than 10% over, 50 when less than 20% over and 20
    from 20% over on, each with a tradeoff and no reason. *)
Theorem price_score_rule (car : Car.t) (intent : UserIntent.t) :
  let p := Car.avg_price car in
  match UserIntent.budget_max intent with
  | None => _score_price car intent = py.Ok (80, None, None)
  | Some b =>
      (b = 0%Z -> _score_price car intent = py.Ok (80, None, None))
      /\ ((0 < b)%Z ->
          ((p <= b)%Z -> (b < 5 * (b - p))%Z ->
             _score_price car intent
             = py.Ok (100, Some (WellUnderBudget p), None))
          /\ ((p <= b)%Z -> (5 * (b - p) <= b)%Z ->
                _score_price car intent
                = py.Ok (95, Some (FitsBudget b), None))
          /\ ((b < p)%Z -> (10 * (p - b) < b)%Z ->
                _score_price car intent
                = py.Ok (75, None, Some (SlightlyOverBudget p)))
          /\ ((b < p)%Z -> (b <= 10 * (p - b))%Z -> (5 * (p - b) < b)%Z ->
                _score_price car intent
                = py.Ok (50, None, Some (AboveBudget p)))
          /\ ((b < p)%Z -> (b <= 5 * (p - b))%Z ->
                _score_price car intent
                = py.Ok (20, None, Some (SignificantlyOverBudget p))))
  end.
Proof.
  intros p. destruct (UserIntent.budget_max intent) as [b|] eqn:Hb.
  2:{ apply scoring_facts.price_score_no_budget. by rewrite Hb. }
  split.
  { intros ->. apply scoring_facts.price_score_no_budget. by rewrite Hb. }
  intros Hpos.
  pose proof (scoring_facts.price_score_cases car intent b Hb Hpos) as Hc.
  simpl in Hc. fold p in Hc. rewrite Hc.
  split_and!; intros;
    repeat (match goal with
            | |- context [(?x <=? ?y)%Z] => destruct (Z.leb_spec x y)
            | |- context [(?x <? ?y)%Z] => destruct (Z.ltb_spec x y)
            end); done || lia.
Qed.

(** C8: the emotional score.  For an intent with at least one emotional or
    negative tag it is
    [clamp(50 + min(positive, 50) - min(negative, 40), 0, 100)], where
    [positive] adds 20 for a wanted tag directly in the car's profile, 12
    for one of which only a related tag is, and 10 for an avoided tag the
    car does not exhibit while it exhibits a recorded opposite, and
    [negative] adds 25 for each avoided tag the car exhibits; each such tag
    gives one tradeoff naming it; an intent with neither kind of tag scores
    a flat 70. *)
Theorem emotional_score_rule (car : Car.t) (intent : UserIntent.t) :
  let profile := car_emotions car in
  let wanted := UserIntent.emotional_tags intent in
  let avoided := UserIntent.negative_tags intent in
  let score := (_score_emotional car intent).1.1 in
  let tradeoffs := (_score_emotional car intent).2 in
  (wanted = [] /\ avoided = [] -> score = 70)
  /\ (wanted <> [] \/ avoided <> [] ->
      score = inject_Z
                (clamp (50 + Z.min (positive_of profile wanted avoided) 50
                        - Z.min (negative_of profile avoided) 40) 0 100))
  /\ tradeoffs = tradeoffs_of profile avoided
  /\ (forall tag, tag ∈ avoided -> pystr.lower tag ∈ profile ->
        MayFeel (pystr.lower tag) ∈ tradeoffs).
Proof.
  intros profile wanted avoided score tradeoffs. subst score tradeoffs.
  rewrite scoring_facts.score_emotional_eq. fold profile wanted avoided.
  simpl. split_and!.
  - by intros [-> ->].
  - intros [Hw|Ha]; [by destruct wanted|].
    destruct wanted; [by destruct avoided|done].
  - done.
  - intros tag Hin Hprof. unfold tradeoffs_of.
    apply list_elem_of_In, in_map_iff. exists tag. split; [done|].
    apply filter_In. split; [by apply list_elem_of_In|].
    unfold direct. by apply bool_decide_eq_true.
Qed.

End ScoringClaims.

Lemma price_score_rule_witness :
  ScoringEngine._score_price Examples.wrx Examples.keen_intent
  = py.Ok (100%Q, Some (ScoringEngine.WellUnderBudget 28000), None).
Proof.
  refine (proj1 (proj2 (price_score_rule Examples.wrx Examples.keen_intent) _)
            _ _); vm_compute; [reflexivity|discriminate|reflexivity].
Defined.

Lemma emotional_score_rule_witness :
  (ScoringEngine._score_emotional Examples.dull Examples.avoid_boring).1.1
  = inject_Z
      (scoring_aux.clamp
         (50 + Z.min (scoring_aux.positive_of
                        (ScoringEngine.car_emotions Examples.dull)
                        [] ["boring"%string]) 50
          - Z.min (scoring_aux.negative_of
                     (ScoringEngine.car_emotions Examples.dull)
                     ["boring"%string]) 40) 0 100)
  /\ ScoringEngine.MayFeel "boring"
     ∈ (ScoringEngine._score_emotional Examples.dull Examples.avoid_boring).2.
Proof.
  split.
  - refine (proj1 (proj2
      (emotional_score_rule Examples.dull Examples.avoid_boring)) _).
    right. discriminate.
  - refine (proj2 (proj2 (proj2
      (emotional_score_rule Examples.dull Examples.avoid_boring)))
      "boring"%string _ _).
    + left.
    + vm_compute. reflexivity.
Defined.

(** * Further properties of the resolver *)

Module resolver_more.
Import normalize normalize_aux.
Local Open Scope Q_scope.

(** Two ways of cutting a list at a first element of greatest value are
    the same cut. *)
Lemma first_max_unique {T} (f : T -> Q) (l1 l2 m1 m2 : list T) (c d : T) :
  l1 ++ c :: l2 = m1 ++ d :: m2 ->
  Forall (fun x => f x < f c) l1 -> Forall (fun x => f x <= f c) l2 ->
  Forall (fun x => f x < f d) m1 -> Forall (fun x => f x <= f d) m2 ->
  l1 = m1 /\ c = d /\ l2 = m2.
Proof.
  revert m1. induction l1 as [|x l1 IH]; intros m1 E Hl1 Hl2 Hm1 Hm2.
  - destruct m1 as [|y m1]; simpl in E.
    + by injection E as -> ->.
    + injection E as Ec El2. subst c l2. exfalso.
      apply Forall_cons in Hm1 as [Hc _].
      assert (Hd : f d <= f y).
      { rewrite Forall_forall in Hl2. apply Hl2.
        apply elem_of_app. right. by left. }
      by apply (Qlt_not_le _ _ Hc).
  - destruct m1 as [|y m1]; simpl in E.
    + injection E as Ed Em2. subst d m2. exfalso.
      apply Forall_cons in Hl1 as [Hd _].
      assert (Hc : f c <= f x).
      { rewrite Forall_forall in Hm2. apply Hm2.
        apply elem_of_app. right. by left. }
      by apply (Qlt_not_le _ _ Hd).
    + injection E as Exy E. subst y.
      apply Forall_cons in Hl1 as [_ Hl1]. apply Forall_cons in Hm1 as [_ Hm1].
      destruct (IH m1 E Hl1 Hl2 Hm1 Hm2) as (-> & -> & ->). done.
Qed.

(** A fuzzy match found at one threshold is found at every lower one. *)
Lemma fuzzy_loop_lower (nm : string) (th th' : Q) (l : list CarMaster)
    (best : CarMaster) (score : Q) :
  th <= th' ->
  fuzzy_loop nm th' l = (Some best, score) ->
  fuzzy_loop nm th l = (Some best, score).
Proof.
  intros Hle Hhi.
  pose proof (normalize_facts.fuzzy_loop_inv nm th' l) as Hinv'.
  pose proof (normalize_facts.fuzzy_loop_inv nm th l) as Hinv.
  unfold fuzzy_inv in *. rewrite Hhi in Hinv'. cbn [fst snd] in Hinv'.
  destruct Hinv' as (-> & Hpos & Hth & l1 & l2 & Hsplit & H1 & H2).
  destruct (fuzzy_loop nm th l) as [[best0|] s0]; cbn [fst snd] in Hinv.
  - destruct Hinv as (-> & _ & _ & m1 & m2 & Hsplit0 & M1 & M2).
    rewrite Hsplit in Hsplit0.
    destruct (first_max_unique
                (fun c => similarity_score nm (model c))
                l1 l2 m1 m2 best best0 Hsplit0 H1 H2 M1 M2)
      as (_ & -> & _).
    done.
  - exfalso. destruct Hinv as [_ Hall]. rewrite Forall_forall in Hall.
    apply (Hall best).
    + rewrite Hsplit. apply elem_of_app. right. by left.
    + split; [done|]. by eapply Qle_trans.
Qed.

Section Resolver.
Variable sql_upper : string -> string.
Local Notation make_year_clause := (normalize.make_year_clause sql_upper).
Local Notation exact_clause := (normalize.exact_clause sql_upper).
Local Notation model_clause := (normalize.model_clause sql_upper).
Local Notation find_master_car := (normalize.find_master_car sql_upper).
Local Notation resolve := (normalize.resolve sql_upper).
Variables (session : Session) (mk mdl : string) (yr : Z)
          (trm : option string).


Lemma make_year_clause_row (c : CarMaster) :
  c ∈ List.filter (make_year_clause (normalize_make mk) yr) session ->
  c ∈ session /\ year c = yr
  /\ sql_upper (make c) = pystr.upper (normalize_make mk).
Proof.
  intros [Hc Hmy]%normalize_facts.elem_of_filter.
  apply andb_prop in Hmy as [Hm Hy].
  apply String.eqb_eq in Hm. apply Z.eqb_eq in Hy. done.
Qed.

Lemma find_master_car_candidate (threshold : Q) (i : Z) (conf : Q) :
  find_master_car session mk mdl yr trm threshold = Some (i, conf) ->
  exists c,
    c ∈ List.filter (make_year_clause (normalize_make mk) yr) session
    /\ id c = i.
Proof.
  unfold normalize.find_master_car.
  destruct (head (List.filter (exact_clause _ _ _) session)) as [e|] eqn:He.
  - intros [= <- _].
    assert (Hin : e ∈ List.filter
              (exact_clause (normalize_make mk) (normalize_model mdl) yr)
              session).
    { destruct (List.filter (exact_clause _ _ _) session); [done|].
      injection He as ->. by left. }
    apply normalize_facts.elem_of_filter in Hin as [Hin Hex].
    rewrite normalize_facts.exact_clause_split in Hex.
    apply andb_prop in Hex as [Hmy _].
    exists e. split; [|done].
    by apply normalize_facts.elem_of_filter.
  - pose proof (normalize_facts.fuzzy_loop_inv (normalize_model mdl)
                  threshold
                  (List.filter (make_year_clause (normalize_make mk) yr)
                     session)) as Hinv.
    unfold fuzzy_inv in Hinv.
    destruct (fuzzy_loop _ _ _) as [[best|] bs]; cbn [fst snd] in Hinv.
    + intros [= <- _].
      destruct Hinv as (_ & _ & _ & l1 & l2 & Hsplit & _).
      exists best. split; [|done].
      rewrite Hsplit. apply elem_of_app. right. by left.
    + destruct (List.filter (make_year_clause _ _) session)
        as [|c rest] eqn:Hf; [done|].
      intros [= <- _]. exists c. split; [|done].
      rewrite ?Hf. by left.
Qed.

(** X2: a match never crosses make or year: whatever the tier, the id
    returned is the id of a catalog row with the listing's year and its
    normalized make, letter case apart. *)
Theorem find_master_car_same_make_year (threshold : Q) (i : Z) (conf : Q) :
  find_master_car session mk mdl yr trm threshold = Some (i, conf) ->
  exists c, c ∈ session /\ id c = i /\ year c = yr
            /\ sql_upper (make c) = pystr.upper (normalize_make mk).
Proof.
  intros (c & Hc & Hid)%find_master_car_candidate.
  apply make_year_clause_row in Hc as (Hin & Hy & Hm).
  by exists c.
Qed.

(** X3: lowering the threshold never loses or changes a match: unless
    the result at the higher threshold is the low-confidence fallback,
    the result at any lower threshold is the same. *)
Theorem resolve_threshold_lower (threshold threshold' : Q) :
  threshold <= threshold' ->
  tier (resolve mk mdl yr session threshold') <> FALLBACK ->
  resolve mk mdl yr session threshold
  = resolve mk mdl yr session threshold'.
Proof.
  intros Hle. unfold normalize.resolve.
  destruct (head (List.filter (exact_clause _ _ _) session)); [done|].
  destruct (fuzzy_loop _ threshold' _) as [[best|] bs] eqn:Hhi.
  - intros _. by rewrite (fuzzy_loop_lower _ _ _ _ _ _ Hle Hhi).
  - destruct (List.filter (make_year_clause _ _) session) as [|c rest];
      [|done].
    intros _. done.
Qed.

(** X4: with a threshold above 1 the fuzzy tier is never used: the
    result is an exact match, the fallback, or no match. *)
Theorem resolve_threshold_above_one (threshold : Q) :
  1 < threshold ->
  tier (resolve mk mdl yr session threshold) <> FUZZY.
Proof.
  intros Hth. unfold normalize.resolve.
  destruct (head (List.filter (exact_clause _ _ _) session)); [done|].
  pose proof (normalize_facts.fuzzy_loop_inv (normalize_model mdl)
                threshold
                (List.filter (make_year_clause (normalize_make mk) yr)
                   session)) as Hinv.
  unfold fuzzy_inv in Hinv.
  destruct (fuzzy_loop _ _ _) as [[best|] bs]; cbn [fst snd] in Hinv.
  - exfalso. destruct Hinv as (_ & _ & Hle & _).
    destruct (normalize_facts.similarity_range (normalize_model mdl)
                (model best)) as [_ Hone].
    apply (Qlt_not_le _ _ Hth). by eapply Qle_trans.
  - by destruct (head (List.filter (make_year_clause _ _) session)).
Qed.
End Resolver.

End resolver_more.


Lemma find_master_car_same_make_year_witness :
  exists c, c ∈ [normalize.mkCarMaster 7 "Chevrolet" "Camaro" 2020 None]
            /\ normalize.id c = 7%Z /\ normalize.year c = 2020%Z
            /\ sql_aux.ascii_upper (normalize.make c)
               = pystr.upper (normalize.normalize_make "Chevy").
Proof.
  refine (resolver_more.find_master_car_same_make_year sql_aux.ascii_upper
    [normalize.mkCarMaster 7 "Chevrolet" "Camaro" 2020 None]
    "Chevy" "Camaro SS" 2020 None 0.8%Q 7 (12 # 15) _).
  vm_compute. reflexivity.
Defined.

Lemma resolve_threshold_lower_witness :
  normalize.resolve sql_aux.ascii_upper "Chevy" "Camaro SS" 2020
    [normalize.mkCarMaster 7 "Chevrolet" "Camaro" 2020 None] 0.5%Q
  = normalize.resolve sql_aux.ascii_upper "Chevy" "Camaro SS" 2020
      [normalize.mkCarMaster 7 "Chevrolet" "Camaro" 2020 None] 0.8%Q.
Proof.
  refine (resolver_more.resolve_threshold_lower sql_aux.ascii_upper
    [normalize.mkCarMaster 7 "Chevrolet" "Camaro" 2020 None]
    "Chevy" "Camaro SS" 2020 0.5%Q 0.8%Q _ _).
  - vm_compute. discriminate.
  - vm_compute. discriminate.
Defined.

Lemma resolve_threshold_above_one_witness :
  normalize.tier
    (normalize.resolve sql_aux.ascii_upper "Chevy" "Camaro SS" 2020
       [normalize.mkCarMaster 7 "Chevrolet" "Camaro" 2020 None] 1.5%Q)
  <> normalize.FUZZY.
Proof.
  refine (resolver_more.resolve_threshold_above_one sql_aux.ascii_upper
    [normalize.mkCarMaster 7 "Chevrolet" "Camaro" 2020 None]
    "Chevy" "Camaro SS" 2020 1.5%Q _).
  vm_compute. reflexivity.
Defined.

(** * Further properties of the similarity ratio *)

Module similarity_more.
Import difflib difflib_aux normalize.
Local Open Scope Q_scope.

Section Matcher.
Context {A : Type} `{Countable A}.
Variables a b : list A.

Lemma same_item_common (i j : Z) :
  same_item a b i j = true -> exists x, x ∈ a /\ x ∈ b.
Proof.
  unfold same_item.
  destruct (item a i) as [x|] eqn:Hx; [|done].
  destruct (item b j) as [y|] eqn:Hy; [|done].
  intros ->%bool_decide_eq_true. exists y.
  apply difflib_facts.item_Some in Hx as [_ Hx].
  apply difflib_facts.item_Some in Hy as [_ Hy].
  split; by eapply list_elem_of_lookup_2.
Qed.

(** Sequences with no common element have no matching block. *)
Lemma matching_blocks_disjoint :
  (forall x, x ∈ a -> x ∉ b) -> matching_blocks a b = [].
Proof.
  intros Hdis. unfold matching_blocks. cbn [blocks].
  pose proof (difflib_facts.find_longest_match_good a b 0 (la a) 0 (lb b))
    as [Hw Hm]; [unfold la; lia|unfold lb; lia|].
  destruct Hw as (_ & _ & _ & _ & Hsize).
  destruct (Z.eqb_spec
              (m_size (find_longest_match a b 0 (la a) 0 (lb b))) 0)
    as [_|Hne]; [done|].
  exfalso.
  destruct (same_item_common _ _ (Hm 0%Z ltac:(lia))) as (x & Ha & Hb).
  by apply (Hdis x).
Qed.

Lemma ratio_disjoint :
  (forall x, x ∈ a -> x ∉ b) -> a <> [] -> ratio a b == 0.
Proof.
  intros Hdis Hne. unfold ratio, calculate_ratio.
  rewrite matching_blocks_disjoint by done.
  destruct (Z.eqb_spec (la a + lb b) 0) as [E|_].
  - exfalso. unfold la, lb in E. destruct a; [done|]. simpl in E. lia.
  - change (sum_sizes []) with 0%Z. unfold Qdiv.
    by rewrite Qmult_0_r, Qmult_0_l.
Qed.
End Matcher.

Lemma length_map_chars (f : ascii -> ascii) (s : string) :
  String.length (pystr.map_chars f s) = String.length s.
Proof. induction s as [|c s IH]; simpl; congruence. Qed.

Lemma length_list_ascii (s : string) :
  length (list_ascii_of_string s) = String.length s.
Proof. induction s as [|c s IH]; simpl; congruence. Qed.

Lemma ratio_times_length (m l : Z) :
  (0 < l)%Z -> calculate_ratio m l * inject_Z l == 2 * inject_Z m.
Proof.
  intros Hl. unfold calculate_ratio.
  destruct (Z.eqb_spec l 0); [lia|]. field.
  intros E. unfold Qeq in E. simpl in E. lia.
Qed.

(** X5: the similarity of two strings is bounded by the lengths of their
    upper-cased forms, which are what the matcher compares: it is at most
    twice the shorter length over the sum of the lengths, so a string
    whose upper-cased form is less than two thirds as long as the other's
    never reaches the default threshold of 0.8. *)
Theorem similarity_length_bound (s1 s2 : string) :
  let l1 := Z.of_nat (String.length (pystr.upper s1)) in
  let l2 := Z.of_nat (String.length (pystr.upper s2)) in
  similarity_score s1 s2 * inject_Z (l1 + l2) <= 2 * inject_Z (Z.min l1 l2).
Proof.
  intros l1 l2. unfold similarity_score.
  assert (Hmin : 0 <= 2 * inject_Z (Z.min l1 l2)).
  { apply Qmult_le_0_compat; [discriminate|]. rewrite <- (Zle_Qle 0). lia. }
  destruct s1 as [|c1 s1'];
    [cbn [pystr.truthy negb orb]; by rewrite Qmult_0_l|].
  destruct s2 as [|c2 s2'];
    [cbn [pystr.truthy negb orb]; by rewrite Qmult_0_l|].
  cbn [pystr.truthy negb orb]. unfold ratio_str, ratio.
  set (a := list_ascii_of_string (pystr.upper (String c1 s1'))) in *.
  set (b := list_ascii_of_string (pystr.upper (String c2 s2'))) in *.
  assert (Ha : la a = l1).
  { unfold la, a, l1. by rewrite length_list_ascii. }
  assert (Hb : lb b = l2).
  { unfold lb, b, l2. by rewrite length_list_ascii. }
  assert (Hpos : (0 < l1 + l2)%Z).
  { subst l1. unfold pystr.upper. cbn [pystr.map_chars String.length]. lia. }
  destruct (difflib_facts.matching_blocks_sum a b) as (H0 & H1 & H2 & _).
  rewrite Ha, Hb in *.
  rewrite ratio_times_length by exact Hpos.
  apply Qmult_le_l; [reflexivity|]. rewrite <- Zle_Qle. lia.
Qed.

(** X6: two strings that share no character, letter case apart, have
    similarity 0. *)
Theorem similarity_no_common_character (s1 s2 : string) :
  (forall c, c ∈ list_ascii_of_string (pystr.upper s1) ->
             c ∉ list_ascii_of_string (pystr.upper s2)) ->
  similarity_score s1 s2 == 0.
Proof.
  intros Hdis. unfold similarity_score.
  destruct s1 as [|c1 s1']; [reflexivity|].
  destruct s2 as [|c2 s2']; [reflexivity|].
  cbn [pystr.truthy negb orb]. unfold ratio_str.
  apply ratio_disjoint; [done|]. discriminate.
Qed.

(** X7: the similarity ignores letter case: strings that agree once
    upper-cased are interchangeable on either side. *)
Theorem similarity_ignores_case (s1 s1' s2 s2' : string) :
  pystr.upper s1 = pystr.upper s1' -> pystr.upper s2 = pystr.upper s2' ->
  similarity_score s1 s2 = similarity_score s1' s2'.
Proof.
  intros E1 E2. unfold similarity_score.
  rewrite <- (normalize_facts.truthy_upper s1),
          <- (normalize_facts.truthy_upper s2),
          <- (normalize_facts.truthy_upper s1'),
          <- (normalize_facts.truthy_upper s2').
  by rewrite E1, E2.
Qed.

End similarity_more.

Lemma similarity_no_common_character_witness :
  (normalize.similarity_score "abc" "xyz" == 0)%Q.
Proof.
  refine (similarity_more.similarity_no_common_character "abc" "xyz" _).
  intros c Hc Hx. vm_compute in Hc, Hx.
  repeat (apply elem_of_cons in Hc as [->|Hc];
          [repeat (apply elem_of_cons in Hx as [Hx|Hx]; [discriminate Hx|]);
           by apply elem_of_nil in Hx|]).
  by apply elem_of_nil in Hc.
Defined.

Lemma similarity_ignores_case_witness :
  normalize.similarity_score "Camaro SS" "camaro"
  = normalize.similarity_score "CAMARO ss" "CAMARO".
Proof.
  refine (similarity_more.similarity_ignores_case
            "Camaro SS" "CAMARO ss" "camaro" "CAMARO" _ _);
    vm_compute; reflexivity.
Defined.

(** * Further properties of the factor scorers *)

Module scorers_more.
Import ScoringEngine scoring_aux.
Local Open Scope Q_scope.

Ltac leb_facts :=
  repeat match goal with
         | H : py.leb _ _ = true |- _ => apply py_facts.leb_le in H
         | H : py.leb _ _ = false |- _ => apply py_facts.leb_gt in H
         | H : py.ltb _ _ = true |- _ => apply py_facts.ltb_lt in H
         | H : py.ltb _ _ = false |- _ => apply py_facts.ltb_ge in H
         end.

Ltac split_leb :=
  repeat match goal with
         | |- context [py.leb ?x ?y] => destruct (py.leb x y) eqn:?
         | |- context [py.ltb ?x ?y] => destruct (py.ltb x y) eqn:?
         end.

(** X8: for a fixed intent a quicker car never has the lower performance
    score. *)
Theorem performance_score_monotone (car1 car2 : Car.t) (intent : UserIntent.t) :
  Car.zero_to_sixty car1 <= Car.zero_to_sixty car2 ->
  (_score_performance car2 intent).1.1 <= (_score_performance car1 intent).1.1.
Proof.
  intros Hle. unfold _score_performance, performance_tier.
  split_leb; leb_facts; cbn [fst snd top_tier];
    first [exfalso; lra | vm_compute; discriminate].
Qed.

(** X9: for a fixed intent a car with the higher reliability rating never
    has the lower reliability score. *)
Theorem reliability_score_monotone (car1 car2 : Car.t) (intent : UserIntent.t) :
  Car.reliability_score car1 <= Car.reliability_score car2 ->
  (_score_reliability car1 intent).1.1 <= (_score_reliability car2 intent).1.1.
Proof.
  intros Hle. unfold _score_reliability.
  split_leb; leb_facts; cbn [fst snd];
    first [lra | apply Q.max_le_compat_r; lra].
Qed.

(** X10: for a fixed intent whose budget is not negative, a cheaper car
    never has the lower price score. *)
Theorem price_score_monotone (car1 car2 : Car.t) (intent : UserIntent.t)
    (score1 score2 : Q) (reason1 reason2 tradeoff1 tradeoff2 : option message) :
  match UserIntent.budget_max intent with
  | Some b => (0 <= b)%Z
  | None => True
  end ->
  (Car.avg_price car1 <= Car.avg_price car2)%Z ->
  _score_price car1 intent = py.Ok (score1, reason1, tradeoff1) ->
  _score_price car2 intent = py.Ok (score2, reason2, tradeoff2) ->
  score2 <= score1.
Proof.
  intros Hb Hle.
  destruct (UserIntent.budget_max intent) as [b|] eqn:Hbudget.
  2:{ rewrite !scoring_facts.price_score_no_budget by (by rewrite Hbudget).
      intros [= <- _ _] [= <- _ _]. discriminate. }
  destruct (decide (b = 0%Z)) as [->|Hnz].
  { rewrite !scoring_facts.price_score_no_budget by (by rewrite Hbudget).
    intros [= <- _ _] [= <- _ _]. discriminate. }
  rewrite !(scoring_facts.price_score_cases _ intent b Hbudget) by lia.
  cbv zeta.
  repeat match goal with
         | |- context [(?x <=? ?y)%Z] => destruct (Z.leb_spec x y)
         | |- context [(?x <? ?y)%Z] => destruct (Z.ltb_spec x y)
         end;
    intros [= <- _ _] [= <- _ _]; first [lia | vm_compute; discriminate].
Qed.

Lemma closeness_zero (diff t1 t2 t3 : Q) (p1 p2 p3 : Z) :
  diff == 0 -> 0 < t1 -> closeness diff t1 t2 t3 p1 p2 p3 = p1.
Proof.
  intros E Ht. unfold closeness.
  rewrite (proj2 (py_facts.ltb_lt _ _)); [done|]. by rewrite E.
Qed.

(** X11: a car with the drivetrain, horsepower, 0-60 time, body type and
    average price of the reference car scores at least 80 on reference
    similarity and is reported as very similar to it (the horsepower and
    the price of the reference being other than 0). *)
Theorem reference_same_specs (car reference : Car.t) :
  Car.power_hp reference <> 0%Z -> Car.avg_price reference <> 0%Z ->
  Car.drivetrain car = Car.drivetrain reference ->
  Car.power_hp car = Car.power_hp reference ->
  Car.zero_to_sixty car == Car.zero_to_sixty reference ->
  Car.body_type car = Car.body_type reference ->
  Car.avg_price car = Car.avg_price reference ->
  exists score,
    _score_reference_similarity car reference
    = py.Ok (score, Some (VerySimilarTo (Car.make reference)
                                        (Car.model reference)))
    /\ 80 <= score <= 100.
Proof.
  intros Hhp Hprice Hd Hp Hz Hb Ha. unfold _score_reference_similarity.
  rewrite !py_facts.truediv_Ok by (by apply scoring_facts.inject_Z_nonzero).
  unfold mbind, mret, result_bind, result_ret, py.bind.
  rewrite Hd, Hp, Hb, Ha, !String.eqb_refl, !Z.sub_diag.
  set (c1 := closeness _ 0.1 0.2 0.3 20 12 5).
  set (c2 := closeness _ 0.3 0.6 1.0 15 10 5).
  set (c3 := closeness _ 0.1 0.2 0.3 15 10 5).
  assert (E1 : c1 = 20%Z).
  { apply closeness_zero; [|reflexivity].
    change (inject_Z (Z.abs 0)) with 0. unfold Qdiv. by rewrite Qmult_0_l. }
  assert (E2 : c2 = 15%Z).
  { apply closeness_zero; [|reflexivity]. rewrite Hz.
    unfold Qminus. by rewrite Qplus_opp_r. }
  assert (E3 : c3 = 15%Z).
  { apply closeness_zero; [|reflexivity].
    change (inject_Z (Z.abs 0)) with 0. unfold Qdiv. by rewrite Qmult_0_l. }
  rewrite E1, E2, E3. clear c1 c2 c3 E1 E2 E3.
  set (classes := size _). set (emotions := size _).
  assert (Hs : (80 <= Z.min 100 (0 + 15 + 20 + 15 + 15 + 15
                                 + Z.of_nat classes * 10
                                 + Z.of_nat emotions * 5) <= 100)%Z) by lia.
  eexists. split.
  - f_equal. f_equal.
    destruct (Z.ltb_spec 70 (Z.min 100 (0 + 15 + 20 + 15 + 15 + 15
                               + Z.of_nat classes * 10
                               + Z.of_nat emotions * 5))); [done|lia].
  - rewrite <- (Zle_Qle 80), <- (Zle_Qle _ 100). lia.
Qed.

End scorers_more.

Lemma performance_score_monotone_witness :
  ((ScoringEngine._score_performance Examples.dull Examples.keen_intent).1.1
   <= (ScoringEngine._score_performance Examples.wrx Examples.keen_intent).1.1)%Q.
Proof.
  refine (scorers_more.performance_score_monotone
            Examples.wrx Examples.dull Examples.keen_intent _).
  vm_compute. discriminate.
Defined.

Lemma reliability_score_monotone_witness :
  ((ScoringEngine._score_reliability Examples.dull Examples.keen_intent).1.1
   <= (ScoringEngine._score_reliability Examples.wrx Examples.keen_intent).1.1)%Q.
Proof.
  refine (scorers_more.reliability_score_monotone
            Examples.dull Examples.wrx Examples.keen_intent _).
  vm_compute. discriminate.
Defined.

Lemma price_score_monotone_witness : (95 <= 100)%Q.
Proof.
  refine (scorers_more.price_score_monotone
            Examples.car_8000 Examples.wrx
            (UserIntent.mk None (Some 35000%Z) 0.5 0.5 0.5 None None [] []
               None [] "")
            100 95 (Some (ScoringEngine.WellUnderBudget 8000))
            (Some (ScoringEngine.FitsBudget 35000)) None None _ _ _ _).
  - vm_compute. discriminate.
  - vm_compute. discriminate.
  - vm_compute. reflexivity.
  - vm_compute. reflexivity.
Defined.

Lemma reference_same_specs_witness :
  exists score,
    ScoringEngine._score_reference_similarity Examples.wrx Examples.wrx
    = py.Ok (score, Some (ScoringEngine.VerySimilarTo "Subaru" "WRX"))
    /\ (80 <= score <= 100)%Q.
Proof.
  refine (scorers_more.reference_same_specs Examples.wrx Examples.wrx
            _ _ eq_refl eq_refl _ eq_refl eq_refl).
  - discriminate.
  - discriminate.
  - reflexivity.
Defined.

(** * The range of the aggregate *)

Module aggregate_more.
Import ScoringEngine scoring_aux weights_aux.
Local Open Scope Q_scope.

Lemma weights_of_table (scores : gmap string Q) (intent : UserIntent.t)
    (has_reference : bool) :
  weights_of scores intent has_reference
  = weight_table
      (has_reference && bool_decide (is_Some (scores !! "reference"%string)))
      (py.ltb 0.7 (UserIntent.performance_priority intent))
      (py.ltb 0.7 (UserIntent.reliability_priority intent))
      (py.truthy_str (UserIntent.drivetrain intent)).
Proof. reflexivity. Qed.

Lemma sum_by_empty (g : string -> Q -> Q) : sum_by g ∅ = 0.
Proof. unfold sum_by. by rewrite map_fold_empty. Qed.

Lemma sum_by_insert (g : string -> Q -> Q) (m : gmap string Q)
    (key : string) (score : Q) :
  m !! key = None ->
  sum_by g (<[key := score]> m) == sum_by g m + g key score.
Proof.
  intros Hnone. unfold sum_by.
  apply (map_fold_insert Qeq (fun key score acc => acc + g key score)).
  - intros j z x y E. by rewrite E.
  - intros j1 j2 z1 z2 y _ _ _. ring.
  - done.
Qed.

Lemma sum_by_base (g : string -> Q -> Q) (car : Car.t)
    (intent : UserIntent.t) (price own : Q) :
  sum_by g (<["ownership" := own]> (base_scores car intent price))
  == g "price"%string price
     + g "performance"%string (_score_performance car intent).1.1
     + g "reliability"%string (_score_reliability car intent).1.1
     + g "drivetrain"%string (_score_drivetrain car intent).1.1
     + g "body_style"%string (_score_body_style car intent)
     + g "emotional"%string (_score_emotional car intent).1.1
     + g "ownership"%string own.
Proof.
  unfold base_scores.
  repeat (rewrite sum_by_insert
            by (rewrite ?lookup_insert_ne by done; apply lookup_empty)).
  rewrite sum_by_empty. ring.
Qed.

Lemma sum_by_with_reference (g : string -> Q -> Q) (car : Car.t)
    (intent : UserIntent.t) (price own ref_score : Q) :
  sum_by g (<["ownership" := own]>
              (<["reference" := ref_score]> (base_scores car intent price)))
  == g "price"%string price
     + g "performance"%string (_score_performance car intent).1.1
     + g "reliability"%string (_score_reliability car intent).1.1
     + g "drivetrain"%string (_score_drivetrain car intent).1.1
     + g "body_style"%string (_score_body_style car intent)
     + g "emotional"%string (_score_emotional car intent).1.1
     + g "reference"%string ref_score
     + g "ownership"%string own.
Proof.
  unfold base_scores.
  repeat (rewrite sum_by_insert
            by (rewrite ?lookup_insert_ne by done; apply lookup_empty)).
  rewrite sum_by_empty. ring.
Qed.

(** The weight of a key in a closed table, computed. *)
Ltac table_values :=
  repeat match goal with
         | |- context [default ?d (weight_table ?a ?b ?c ?e !! ?k)] =>
             let v := eval vm_compute in
                        (default d (weight_table a b c e !! k)) in
             change (default d (weight_table a b c e !! k)) with v
         end.

(** The two sums of [_calculate_weighted_score] over the scores of a car,
    for a table of weights [W]: without and with the reference factor. *)
Lemma sums_base (W : gmap string Q) (car : Car.t) (intent : UserIntent.t)
    (price own : Q) :
  let scores := <["ownership" := own]> (base_scores car intent price) in
  total_weight_of W scores
  == default 0 (W !! "price"%string) + default 0 (W !! "performance"%string)
     + default 0 (W !! "reliability"%string)
     + default 0 (W !! "drivetrain"%string)
     + default 0 (W !! "body_style"%string)
     + default 0 (W !! "emotional"%string)
     + default 0 (W !! "ownership"%string)
  /\ weighted_sum_of W scores
     == price * default 0.1 (W !! "price"%string)
        + (_score_performance car intent).1.1
          * default 0.1 (W !! "performance"%string)
        + (_score_reliability car intent).1.1
          * default 0.1 (W !! "reliability"%string)
        + (_score_drivetrain car intent).1.1
          * default 0.1 (W !! "drivetrain"%string)
        + _score_body_style car intent
          * default 0.1 (W !! "body_style"%string)
        + (_score_emotional car intent).1.1
          * default 0.1 (W !! "emotional"%string)
        + own * default 0.1 (W !! "ownership"%string).
Proof.
  split.
  - apply (sum_by_base (fun key _ => default 0 (W !! key))).
  - apply (sum_by_base (fun key score => score * default 0.1 (W !! key))).
Qed.

Lemma sums_with_reference (W : gmap string Q) (car : Car.t)
    (intent : UserIntent.t) (price own ref_score : Q) :
  let scores :=
    <["ownership" := own]>
      (<["reference" := ref_score]> (base_scores car intent price)) in
  total_weight_of W scores
  == default 0 (W !! "price"%string) + default 0 (W !! "performance"%string)
     + default 0 (W !! "reliability"%string)
     + default 0 (W !! "drivetrain"%string)
     + default 0 (W !! "body_style"%string)
     + default 0 (W !! "emotional"%string)
     + default 0 (W !! "reference"%string)
     + default 0 (W !! "ownership"%string)
  /\ weighted_sum_of W scores
     == price * default 0.1 (W !! "price"%string)
        + (_score_performance car intent).1.1
          * default 0.1 (W !! "performance"%string)
        + (_score_reliability car intent).1.1
          * default 0.1 (W !! "reliability"%string)
        + (_score_drivetrain car intent).1.1
          * default 0.1 (W !! "drivetrain"%string)
        + _score_body_style car intent
          * default 0.1 (W !! "body_style"%string)
        + (_score_emotional car intent).1.1
          * default 0.1 (W !! "emotional"%string)
        + ref_score * default 0.1 (W !! "reference"%string)
        + own * default 0.1 (W !! "ownership"%string).
Proof.
  split.
  - apply (sum_by_with_reference (fun key _ => default 0 (W !! key))).
  - apply (sum_by_with_reference
             (fun key score => score * default 0.1 (W !! key))).
Qed.

(** What [_score_car] returns, by the shape of the [scores] dict. *)
Lemma score_car_cases (car : Car.t) (intent : UserIntent.t)
    (reference_car : option Car.t) (q : Q) (reasons tradeoffs : list message) :
  _score_car car intent reference_car = py.Ok (q, reasons, tradeoffs) ->
  exists price (extra : option Q),
    0 <= price <= 100
    /\ match extra with Some r => 0 <= r <= 100 | None => True end
    /\ let scores :=
         <["ownership" := _score_ownership_cost car intent]>
           (match extra with
            | Some r => <["reference" := r]> (base_scores car intent price)
            | None => base_scores car intent price
            end) in
       let W :=
         weight_table
           (match extra with Some _ => true | None => false end)
           (py.ltb 0.7 (UserIntent.performance_priority intent))
           (py.ltb 0.7 (UserIntent.reliability_priority intent))
           (py.truthy_str (UserIntent.drivetrain intent)) in
       (0 < total_weight_of W scores -> q == weighted_sum_of W scores)
       /\ (total_weight_of W scores <= 0 -> q = 50).
Proof.
  rewrite scoring_facts.score_car_eq, scoring_facts.factor_scores_eq.
  destruct (scoring_facts.price_score_total car intent)
    as (price & pr & pt & -> & Hprice & _).
  cbv beta iota zeta.
  assert (Hplain : forall hr,
    match _calculate_weighted_score
            (<["ownership" := _score_ownership_cost car intent]>
               (base_scores car intent price)) intent hr with
    | py.Ok final_score =>
        py.Ok (final_score, take 4 (base_reasons car intent pr),
               take 3 (base_tradeoffs car intent pt))
    | py.Raise e => py.Raise e
    end = py.Ok (q, reasons, tradeoffs) ->
    exists price (extra : option Q),
      0 <= price <= 100
      /\ match extra with Some r => 0 <= r <= 100 | None => True end
      /\ let scores :=
           <["ownership" := _score_ownership_cost car intent]>
             (match extra with
              | Some r => <["reference" := r]> (base_scores car intent price)
              | None => base_scores car intent price
              end) in
         let W :=
           weight_table
             (match extra with Some _ => true | None => false end)
             (py.ltb 0.7 (UserIntent.performance_priority intent))
             (py.ltb 0.7 (UserIntent.reliability_priority intent))
             (py.truthy_str (UserIntent.drivetrain intent)) in
         (0 < total_weight_of W scores -> q == weighted_sum_of W scores)
         /\ (total_weight_of W scores <= 0 -> q = 50)).
  { intros hr.
    destruct (scoring_facts.weighted_score_eq
                (<["ownership" := _score_ownership_cost car intent]>
                   (base_scores car intent price)) intent hr)
      as (q' & -> & Hq1 & Hq2).
    intros [= <- _ _]. exists price, None. split; [done|]. split; [done|].
    cbv zeta in *. rewrite weights_of_table in Hq1, Hq2.
    rewrite scoring_facts.base_scores_no_reference in Hq1, Hq2.
    rewrite (bool_decide_eq_false_2 (is_Some None)) in Hq1, Hq2
      by (by intros [? ?]).
    rewrite andb_false_r in Hq1, Hq2. cbv beta iota zeta.
    exact (conj Hq1 Hq2). }
  destruct reference_car as [reference|]; [|apply Hplain].
  destruct (negb _); [|apply Hplain].
  destruct (_score_reference_similarity car reference)
    as [[ref_score ref_reason]|e] eqn:Href; [|done].
  destruct (scoring_facts.weighted_score_eq
              (<["ownership" := _score_ownership_cost car intent]>
                 (<["reference" := ref_score]>
                    (base_scores car intent price))) intent
              (is_some (Some reference)))
    as (q' & -> & Hq1 & Hq2).
  intros [= <- _ _]. exists price, (Some ref_score). split; [done|].
  split; [by eapply scoring_facts.score_reference_range|].
  cbv zeta in *. rewrite weights_of_table in Hq1, Hq2.
  rewrite lookup_insert_ne, lookup_insert_eq in Hq1, Hq2 by done.
  rewrite bool_decide_eq_true_2 in Hq1, Hq2 by (by eexists).
  cbn [is_some andb] in Hq1, Hq2. cbv beta iota zeta.
  exact (conj Hq1 Hq2).
Qed.

(** X12: for a car rated on the 0-10 scale the aggregate is never
    negative and never above 132.5, whatever the intent and the
    reference. *)
Theorem aggregate_bounds (car : Car.t) (intent : UserIntent.t)
    (reference_car : option Car.t) (q : Q) (reasons tradeoffs : list message) :
  ratings_in_scale car ->
  _score_car car intent reference_car = py.Ok (q, reasons, tradeoffs) ->
  0 <= q <= 132.5.
Proof.
  intros Hscale Hq.
  destruct (score_car_cases _ _ _ _ _ _ Hq)
    as (price & extra & Hprice & Hextra & Hsum & H50).
  cbv zeta in Hsum, H50.
  pose proof (scoring_facts.score_performance_range car intent) as Hperf.
  pose proof (scoring_facts.score_reliability_range car intent Hscale) as Hrel.
  pose proof (scoring_facts.score_drivetrain_range car intent) as Hdrive.
  pose proof (scoring_facts.score_body_style_range car intent) as Hbody.
  pose proof (scoring_facts.score_emotional_range car intent) as Hemo.
  pose proof (scoring_facts.score_ownership_range car intent Hscale) as Hown.
  destruct extra as [r|].
  - destruct (sums_with_reference
                (weight_table true
                   (py.ltb 0.7 (UserIntent.performance_priority intent))
                   (py.ltb 0.7 (UserIntent.reliability_priority intent))
                   (py.truthy_str (UserIntent.drivetrain intent)))
                car intent price (_score_ownership_cost car intent) r)
      as [Htw Hws].
    cbv zeta in Htw, Hws. rewrite Htw in Hsum. rewrite Hws in Hsum.
    clear Htw Hws H50 Hq.
    destruct (py.ltb 0.7 (UserIntent.performance_priority intent)),
      (py.ltb 0.7 (UserIntent.reliability_priority intent)),
      (py.truthy_str (UserIntent.drivetrain intent));
      revert Hsum; table_values; intros Hsum;
      rewrite Hsum by reflexivity; lra.
  - destruct (sums_base
                (weight_table false
                   (py.ltb 0.7 (UserIntent.performance_priority intent))
                   (py.ltb 0.7 (UserIntent.reliability_priority intent))
                   (py.truthy_str (UserIntent.drivetrain intent)))
                car intent price (_score_ownership_cost car intent))
      as [Htw Hws].
    cbv zeta in Htw, Hws. rewrite Htw in Hsum. rewrite Hws in Hsum.
    clear Htw Hws H50 Hq.
    destruct (py.ltb 0.7 (UserIntent.performance_priority intent)),
      (py.ltb 0.7 (UserIntent.reliability_priority intent)),
      (py.truthy_str (UserIntent.drivetrain intent));
      revert Hsum; table_values; intros Hsum;
      rewrite Hsum by reflexivity; lra.
Qed.

(** The [scores] dict of a car and its weights, by shape. *)
Lemma factor_scores_cases (car : Car.t) (intent : UserIntent.t)
    (reference_car : option Car.t) (scores : gmap string Q)
    (reasons tradeoffs : list message) :
  factor_scores car intent reference_car
  = py.Ok (scores, reasons, tradeoffs) ->
  exists price (extra : option Q),
    0 <= price <= 100
    /\ match extra with Some r => 0 <= r <= 100 | None => True end
    /\ scores
       = <["ownership" := _score_ownership_cost car intent]>
           (match extra with
            | Some r => <["reference" := r]> (base_scores car intent price)
            | None => base_scores car intent price
            end)
    /\ weights_of scores intent (is_some reference_car)
       = weight_table
           (match extra with Some _ => true | None => false end)
           (py.ltb 0.7 (UserIntent.performance_priority intent))
           (py.ltb 0.7 (UserIntent.reliability_priority intent))
           (py.truthy_str (UserIntent.drivetrain intent)).
Proof.
  rewrite scoring_facts.factor_scores_eq.
  destruct (scoring_facts.price_score_total car intent)
    as (price & pr & pt & -> & Hprice & _).
  cbv beta iota zeta.
  assert (Hplain :
    py.Ok (<["ownership" := _score_ownership_cost car intent]>
             (base_scores car intent price),
           base_reasons car intent pr, base_tradeoffs car intent pt)
    = py.Ok (scores, reasons, tradeoffs) ->
    exists price (extra : option Q),
      0 <= price <= 100
      /\ match extra with Some r => 0 <= r <= 100 | None => True end
      /\ scores
         = <["ownership" := _score_ownership_cost car intent]>
             (match extra with
              | Some r => <["reference" := r]> (base_scores car intent price)
              | None => base_scores car intent price
              end)
      /\ weights_of scores intent (is_some reference_car)
         = weight_table
             (match extra with Some _ => true | None => false end)
             (py.ltb 0.7 (UserIntent.performance_priority intent))
             (py.ltb 0.7 (UserIntent.reliability_priority intent))
             (py.truthy_str (UserIntent.drivetrain intent))).
  { intros [= <- _ _]. exists price, None.
    split; [done|]. split; [done|]. split; [reflexivity|].
    rewrite weights_of_table, scoring_facts.base_scores_no_reference.
    rewrite (bool_decide_eq_false_2 (is_Some None)) by (by intros [? ?]).
    by rewrite andb_false_r. }
  destruct reference_car as [reference|]; [|apply Hplain].
  destruct (negb _); [|apply Hplain].
  destruct (_score_reference_similarity car reference)
    as [[ref_score ref_reason]|e] eqn:Href; [|done].
  intros [= <- _ _]. exists price, (Some ref_score). split; [done|].
  split; [by eapply scoring_facts.score_reference_range|].
  split; [reflexivity|].
  rewrite weights_of_table.
  rewrite lookup_insert_ne, lookup_insert_eq by done.
  by rewrite bool_decide_eq_true_2 by (by eexists).
Qed.

(** X13: when no weight is replaced (both priorities at most 0.7 and no
    drivetrain requested) the weights of the factors present add up to 1,
    with or without the reference factor, so the aggregate is the weighted
    average of the factor scores and, for a car rated on the 0-10 scale,
    lies in [[0,100]]. *)
Theorem aggregate_without_overrides (car : Car.t) (intent : UserIntent.t)
    (reference_car : option Car.t) (scores : gmap string Q)
    (reasons tradeoffs : list message) :
  ratings_in_scale car ->
  UserIntent.performance_priority intent <= 0.7 ->
  UserIntent.reliability_priority intent <= 0.7 ->
  py.truthy_str (UserIntent.drivetrain intent) = false ->
  factor_scores car intent reference_car
  = py.Ok (scores, reasons, tradeoffs) ->
  let weights := weights_of scores intent (is_some reference_car) in
  total_weight_of weights scores == 1
  /\ exists q,
       _calculate_weighted_score scores intent (is_some reference_car)
       = py.Ok q
       /\ q == weighted_sum_of weights scores
               / total_weight_of weights scores
       /\ 0 <= q <= 100.
Proof.
  intros Hscale Hp%py_facts.ltb_ge Hr%py_facts.ltb_ge Hd Hf weights.
  destruct (factor_scores_cases _ _ _ _ _ _ Hf)
    as (price & extra & Hprice & Hextra & -> & HW).
  subst weights. rewrite HW, Hp, Hr, Hd.
  pose proof (scoring_facts.score_performance_range car intent) as Hperf.
  pose proof (scoring_facts.score_reliability_range car intent Hscale) as Hrel.
  pose proof (scoring_facts.score_drivetrain_range car intent) as Hdrive.
  pose proof (scoring_facts.score_body_style_range car intent) as Hbody.
  pose proof (scoring_facts.score_emotional_range car intent) as Hemo.
  pose proof (scoring_facts.score_ownership_range car intent Hscale) as Hown.
  match goal with
  | |- context [_calculate_weighted_score ?s intent ?hr] =>
      destruct (scoring_facts.weighted_score_eq s intent hr)
        as (q & Hq & Hq1 & _)
  end.
  cbv zeta in Hq1. rewrite HW, Hp, Hr, Hd in Hq1.
  destruct extra as [r|].
  - destruct (sums_with_reference (weight_table true false false false)
                car intent price (_score_ownership_cost car intent) r)
      as [Htw Hws].
    cbv zeta in Htw, Hws. revert Htw Hws. table_values. intros Htw Hws.
    assert (Hone : total_weight_of (weight_table true false false false)
              (<["ownership" := _score_ownership_cost car intent]>
                 (<["reference" := r]> (base_scores car intent price))) == 1)
      by (rewrite Htw; reflexivity).
    split; [exact Hone|]. exists q. split; [exact Hq|].
    rewrite Hone in Hq1. rewrite Hone, Hq1 by reflexivity.
    split; [field|]. rewrite Hws. lra.
  - destruct (sums_base (weight_table false false false false)
                car intent price (_score_ownership_cost car intent))
      as [Htw Hws].
    cbv zeta in Htw, Hws. revert Htw Hws. table_values. intros Htw Hws.
    assert (Hone : total_weight_of (weight_table false false false false)
              (<["ownership" := _score_ownership_cost car intent]>
                 (base_scores car intent price)) == 1)
      by (rewrite Htw; reflexivity).
    split; [exact Hone|]. exists q. split; [exact Hq|].
    rewrite Hone in Hq1. rewrite Hone, Hq1 by reflexivity.
    split; [field|]. rewrite Hws. lra.
Qed.

End aggregate_more.

Lemma aggregate_bounds_witness :
  (0 <= 148840000000000000000000000000000000000000000
        # 1220000000000000000000000000000000000000000 <= 132.5)%Q.
Proof.
  refine (aggregate_more.aggregate_bounds Examples.wrx Examples.keen_intent
            None _
            [ScoringEngine.WellUnderBudget 28000;
             ScoringEngine.SeriouslyQuick 4.4%Q;
             ScoringEngine.ExcellentReliability;
             ScoringEngine.AsRequested "AWD"] [] _ _).
  - split; split; vm_compute; discriminate.
  - vm_compute. reflexivity.
Defined.

Lemma aggregate_without_overrides_witness :
  (ScoringEngine.total_weight_of
     (ScoringEngine.weights_of
        (<["ownership" := ScoringEngine._score_ownership_cost
                            Examples.car_8000 Examples.budget_10000]>
           (scoring_aux.base_scores Examples.car_8000 Examples.budget_10000
              95%Q))
        Examples.budget_10000 false)
     (<["ownership" := ScoringEngine._score_ownership_cost
                         Examples.car_8000 Examples.budget_10000]>
        (scoring_aux.base_scores Examples.car_8000 Examples.budget_10000
           95%Q))
   == 1)%Q.
Proof.
  refine (proj1 (aggregate_more.aggregate_without_overrides
    Examples.car_8000 Examples.budget_10000 None _
    (scoring_aux.base_reasons Examples.car_8000 Examples.budget_10000
       (Some (ScoringEngine.FitsBudget 10000)))
    (scoring_aux.base_tradeoffs Examples.car_8000 Examples.budget_10000 None)
    _ _ _ _ _)).
  - split; split; vm_compute; discriminate.
  - vm_compute. discriminate.
  - vm_compute. discriminate.
  - reflexivity.
  - rewrite scoring_facts.factor_scores_eq.
    replace (ScoringEngine._score_price Examples.car_8000 Examples.budget_10000)
      with (py.Ok (T := Q * option ScoringEngine.message
                        * option ScoringEngine.message)
              (95%Q, Some (ScoringEngine.FitsBudget 10000), None))
      by (vm_compute; reflexivity).
    reflexivity.
Defined.

(** * The batch pass over the listings *)

Module batch_more.
Import normalize batch batch_aux.
Local Open Scope Z_scope.

Lemma set_master_master (listing : CarListing) (m : option Z) (now : Z) :
  master_car_id (set_master listing m now) = m.
Proof. unfold set_master. by case_bool_decide. Qed.

Lemma set_master_same (listing : CarListing) (m : option Z) (now : Z) :
  same_listing listing (set_master listing m now).
Proof. unfold set_master, same_listing. by case_bool_decide. Qed.

Lemma set_master_rewritten (utcnow : nat -> Z) (listing : CarListing)
    (m : option Z) (i : nat) :
  rewritten utcnow listing (set_master listing m (utcnow i)).
Proof.
  split; [apply set_master_same|]. unfold set_master.
  case_bool_decide as Hm; [done|]. cbn. split; [done|]. by exists i.
Qed.

Lemma rewritten_refl (utcnow : nat -> Z) (listing : CarListing) :
  rewritten utcnow listing listing.
Proof. by split. Qed.

Section Pass.
Variable sql_upper : string -> string.
Variable utcnow : nat -> Z.
Variable session : Session.
Variable threshold : Q.

Local Notation find_master_car := (normalize.find_master_car sql_upper).
Local Notation resolved := (batch_aux.resolved sql_upper session threshold).
Local Notation normalize_one :=
  (batch.normalize_one sql_upper utcnow session threshold).
Local Notation normalize_rows :=
  (batch.normalize_rows sql_upper utcnow session threshold).

Lemma normalize_one_listing (i : nat) (listing : CarListing)
    (counters : Counters) :
  (normalize_one i listing counters).1
  = set_master listing (resolved listing) (utcnow i).
Proof.
  unfold batch.normalize_one, batch_aux.resolved.
  destruct (find_master_car _ _ _ _ _ _) as [[master_id confidence]|];
    reflexivity.
Qed.

Lemma resolved_same (l l' : CarListing) :
  same_listing l l' -> resolved l' = resolved l.
Proof.
  unfold batch_aux.resolved. intros (_ & _ & -> & -> & -> & ->). done.
Qed.

(** Every row after a pass is the row before it, rewritten or not; a
    row the query selects holds the id the resolver gives it. *)
Lemma normalize_rows_rewritten (force_rematch : bool) (i : nat)
    (rows : list CarListing) (counters : Counters) :
  Forall2 (fun l l' =>
             rewritten utcnow l l'
             /\ (selected force_rematch l = true ->
                 master_car_id l' = resolved l)
             /\ (selected force_rematch l = false -> l' = l))
    rows (normalize_rows force_rematch i rows counters).1.
Proof.
  revert i counters. induction rows as [|listing rows IH];
    intros i counters; cbn [batch.normalize_rows]; [constructor|].
  destruct (selected force_rematch listing) eqn:Hsel.
  - pose proof (normalize_one_listing i listing counters) as Hone.
    destruct (normalize_one i listing counters) as [listing' counters'].
    specialize (IH (S i) counters').
    destruct (normalize_rows force_rematch (S i) rows counters')
      as [rest final].
    cbn [fst] in *. subst listing'. constructor; [|done]. split_and!.
    + apply set_master_rewritten.
    + intros _. apply set_master_master.
    + intros Hsel'. congruence.
  - specialize (IH i counters).
    destruct (normalize_rows force_rematch i rows counters)
      as [rest final].
    cbn [fst] in *. constructor; [|done].
    split_and!; [apply rewritten_refl| |done]. intros Hsel'. congruence.
Qed.

(** A pass over rows that hold what the resolver gives them changes
    nothing. *)
Lemma normalize_rows_settled (utcnow' : nat -> Z) (force_rematch : bool)
    (i : nat) (rows : list CarListing) (counters : Counters) :
  Forall (fun l => selected force_rematch l = true ->
                   master_car_id l = resolved l) rows ->
  (batch.normalize_rows sql_upper utcnow' session threshold
     force_rematch i rows counters).1 = rows.
Proof.
  revert i counters. induction rows as [|listing rows IH];
    intros i counters Hall; cbn [batch.normalize_rows]; [done|].
  apply Forall_cons in Hall as [Hl Hall].
  destruct (selected force_rematch listing) eqn:Hsel.
  - assert (Hone : (batch.normalize_one sql_upper utcnow' session
                      threshold i listing counters).1 = listing).
    { unfold batch.normalize_one. specialize (Hl eq_refl).
      unfold batch_aux.resolved in Hl.
      destruct (find_master_car _ _ _ _ _ _) as [[master_id confidence]|];
        cbn [fst fmap option_fmap option_map] in *;
        unfold set_master; by rewrite bool_decide_eq_true_2. }
    destruct (batch.normalize_one _ _ _ _ _ _ _) as [listing' counters'].
    specialize (IH (S i) counters' Hall).
    destruct (batch.normalize_rows _ _ _ _ _ _ _ _) as [rest final].
    cbn [fst] in *. by subst.
  - specialize (IH i counters Hall).
    destruct (batch.normalize_rows _ _ _ _ _ _ _ _) as [rest final].
    cbn [fst] in *. by subst.
Qed.

Lemma normalize_one_counters (i : nat) (listing : CarListing)
    (counters : Counters) :
  let counters' := (normalize_one i listing counters).2 in
  let listing' := (normalize_one i listing counters).1 in
  matched counters' + unmatched counters'
  = matched counters + unmatched counters + 1
  /\ high_confidence counters' + low_confidence counters'
     - matched counters'
     = high_confidence counters + low_confidence counters
       - matched counters
  /\ matched counters'
     = matched counters + (if is_matched listing' then 1 else 0).
Proof.
  cbv zeta. rewrite normalize_one_listing.
  unfold is_matched. rewrite set_master_master.
  unfold batch.normalize_one, batch_aux.resolved.
  destruct (find_master_car _ _ _ _ _ _) as [[master_id confidence]|];
    [destruct (py.leb 0.9 confidence)|]; cbn; lia.
Qed.

Lemma normalize_rows_counters (force_rematch : bool) (i : nat)
    (rows : list CarListing) (counters : Counters) :
  let result := normalize_rows force_rematch i rows counters in
  matched result.2 + unmatched result.2
  = matched counters + unmatched counters
    + Z.of_nat (length (List.filter (selected force_rematch) rows))
  /\ high_confidence result.2 + low_confidence result.2 - matched result.2
     = high_confidence counters + low_confidence counters
       - matched counters
  /\ (force_rematch = true ->
      matched result.2
      = matched counters
        + Z.of_nat (length (List.filter is_matched result.1))).
Proof.
  revert i counters. induction rows as [|listing rows IH];
    intros i counters; cbn [batch.normalize_rows List.filter].
  { cbn. split_and!; lia. }
  destruct (selected force_rematch listing) eqn:Hsel.
  - pose proof (normalize_one_counters i listing counters)
      as (H1 & H2 & H3).
    destruct (normalize_one i listing counters) as [listing' counters'].
    specialize (IH (S i) counters'). cbv zeta in IH.
    destruct (normalize_rows force_rematch (S i) rows counters')
      as [rest final].
    cbn [fst snd length List.filter] in *.
    destruct IH as (I1 & I2 & I3). split_and!; [lia|lia|].
    intros Hforce. specialize (I3 Hforce).
    destruct (is_matched listing'); cbn [length]; lia.
  - specialize (IH i counters). cbv zeta in IH.
    destruct (normalize_rows force_rematch i rows counters)
      as [rest final].
    cbn [fst snd] in *. destruct IH as (I1 & I2 & I3).
    split_and!; [lia|lia|].
    intros ->. discriminate Hsel.
Qed.
End Pass.

Section Listings.
Variable sql_upper : string -> string.
Variable utcnow : nat -> Z.
Local Notation normalize_listings :=
  (batch.normalize_listings sql_upper utcnow).

(** X14: the batch pass is safely re-runnable: a second pass with the
    same threshold over the database the first pass left changes
    nothing, whatever the clock reads, provided the first pass was
    forced or the second is not. *)
Theorem normalize_listings_rerun (utcnow' : nat -> Z) (threshold : Q)
    (force force' : bool) (db : Database) :
  force = true \/ force' = false ->
  (batch.normalize_listings sql_upper utcnow' threshold force'
     (normalize_listings threshold force db).1).1
  = (normalize_listings threshold force db).1.
Proof.
  intros Hflags. unfold batch.normalize_listings.
  pose proof (normalize_rows_rewritten sql_upper utcnow (cars_master db)
                threshold force 0 (car_listings db) (mkCounters 0 0 0 0))
    as Hrows.
  destruct (batch.normalize_rows sql_upper utcnow _ _ _ _ _ _)
    as [rows counters].
  cbn [fst cars_master car_listings] in *.
  pose proof (normalize_rows_settled sql_upper (cars_master db) threshold
                utcnow' force' 0 rows (mkCounters 0 0 0 0)) as Hsettled.
  destruct (batch.normalize_rows sql_upper utcnow' _ _ _ _ _ _)
    as [rows' counters'].
  cbn [fst] in *. rewrite Hsettled; [done|].
  clear Hsettled.
  induction Hrows as [|l l' ls ls' (Hrw & Hsel & Hnot) _ IH];
    constructor; [|done].
  intros Hsel'. destruct Hrw as (Hsame & _).
  rewrite (resolved_same sql_upper (cars_master db) threshold l l' Hsame).
  destruct (selected force l) eqn:Hl; [by apply Hsel|].
  rewrite (Hnot eq_refl) in Hsel'.
  destruct Hflags as [Hf | Hf]; rewrite Hf in *.
  - discriminate Hl.
  - unfold selected in Hl, Hsel'. destruct force; [discriminate Hl|].
    cbn [orb] in Hl, Hsel'. congruence.
Qed.

(** X15: the pass never links a listing to a master car of another make
    or year, and it writes two columns only: after a forced pass every
    listing is a listing of the table before it with the same id, VIN,
    make, model, year and trim; it is that very row when its
    [master_car_id] is as before, and carries a reading of the clock in
    [last_updated] when it is not; and a [master_car_id] it holds is
    that of a row of [cars_master] with the listing's year and its
    normalized make, in the upper case of the database. *)
Theorem normalize_listings_links (threshold : Q) (db : Database)
    (listing : CarListing) :
  listing ∈ car_listings (normalize_listings threshold true db).1 ->
  (exists original,
     original ∈ car_listings db /\ rewritten utcnow original listing)
  /\ forall master_id,
       master_car_id listing = Some master_id ->
       exists c, c ∈ cars_master db /\ id c = master_id
                 /\ year c = listing_year listing
                 /\ sql_upper (make c)
                    = pystr.upper (normalize_make (listing_make listing)).
Proof.
  unfold batch.normalize_listings.
  pose proof (normalize_rows_rewritten sql_upper utcnow (cars_master db)
                threshold true 0 (car_listings db) (mkCounters 0 0 0 0))
    as Hrows.
  destruct (batch.normalize_rows sql_upper utcnow _ _ _ _ _ _)
    as [rows counters].
  cbn [fst car_listings] in *. intros Hin.
  apply list_elem_of_lookup in Hin as [k Hk].
  destruct (Forall2_lookup_r _ _ _ _ _ Hrows Hk)
    as (original & Ho & Hrw & Hres & _).
  split.
  - exists original. split; [by eapply list_elem_of_lookup_2|done].
  - intros master_id Hm. rewrite (Hres eq_refl) in Hm.
    unfold batch_aux.resolved in Hm.
    destruct (normalize.find_master_car sql_upper (cars_master db)
                (listing_make original) (listing_model original)
                (listing_year original) (listing_trim original) threshold)
      as [[i conf]|] eqn:Hfind; cbn in Hm; [|done].
    injection Hm as ->.
    apply resolver_more.find_master_car_candidate in Hfind
      as (c & Hc & Hid).
    apply resolver_more.make_year_clause_row in Hc as (Hc & Hy & Hmk).
    destruct Hrw as ((_ & _ & Emk & _ & Eyr & _) & _).
    exists c. rewrite Emk, Eyr. done.
Qed.

(** X16: the counters of a pass add up: matched plus unmatched is the
    number of listings selected, high plus low confidence is the number
    matched, and after a forced pass [get_match_stats] reports the same
    matched count over all the listings, with a match rate in
    [[0,1]]. *)
Theorem normalize_listings_counters (threshold : Q)
    (force_rematch : bool) (db : Database) :
  let result := normalize_listings threshold force_rematch db in
  let stats := get_match_stats result.1 in
  matched result.2 + unmatched result.2
  = Z.of_nat
      (length (List.filter (selected force_rematch) (car_listings db)))
  /\ high_confidence result.2 + low_confidence result.2 = matched result.2
  /\ stats_matched stats + stats_unmatched stats = total_listings stats
  /\ (0 <= match_rate stats <= 1)%Q
  /\ (force_rematch = true ->
      stats_matched stats = matched result.2
      /\ stats_unmatched stats = unmatched result.2).
Proof.
  intros result stats. subst result stats.
  unfold batch.normalize_listings.
  pose proof (normalize_rows_counters sql_upper utcnow (cars_master db)
                threshold force_rematch 0 (car_listings db)
                (mkCounters 0 0 0 0)) as (H1 & H2 & H3).
  pose proof (normalize_rows_rewritten sql_upper utcnow (cars_master db)
                threshold force_rematch 0 (car_listings db)
                (mkCounters 0 0 0 0)) as Hrows.
  destruct (batch.normalize_rows sql_upper utcnow _ _ _ _ _ _)
    as [rows counters].
  cbn [fst snd matched unmatched high_confidence low_confidence] in *.
  assert (Hlen : length rows = length (car_listings db))
    by (symmetry; by eapply Forall2_length).
  pose proof (filter_length_le is_matched rows) as Hle.
  unfold get_match_stats. cbn [car_listings total_listings stats_matched
    stats_unmatched match_rate].
  split_and!; try lia.
  - destruct (Z.ltb_spec 0 (Z.of_nat (length rows))); [|discriminate].
    destruct (Z.of_nat (length rows)) as [|p|p] eqn:Hp; try lia.
    unfold Qle, Qdiv, Qmult, Qinv. simpl. lia.
  - destruct (Z.ltb_spec 0 (Z.of_nat (length rows))); [|discriminate].
    destruct (Z.of_nat (length rows)) as [|p|p] eqn:Hp; try lia.
    unfold Qle, Qdiv, Qmult, Qinv. simpl. lia.
  - intros Hforce. specialize (H3 Hforce).
    rewrite Hforce in H1. cbn [selected orb] in H1.
    assert (Hall : forall l : list CarListing,
               List.filter (fun _ : CarListing => true) l = l).
    { induction l as [|x l IHl]; cbn [List.filter]; [done|by f_equal]. }
    rewrite Hall in H1. lia.
Qed.
End Listings.

End batch_more.

Lemma normalize_listings_rerun_witness :
  (batch.normalize_listings sql_aux.ascii_upper sql_aux.sample_clock 0.8%Q
     false
     (batch.normalize_listings sql_aux.ascii_upper sql_aux.sample_clock
        0.8%Q true batch_aux.sample_db).1).1
  = (batch.normalize_listings sql_aux.ascii_upper sql_aux.sample_clock
       0.8%Q true batch_aux.sample_db).1.
Proof.
  refine (batch_more.normalize_listings_rerun sql_aux.ascii_upper
            sql_aux.sample_clock sql_aux.sample_clock 0.8%Q true false
            batch_aux.sample_db _).
  left. reflexivity.
Defined.

Lemma normalize_listings_links_witness :
  exists original,
    original ∈ batch.car_listings batch_aux.sample_db
    /\ batch_aux.rewritten sql_aux.sample_clock original
         (batch.mkCarListing 1 "VIN1" "Chevy" "Camaro SS" 2020 None
            (Some 1000%Z) (Some 7%Z)).
Proof.
  refine (proj1 (batch_more.normalize_listings_links sql_aux.ascii_upper
    sql_aux.sample_clock 0.8%Q batch_aux.sample_db
    (batch.mkCarListing 1 "VIN1" "Chevy" "Camaro SS" 2020 None
       (Some 1000%Z) (Some 7%Z)) _)).
  vm_compute. left.
Defined.

Lemma normalize_listings_counters_witness :
  batch.stats_matched
    (batch.get_match_stats
       (batch.normalize_listings sql_aux.ascii_upper sql_aux.sample_clock
          0.8%Q true batch_aux.sample_db).1)
  = batch.matched
      (batch.normalize_listings sql_aux.ascii_upper sql_aux.sample_clock
         0.8%Q true batch_aux.sample_db).2.
Proof.
  refine (proj1 (proj2 (proj2 (proj2 (proj2
    (batch_more.normalize_listings_counters sql_aux.ascii_upper
       sql_aux.sample_clock 0.8%Q true batch_aux.sample_db))))
    eq_refl)).
Defined.

(** * Letter case and white space in the normalization *)

Module pystr_facts.
Import pystr.
Local Open Scope string_scope.

Lemma char_facts (c : ascii) :
  is_space (upper_char c) = is_space c
  /\ is_cased (upper_char c) = is_cased c
  /\ is_cased (lower_char c) = is_cased c
  /\ upper_char (upper_char c) = upper_char c
  /\ lower_char (lower_char c) = lower_char c
  /\ upper_char (lower_char c) = upper_char c
  /\ lower_char (upper_char c) = lower_char c
  /\ is_space (lower_char c) = is_space c
  /\ is_space c && is_cased c = false
  /\ (if is_cased c then c else upper_char c) = c.
Proof.
  destruct c as [[] [] [] [] [] [] [] []]; vm_compute; repeat split.
Qed.

Lemma is_space_upper c : is_space (upper_char c) = is_space c.
Proof. apply char_facts. Qed.
Lemma is_space_lower c : is_space (lower_char c) = is_space c.
Proof. apply char_facts. Qed.
Lemma is_cased_upper c : is_cased (upper_char c) = is_cased c.
Proof. apply char_facts. Qed.
Lemma is_cased_lower c : is_cased (lower_char c) = is_cased c.
Proof. apply char_facts. Qed.
Lemma upper_upper c : upper_char (upper_char c) = upper_char c.
Proof. apply char_facts. Qed.
Lemma lower_lower c : lower_char (lower_char c) = lower_char c.
Proof. apply char_facts. Qed.
Lemma upper_lower c : upper_char (lower_char c) = upper_char c.
Proof. apply char_facts. Qed.
Lemma lower_upper c : lower_char (upper_char c) = lower_char c.
Proof. apply char_facts. Qed.
Lemma space_not_cased c : is_space c = true -> is_cased c = false.
Proof.
  intros Hs. pose proof (char_facts c) as (_&_&_&_&_&_&_&_&H&_).
  by rewrite Hs in H.
Qed.
Lemma upper_not_cased c : is_cased c = false -> upper_char c = c.
Proof.
  intros Hs. pose proof (char_facts c) as (_&_&_&_&_&_&_&_&_&H).
  by rewrite Hs in H.
Qed.

Section MapChars.
Variable f : ascii -> ascii.
Hypothesis f_space : forall c, is_space (f c) = is_space c.

Lemma map_chars_empty (s : string) : map_chars f s = "" -> s = "".
Proof. by destruct s. Qed.

Lemma lstrip_map_chars (s : string) :
  lstrip (map_chars f s) = map_chars f (lstrip s).
Proof.
  induction s as [|c s IH]; [done|]. cbn [map_chars lstrip].
  rewrite f_space. by destruct (is_space c).
Qed.

Lemma rstrip_map_chars (s : string) :
  rstrip (map_chars f s) = map_chars f (rstrip s).
Proof.
  induction s as [|c s IH]; [done|]. cbn [map_chars rstrip].
  rewrite IH, f_space.
  destruct (rstrip s); cbn [map_chars]; [|done].
  by destruct (is_space c).
Qed.

Lemma strip_map_chars (s : string) :
  strip (map_chars f s) = map_chars f (strip s).
Proof. unfold strip. by rewrite lstrip_map_chars, rstrip_map_chars. Qed.
End MapChars.

Lemma strip_upper (s : string) : strip (upper s) = upper (strip s).
Proof. apply strip_map_chars, is_space_upper. Qed.

Lemma title_from_upper (p : bool) (s : string) :
  title_from p (upper s) = title_from p s.
Proof.
  revert p. induction s as [|c s IH]; intros p; [done|].
  cbn [upper map_chars title_from]. fold (upper s).
  rewrite is_cased_upper, upper_upper, lower_upper, !IH.
  destruct (is_cased c) eqn:Hc; [done|].
  by rewrite upper_not_cased.
Qed.

Lemma upper_title_from (p : bool) (s : string) :
  upper (title_from p s) = upper s.
Proof.
  revert p. induction s as [|c s IH]; intros p; [done|].
  cbn [title_from]. unfold upper in *.
  destruct (is_cased c); cbn [map_chars]; rewrite IH; [|done].
  destruct p; by rewrite ?upper_lower, ?upper_upper.
Qed.

Lemma title_from_idem (p : bool) (s : string) :
  title_from p (title_from p s) = title_from p s.
Proof.
  revert p. induction s as [|c s IH]; intros p; [done|].
  cbn [title_from].
  destruct (is_cased c) eqn:Hc; cbn [title_from].
  - destruct p.
    + by rewrite is_cased_lower, Hc, lower_lower, IH.
    + by rewrite is_cased_upper, Hc, upper_upper, IH.
  - by rewrite Hc, IH.
Qed.

Lemma title_from_empty (p : bool) (s : string) :
  title_from p s = "" -> s = "".
Proof. destruct s; [done|]. cbn. by destruct (is_cased a). Qed.

Lemma lstrip_title (s : string) :
  lstrip (title s) = title (lstrip s).
Proof.
  unfold title. induction s as [|c s IH]; [done|].
  cbn [title_from lstrip].
  destruct (is_space c) eqn:Hs.
  - rewrite (space_not_cased c Hs). cbn [lstrip]. by rewrite Hs.
  - cbn [title_from].
    destruct (is_cased c); cbn [lstrip]; by rewrite ?is_space_upper, Hs.
Qed.

Lemma rstrip_title_from (p : bool) (s : string) :
  rstrip (title_from p s) = title_from p (rstrip s).
Proof.
  revert p. induction s as [|c s IH]; intros p; [done|].
  cbn [title_from rstrip].
  destruct (is_cased c) eqn:Hc; cbn [rstrip]; rewrite IH.
  - destruct (rstrip s) as [|d r] eqn:Hr; cbn [title_from].
    + assert (Hs : is_space c = false).
      { destruct (is_space c) eqn:Hs; [|done].
        apply space_not_cased in Hs. congruence. }
      destruct p; rewrite ?is_space_lower, ?is_space_upper, Hs;
        cbn [title_from]; by rewrite Hc.
    + rewrite Hc. by destruct (is_cased d).
  - destruct (rstrip s) as [|d r] eqn:Hr; cbn [title_from].
    + destruct (is_space c); cbn [title_from]; by rewrite ?Hc.
    + rewrite Hc. by destruct (is_cased d).
Qed.

Lemma strip_title (s : string) : strip (title s) = title (strip s).
Proof. unfold strip. rewrite lstrip_title. apply rstrip_title_from. Qed.

Lemma rstrip_idem (s : string) : rstrip (rstrip s) = rstrip s.
Proof.
  induction s as [|c s IH]; [done|]. cbn [rstrip].
  destruct (rstrip s) as [|d r] eqn:Hr.
  - destruct (is_space c) eqn:Hs; [done|]. cbn [rstrip]. by rewrite Hs.
  - cbn [rstrip]. cbn [rstrip] in IH. by rewrite IH.
Qed.

Lemma lstrip_head (s : string) :
  lstrip s = "" \/ exists c r, lstrip s = String c r /\ is_space c = false.
Proof.
  induction s as [|c s IH]; [by left|]. cbn [lstrip].
  destruct (is_space c) eqn:Hs; [done|]. right. by exists c, s.
Qed.

Lemma strip_idem (s : string) : strip (strip s) = strip s.
Proof.
  unfold strip.
  assert (Hl : lstrip (rstrip (lstrip s)) = rstrip (lstrip s)).
  { destruct (lstrip_head s) as [->|(c & r & -> & Hs)]; [done|].
    cbn [rstrip]. destruct (rstrip r); rewrite ?Hs; cbn [lstrip];
      by rewrite Hs. }
  rewrite Hl. apply rstrip_idem.
Qed.

Lemma collapse_from_upper (in_run : bool) (s : string) :
  collapse_from in_run (upper s) = upper (collapse_from in_run s).
Proof.
  revert in_run. induction s as [|c s IH]; intros in_run; [done|].
  cbn [upper map_chars collapse_from]. fold (upper s).
  rewrite is_space_upper, !IH.
  destruct (is_space c); [by destruct in_run|done].
Qed.

End pystr_facts.

Module normalize_more.
Import normalize.
Local Open Scope string_scope.

(** The guard [if not make: return make] agrees with the rest of the body
    on the empty string. *)
Lemma normalize_make_body (s : string) :
  normalize_make s
  = match MAKE_ALIASES !! pystr.strip (pystr.upper s) with
    | Some canonical => canonical
    | None =>
        let normalized := pystr.title (pystr.strip s) in
        if String.eqb (pystr.upper normalized) "BMW" then "BMW"
        else if String.eqb (pystr.upper normalized) "GMC" then "GMC"
        else if String.eqb (pystr.upper normalized) "RAM" then "Ram"
        else if String.eqb (pystr.upper normalized) "MINI" then "MINI"
        else normalized
    end.
Proof. destruct s; [vm_compute; reflexivity|reflexivity]. Qed.

Lemma normalize_model_body (s : string) :
  normalize_model s
  = match MODEL_ALIASES !! pystr.strip (pystr.upper s) with
    | Some canonical => canonical
    | None => pystr.collapse_spaces (pystr.strip s)
    end.
Proof. destruct s; [vm_compute; reflexivity|reflexivity]. Qed.

(** The body of [normalize_make] reads its argument through
    [make.upper().strip()] and [make.strip().title()] only. *)
Lemma normalize_make_reads (s : string) :
  normalize_make s
  = normalize_make (pystr.upper (pystr.strip s)).
Proof.
  rewrite !normalize_make_body.
  rewrite !pystr_facts.strip_upper, !pystr_facts.strip_idem.
  assert (Huu : pystr.upper (pystr.upper (pystr.strip s))
                = pystr.upper (pystr.strip s)).
  { generalize (pystr.strip s). intros u. unfold pystr.upper.
    induction u as [|c u IH]; [done|]. cbn [pystr.map_chars].
    by rewrite pystr_facts.upper_upper, IH. }
  rewrite Huu. cbv zeta. unfold pystr.title.
  by rewrite (pystr_facts.title_from_upper false (pystr.strip s)).
Qed.

(** X17: on ASCII strings [normalize_make] ignores the letter case and
    the surrounding white space of its argument. *)
Theorem normalize_make_ignores_case (s1 s2 : string) :
  pystr.is_ascii s1 = true -> pystr.is_ascii s2 = true ->
  pystr.upper (pystr.strip s1) = pystr.upper (pystr.strip s2) ->
  normalize_make s1 = normalize_make s2.
Proof.
  intros _ _ Heq.
  by rewrite (normalize_make_reads s1), (normalize_make_reads s2), Heq.
Qed.

Lemma make_aliases_fixed (k v : string) :
  MAKE_ALIASES !! k = Some v -> normalize_make v = v.
Proof.
  unfold MAKE_ALIASES. intros Hin%elem_of_list_to_map_2.
  repeat (apply elem_of_cons in Hin as [[= -> ->]|Hin];
          [vm_compute; reflexivity|]).
  by apply elem_of_nil in Hin.
Qed.

(** X18: on ASCII strings [normalize_make] is idempotent: a make that has
    been normalized is left as it is by a second normalization. *)
Theorem normalize_make_idempotent (s : string) :
  pystr.is_ascii s = true ->
  normalize_make (normalize_make s) = normalize_make s.
Proof.
  intros _.
  rewrite (normalize_make_body s).
  destruct (MAKE_ALIASES !! pystr.strip (pystr.upper s)) as [v|] eqn:Hk.
  { by eapply make_aliases_fixed. }
  cbv zeta. set (t := pystr.title (pystr.strip s)).
  assert (Hup : pystr.upper t = pystr.upper (pystr.strip s))
    by apply pystr_facts.upper_title_from.
  assert (Hst : pystr.strip t = t).
  { unfold t. by rewrite pystr_facts.strip_title, pystr_facts.strip_idem. }
  assert (Htt : pystr.title t = t) by apply pystr_facts.title_from_idem.
  destruct (String.eqb (pystr.upper t) "BMW") eqn:E1;
    [vm_compute; reflexivity|].
  destruct (String.eqb (pystr.upper t) "GMC") eqn:E2;
    [vm_compute; reflexivity|].
  destruct (String.eqb (pystr.upper t) "RAM") eqn:E3;
    [vm_compute; reflexivity|].
  destruct (String.eqb (pystr.upper t) "MINI") eqn:E4;
    [vm_compute; reflexivity|].
  rewrite (normalize_make_body t).
  rewrite pystr_facts.strip_upper, Hst, Hup, <- pystr_facts.strip_upper, Hk.
  cbv zeta. rewrite Htt, E1, E2, E3, E4. done.
Qed.

Lemma normalize_model_upper (s1 s2 : string) :
  pystr.upper (pystr.strip s1) = pystr.upper (pystr.strip s2) ->
  pystr.upper (normalize_model s1) = pystr.upper (normalize_model s2).
Proof.
  intros Heq. rewrite !normalize_model_body.
  rewrite !pystr_facts.strip_upper, Heq.
  destruct (MODEL_ALIASES !! _); [done|].
  unfold pystr.collapse_spaces.
  by rewrite <- !pystr_facts.collapse_from_upper, Heq.
Qed.

Lemma similarity_upper_l (s1 s1' s2 : string) :
  pystr.upper s1 = pystr.upper s1' ->
  similarity_score s1 s2 = similarity_score s1' s2.
Proof.
  intros E1. unfold similarity_score.
  rewrite <- (normalize_facts.truthy_upper s1),
          <- (normalize_facts.truthy_upper s1').
  by rewrite E1.
Qed.

Lemma fuzzy_loop_upper (m m' : string) (threshold : Q)
    (candidates : list CarMaster) :
  pystr.upper m = pystr.upper m' ->
  fuzzy_loop m threshold candidates = fuzzy_loop m' threshold candidates.
Proof.
  intros Hm. unfold fuzzy_loop. generalize (@None CarMaster, 0%Q).
  induction candidates as [|c cs IH]; intros st; [done|].
  cbn [fold_left]. rewrite IH. f_equal.
  unfold fuzzy_step. by rewrite (similarity_upper_l m m' _ Hm).
Qed.

(** X19: the resolution ignores the letter case and the surrounding white
    space of the listing's make and model, and never looks at the trim. *)
Theorem find_master_car_ignores_case (sql_upper : string -> string)
    (session : Session)
    (mk mk' mdl mdl' : string) (yr : Z) (trm trm' : option string)
    (threshold : Q) :
  pystr.upper (pystr.strip mk) = pystr.upper (pystr.strip mk') ->
  pystr.upper (pystr.strip mdl) = pystr.upper (pystr.strip mdl') ->
  find_master_car sql_upper session mk mdl yr trm threshold
  = find_master_car sql_upper session mk' mdl' yr trm' threshold.
Proof.
  intros Hmk Hmdl%normalize_model_upper.
  unfold find_master_car. cbv zeta.
  rewrite (normalize_make_reads mk), Hmk, <- (normalize_make_reads mk').
  rewrite (fuzzy_loop_upper _ _ threshold _ Hmdl).
  assert (Hex : forall c,
            exact_clause sql_upper (normalize_make mk')
              (normalize_model mdl) yr c
            = exact_clause sql_upper (normalize_make mk')
                (normalize_model mdl') yr c).
  { intros c. unfold exact_clause, model_clause. by rewrite Hmdl. }
  by rewrite (List.filter_ext _ _ Hex session).
Qed.

End normalize_more.

Lemma normalize_make_ignores_case_witness :
  normalize.normalize_make "  chevy " = normalize.normalize_make "CHEVY".
Proof.
  refine (normalize_more.normalize_make_ignores_case "  chevy " "CHEVY"
            _ _ _); vm_compute; reflexivity.
Defined.

Lemma normalize_make_idempotent_witness :
  normalize.normalize_make (normalize.normalize_make "land  rover")
  = normalize.normalize_make "land  rover".
Proof.
  refine (normalize_more.normalize_make_idempotent "land  rover" _).
  vm_compute. reflexivity.
Defined.

Lemma find_master_car_ignores_case_witness :
  normalize.find_master_car sql_aux.ascii_upper
    [normalize.mkCarMaster 7 "Chevrolet" "Camaro" 2020 None]
    " chevy" "CAMARO ss " 2020 None 0.8%Q
  = normalize.find_master_car sql_aux.ascii_upper
      [normalize.mkCarMaster 7 "Chevrolet" "Camaro" 2020 None]
      "Chevy" "Camaro SS" 2020 (Some "LT") 0.8%Q.
Proof.
  refine (normalize_more.find_master_car_ignores_case sql_aux.ascii_upper
    [normalize.mkCarMaster 7 "Chevrolet" "Camaro" 2020 None]
    " chevy" "Chevy" "CAMARO ss " "Camaro SS" 2020 None (Some "LT") 0.8%Q _ _);
    vm_compute; reflexivity.
Defined.

(** * The catalog: reference lookup *)

Module database_more.
Import database database_aux.
Local Open Scope Z_scope.

Lemma mention_score_range (reference : string) (car : Car.t) :
  0 <= mention_score reference car <= 9.
Proof.
  unfold mention_score. cbv zeta.
  destruct (contains (pystr.lower (Car.make car)) _),
           (contains (pystr.lower (Car.model car)) _),
           (contains (str_of_int (Car.year car)) _),
           (contains (pystr.lower (Car.trim car)) _); lia.
Qed.

Lemma mention_score_names (reference : string) (car : Car.t) :
  4 <= mention_score reference car -> names reference car.
Proof.
  unfold mention_score, names. cbv zeta.
  destruct (contains (pystr.lower (Car.make car)) _); [by left|].
  destruct (contains (pystr.lower (Car.model car)) _); [by right|].
  destruct (contains (str_of_int (Car.year car)) _),
           (contains (pystr.lower (Car.trim car)) _); lia.
Qed.

Lemma reference_step_inv (reference : string) (seen : list Car.t)
    (st : option Car.t * Z) (car : Car.t) :
  reference_inv reference seen st ->
  reference_inv reference (seen ++ [car]) (reference_step reference st car).
Proof.
  unfold reference_inv, reference_step. cbv zeta.
  destruct st as [[best|] best_score]; cbn [fst snd].
  - intros (Hs & Hpos & l1 & l2 & -> & H1 & H2).
    destruct (Z.ltb_spec best_score (mention_score reference car));
      cbn [fst snd].
    + split; [done|]. split; [lia|].
      exists (l1 ++ best :: l2), []. split; [done|]. split.
      * intros c [Hc|Hc]%elem_of_app; [specialize (H1 c Hc); lia|].
        apply elem_of_cons in Hc as [->|Hc]; [lia|].
        specialize (H2 c Hc). lia.
      * intros c Hc. by apply elem_of_nil in Hc.
    + split; [done|]. split; [done|].
      exists l1, (l2 ++ [car]). split; [by rewrite <- app_assoc|].
      split; [done|].
      intros c [Hc|Hc]%elem_of_app; [by apply H2|].
      apply list_elem_of_singleton in Hc as ->. lia.
  - intros [-> Hall].
    destruct (Z.ltb_spec 0 (mention_score reference car)); cbn [fst snd].
    + split; [done|]. split; [done|].
      exists seen, []. split; [done|]. split.
      * intros c Hc. specialize (Hall c Hc). lia.
      * intros c Hc. by apply elem_of_nil in Hc.
    + split; [done|].
      intros c [Hc|Hc]%elem_of_app; [by apply Hall|].
      apply list_elem_of_singleton in Hc as ->. lia.
Qed.

Lemma reference_fold_inv (reference : string) (cars seen : list Car.t)
    (st : option Car.t * Z) :
  reference_inv reference seen st ->
  reference_inv reference (seen ++ cars)
    (fold_left (reference_step reference) cars st).
Proof.
  revert seen st. induction cars as [|car cars IH]; intros seen st Hinv;
    cbn [fold_left].
  - by rewrite app_nil_r.
  - replace (seen ++ car :: cars) with ((seen ++ [car]) ++ cars)
      by (by rewrite <- app_assoc).
    by apply IH, reference_step_inv.
Qed.

Lemma reference_loop_inv (reference : string) (cars : list Car.t) :
  reference_inv reference cars (reference_loop reference cars).
Proof.
  apply (reference_fold_inv reference cars [] (None, 0)).
  split; [done|]. intros c Hc. by apply elem_of_nil in Hc.
Qed.

(** What a found reference car is. *)
Lemma find_reference_car_Some (db : CarDatabase) (reference : string)
    (car : Car.t) :
  find_reference_car db reference = Some car ->
  reference <> EmptyString
  /\ 4 <= mention_score reference car
  /\ exists l1 l2,
       _cars db = l1 ++ car :: l2
       /\ (forall c, c ∈ l1 ->
             mention_score reference c < mention_score reference car)
       /\ (forall c, c ∈ l2 ->
             mention_score reference c <= mention_score reference car).
Proof.
  unfold find_reference_car.
  destruct reference as [|a reference']; [done|]. cbn [pystr.truthy negb].
  set (reference := String a reference').
  pose proof (reference_loop_inv reference (_cars db)) as Hinv.
  unfold reference_inv in Hinv.
  destruct (reference_loop reference (_cars db)) as [best_match best_score].
  cbn [fst snd] in Hinv.
  destruct (Z.leb_spec 4 best_score); [|done].
  intros ->. destruct Hinv as (Hs & _ & l1 & l2 & Hcars & H1 & H2).
  split; [done|]. rewrite Hs. split; [done|]. by exists l1, l2.
Qed.

(** X20: a reference car is found by name: the car returned is a car of
    the catalog whose make or model occurs in the reference, letter case
    apart (year and trim alone never reach the required score of 4); it
    has the highest score of the catalog and is the first car with it. *)
Theorem find_reference_car_named (db : CarDatabase) (reference : string)
    (car : Car.t) :
  find_reference_car db reference = Some car ->
  names reference car
  /\ exists l1 l2,
       _cars db = l1 ++ car :: l2
       /\ (forall c, c ∈ l1 ->
             mention_score reference c < mention_score reference car)
       /\ (forall c, c ∈ l2 ->
             mention_score reference c <= mention_score reference car).
Proof.
  intros (_ & Hscore & Hrest)%find_reference_car_Some.
  split; [by apply mention_score_names|done].
Qed.

(** X21: no reference car is found exactly when the reference is empty or
    no car of the catalog reaches a score of 4. *)
Theorem find_reference_car_none_iff (db : CarDatabase) (reference : string) :
  find_reference_car db reference = None
  <-> reference = EmptyString
      \/ forall c, c ∈ _cars db -> mention_score reference c < 4.
Proof.
  split.
  - unfold find_reference_car.
    destruct reference as [|a reference']; [by left|].
    cbn [pystr.truthy negb]. set (reference := String a reference').
    pose proof (reference_loop_inv reference (_cars db)) as Hinv.
    unfold reference_inv in Hinv.
    destruct (reference_loop reference (_cars db))
      as [best_match best_score].
    cbn [fst snd] in Hinv. intros Hnone. right. intros c Hc.
    destruct best_match as [best|].
    + destruct Hinv as (Hs & Hpos & l1 & l2 & Hcars & H1 & H2).
      destruct (Z.leb_spec 4 best_score); [done|].
      rewrite Hcars in Hc.
      apply elem_of_app in Hc as [Hc|Hc]; [specialize (H1 c Hc); lia|].
      apply elem_of_cons in Hc as [->|Hc]; [lia|].
      specialize (H2 c Hc). lia.
    + destruct Hinv as [_ Hall]. specialize (Hall c Hc). lia.
  - intros Hnone.
    destruct (find_reference_car db reference) as [car|] eqn:Hfind; [|done].
    apply find_reference_car_Some in Hfind
      as (Hne & Hscore & l1 & l2 & Hcars & _).
    destruct Hnone as [->|Hall]; [done|].
    assert (Hin : car ∈ _cars db).
    { rewrite Hcars. apply elem_of_app. right. by left. }
    specialize (Hall car Hin). lia.
Qed.

Lemma filter_id_unique (cars : list Car.t) (car : Car.t) :
  NoDup (map Car.id cars) -> car ∈ cars ->
  List.filter (fun c => String.eqb (Car.id c) (Car.id car)) cars = [car].
Proof.
  induction cars as [|c cars IH]; intros Hnd Hin.
  { by apply elem_of_nil in Hin. }
  cbn [map] in Hnd. apply NoDup_cons in Hnd as [Hc Hnd].
  cbn [List.filter].
  apply elem_of_cons in Hin as [->|Hin].
  - rewrite String.eqb_refl. f_equal.
    assert (Hnone : forall l, Car.id c ∉ map Car.id l ->
              List.filter (fun c0 => String.eqb (Car.id c0) (Car.id c)) l
              = []).
    { induction l as [|x l IHl]; [done|]. cbn [map List.filter].
      intros Hx. apply not_elem_of_cons in Hx as [Hx Hl].
      destruct (String.eqb_spec (Car.id x) (Car.id c)); [congruence|].
      by apply IHl. }
    by apply Hnone.
  - destruct (String.eqb_spec (Car.id c) (Car.id car)) as [Heq|_].
    + exfalso. apply Hc. rewrite Heq.
      apply list_elem_of_In, in_map, list_elem_of_In, Hin.
    + by apply IH.
Qed.

(** X22: when the ids of the catalog are pairwise different,
    [get_car_by_id] finds exactly the cars of the catalog, each under its
    own id. *)
Theorem get_car_by_id_iff (db : CarDatabase) (id : string) (car : Car.t) :
  NoDup (map Car.id (_cars db)) ->
  get_car_by_id db id = Some car <-> car ∈ _cars db /\ Car.id car = id.
Proof.
  intros Hnd. unfold get_car_by_id. split.
  - intros Hlast. apply last_Some in Hlast as [l Hl].
    assert (Hin : car ∈ List.filter
              (fun c => String.eqb (Car.id c) id) (_cars db)).
    { rewrite Hl. apply elem_of_app. right. by left. }
    apply list_elem_of_In, filter_In in Hin as [Hin Heq].
    split; [by apply list_elem_of_In|by apply String.eqb_eq].
  - intros [Hin <-]. by rewrite filter_id_unique.
Qed.

End database_more.

Lemma find_reference_car_named_witness :
  database_aux.names "2015 Subaru WRX" Examples.wrx.
Proof.
  refine (proj1 (database_more.find_reference_car_named
    (database.mkCarDatabase [Examples.wrx] [])
    "2015 Subaru WRX" Examples.wrx _)).
  vm_compute. reflexivity.
Defined.

Lemma get_car_by_id_iff_witness :
  database.get_car_by_id
    (database.mkCarDatabase [Examples.wrx] [])
    (Car.id Examples.wrx)
  = Some Examples.wrx.
Proof.
  refine (proj2 (database_more.get_car_by_id_iff
    (database.mkCarDatabase [Examples.wrx] [])
    (Car.id Examples.wrx) Examples.wrx _) _).
  - vm_compute. apply NoDup_cons. split; [|apply NoDup_nil; exact I].
    intros H. by apply elem_of_nil in H.
  - split; [left|reflexivity].
Defined.

(** * The ranking *)

Module ranking_more.
Import ScoringEngine database ranking ranking_aux.
Local Open Scope Q_scope.

(** ** The loop over the cars *)

Lemma for_each_Ok {T U : Type} (f : T -> py.result U) (xs : list T)
    (ys : list U) :
  for_each f xs = py.Ok ys -> Forall2 (fun x y => f x = py.Ok y) xs ys.
Proof.
  revert ys. induction xs as [|x xs IH]; intros ys; cbn [for_each].
  { intros [= <-]. constructor. }
  unfold mbind, mret, result_bind, result_ret, py.bind.
  destruct (f x) as [y|e] eqn:Hx; [|done].
  destruct (for_each f xs) as [ys'|e]; [|done].
  intros [= <-]. constructor; [done|by apply IH].
Qed.

Lemma for_each_returns {T U : Type} (f : T -> py.result U) (xs : list T) :
  (forall x, x ∈ xs -> exists y, f x = py.Ok y) ->
  exists ys, for_each f xs = py.Ok ys.
Proof.
  induction xs as [|x xs IH]; intros Hall; cbn [for_each].
  { by eexists. }
  unfold mbind, mret, result_bind, result_ret, py.bind.
  destruct (Hall x) as [y ->]; [by left|].
  destruct IH as [ys ->]; [|by eexists].
  intros x' Hx'. apply Hall. by right.
Qed.

Lemma for_each_raises {T U : Type} (f : T -> py.result U) (xs : list T)
    (x : T) (e : py.exception) :
  x ∈ xs -> f x = py.Raise e ->
  for_each f xs = py.Raise py.ZeroDivisionError.
Proof.
  intros Hin Hx. induction xs as [|x' xs IH].
  { by apply elem_of_nil in Hin. }
  cbn [for_each]. unfold mbind, mret, result_bind, result_ret, py.bind.
  destruct (f x') as [y|[]] eqn:Hx'; [|done].
  apply elem_of_cons in Hin as [->|Hin]; [congruence|].
  by rewrite (IH Hin).
Qed.

(** ** The sort *)

Lemma insert_result_perm (r : MatchResult) (l : list MatchResult) :
  insert_result r l ≡ₚ r :: l.
Proof.
  induction l as [|x l IH]; cbn [insert_result]; [done|].
  destruct (py.ltb (match_score r) (match_score x)); [|done].
  rewrite IH. apply Permutation_swap.
Qed.

Lemma sort_results_perm (l : list MatchResult) : sort_results l ≡ₚ l.
Proof.
  unfold sort_results. induction l as [|r l IH]; cbn [foldr]; [done|].
  by rewrite insert_result_perm, IH.
Qed.

Lemma insert_result_descending (r : MatchResult) (l : list MatchResult) :
  descending l -> descending (insert_result r l).
Proof.
  unfold descending. induction 1 as [|x l Hl IH Hx]; cbn [insert_result].
  { repeat constructor. }
  destruct (py.ltb (match_score r) (match_score x)) eqn:Hlt.
  - apply py_facts.ltb_lt in Hlt. constructor; [done|].
    rewrite insert_result_perm. constructor; [|done].
    by apply Qlt_le_weak.
  - apply py_facts.ltb_ge in Hlt. constructor.
    + by constructor.
    + constructor; [done|].
      eapply Forall_impl; [exact Hx|]. cbv beta. intros y Hy.
      by eapply Qle_trans.
Qed.

Lemma sort_results_descending (l : list MatchResult) :
  descending (sort_results l).
Proof.
  unfold sort_results. induction l as [|r l IH]; cbn [foldr].
  - constructor.
  - by apply insert_result_descending.
Qed.

Lemma insert_result_stable (q : Q) (r : MatchResult) (l : list MatchResult) :
  List.filter (scored q) (insert_result r l) = List.filter (scored q) (r :: l).
Proof.
  induction l as [|x l IH]; cbn [insert_result]; [done|].
  destruct (py.ltb (match_score r) (match_score x)) eqn:Hlt; [|done].
  apply py_facts.ltb_lt in Hlt.
  cbn [List.filter] in *. rewrite IH.
  destruct (scored q x) eqn:Hx, (scored q r) eqn:Hr; try done.
  unfold scored in *. apply Qeq_bool_eq in Hx, Hr.
  rewrite Hx, Hr in Hlt. by apply Qlt_irrefl in Hlt.
Qed.

Lemma sort_results_stable (q : Q) (l : list MatchResult) :
  List.filter (scored q) (sort_results l) = List.filter (scored q) l.
Proof.
  unfold sort_results. induction l as [|r l IH]; cbn [foldr]; [done|].
  rewrite insert_result_stable. cbn [List.filter]. by rewrite IH.
Qed.

Lemma filter_sublist {T : Type} (p : T -> bool) (l : list T) :
  List.filter p l `sublist_of` l.
Proof.
  induction l as [|x l IH]; cbn [List.filter]; [done|].
  destruct (p x); by constructor.
Qed.

Lemma map_sublist {T U : Type} (f : T -> U) (l1 l2 : list T) :
  l1 `sublist_of` l2 -> map f l1 `sublist_of` map f l2.
Proof. induction 1; cbn [map]; by constructor. Qed.

Section Ranking.
Variable round1 : Q -> Q.
Variable db : CarDatabase.
Variable intent : UserIntent.t.

Lemma score_one_Ok (reference_car : option Car.t) (c : Car.t)
    (r : MatchResult) :
  score_one round1 db intent reference_car c = py.Ok r ->
  car r = c
  /\ listings r = get_listings_for_car db (Car.id c)
  /\ exists score,
       _score_car c intent reference_car
       = py.Ok (score, match_reasons r, tradeoffs r)
       /\ match_score r = round1 score.
Proof.
  unfold score_one, mbind, mret, result_bind, result_ret, py.bind.
  destruct (_score_car c intent reference_car)
    as [[[score reasons] trade]|e]; [|done].
  intros [= <-]. cbn. split_and!; [done|done|]. by exists score.
Qed.

Lemma score_all_cars_Ok (results : list MatchResult) :
  score_all_cars round1 db intent = py.Ok results ->
  exists unsorted,
    results = sort_results unsorted
    /\ Forall2 (fun c r =>
                  score_one round1 db intent (reference_of db intent) c
                  = py.Ok r) (_cars db) unsorted.
Proof.
  unfold score_all_cars, get_all_cars. cbv zeta.
  unfold mbind, mret, result_bind, result_ret, py.bind.
  destruct (for_each _ _) as [unsorted|e] eqn:Hloop; [|done].
  intros [= <-]. exists unsorted. split; [done|].
  by apply for_each_Ok.
Qed.

Lemma unsorted_cars (reference_car : option Car.t) (cars : list Car.t)
    (unsorted : list MatchResult) :
  Forall2 (fun c r =>
             score_one round1 db intent reference_car c = py.Ok r)
    cars unsorted ->
  map car unsorted = cars.
Proof.
  induction 1 as [|c r cars unsorted Hr _ IH]; [done|].
  cbn [map]. apply score_one_Ok in Hr as [-> _]. by rewrite IH.
Qed.

(** X23: the ranking has one result per car of the catalog, each with
    the reasons and tradeoffs of [_score_car], its rounded score and the
    listings of the car, and the results are in descending order of
    score. *)
Theorem score_all_cars_ranking (results : list MatchResult) :
  score_all_cars round1 db intent = py.Ok results ->
  map car results ≡ₚ _cars db
  /\ descending results
  /\ Forall (fun r =>
               listings r = get_listings_for_car db (Car.id (car r))
               /\ exists score,
                    _score_car (car r) intent (reference_of db intent)
                    = py.Ok (score, match_reasons r, tradeoffs r)
                    /\ match_score r = round1 score) results.
Proof.
  intros (unsorted & -> & Hall)%score_all_cars_Ok. split_and!.
  - rewrite sort_results_perm. by erewrite unsorted_cars.
  - apply sort_results_descending.
  - rewrite sort_results_perm. clear -Hall.
    induction Hall as [|c r cars unsorted Hr _ IH]; constructor; [|done].
    apply score_one_Ok in Hr as (-> & Hl & Hs). done.
Qed.

(** X24: the sort is stable: the cars that share a rounded score come in
    the order of the catalog. *)
Theorem score_all_cars_stable (results : list MatchResult) (q : Q) :
  score_all_cars round1 db intent = py.Ok results ->
  map car (List.filter (scored q) results) `sublist_of` _cars db.
Proof.
  intros (unsorted & -> & Hall)%score_all_cars_Ok.
  rewrite sort_results_stable.
  rewrite <- (unsorted_cars _ _ _ Hall).
  apply map_sublist, filter_sublist.
Qed.

Lemma reference_of_elem (reference : Car.t) :
  reference_of db intent = Some reference -> reference ∈ _cars db.
Proof.
  unfold reference_of.
  destruct (UserIntent.reference_car intent) as [s|]; [|done].
  destruct (pystr.truthy s); [|done].
  intros (_ & _ & l1 & l2 & -> & _)%database_more.find_reference_car_Some.
  apply elem_of_app. right. by left.
Qed.

(** X25: the ranking is returned for every intent when no car of the
    catalog has a horsepower or an average price of 0. *)
Theorem score_all_cars_returns :
  (forall c, c ∈ _cars db ->
     Car.power_hp c <> 0%Z /\ Car.avg_price c <> 0%Z) ->
  exists results,
    score_all_cars round1 db intent = py.Ok results
    /\ length results = length (_cars db).
Proof.
  intros Hcat.
  destruct (for_each_returns
              (score_one round1 db intent (reference_of db intent))
              (_cars db)) as [unsorted Hloop].
  { intros c _. unfold score_one.
    destruct (scoring_facts.score_car_returns c intent
                (reference_of db intent)) as [[[score reasons] trade] ->].
    - intros reference Href. by apply Hcat, reference_of_elem.
    - by eexists. }
  exists (sort_results unsorted). split.
  - unfold score_all_cars, get_all_cars. cbv zeta.
    unfold mbind, mret, result_bind, result_ret, py.bind.
    by rewrite Hloop.
  - rewrite sort_results_perm.
    apply for_each_Ok, Forall2_length in Hloop. done.
Qed.

(** X26: one car of the catalog with a horsepower of 0 can make the
    whole ranking fail: when the reference car that is looked up has a
    horsepower of 0 and the catalog has a car with another id, the
    ranking raises [ZeroDivisionError]. *)
Theorem score_all_cars_raises (reference c : Car.t) :
  reference_of db intent = Some reference ->
  Car.power_hp reference = 0%Z ->
  c ∈ _cars db -> Car.id c <> Car.id reference ->
  score_all_cars round1 db intent = py.Raise py.ZeroDivisionError.
Proof.
  intros Href Hhp Hc Hid.
  unfold score_all_cars, get_all_cars. cbv zeta.
  unfold mbind, mret, result_bind, result_ret.
  rewrite (for_each_raises _ _ c py.ZeroDivisionError Hc); [done|].
  unfold score_one, mbind, mret, result_bind, result_ret.
  rewrite Href, scoring_facts.score_car_eq, scoring_facts.factor_scores_eq.
  destruct (scoring_facts.price_score_total c intent)
    as (price & pr & pt & -> & _).
  cbv zeta.
  apply String.eqb_neq in Hid. rewrite Hid. cbn [negb].
  by rewrite scoring_facts.score_reference_raises.
Qed.

(** X27: the endpoint keeps the best ten: [top_matches] has at most ten
    results, they are the head of the ranking, and none of them has a
    lower score than a result that is left out. *)
Theorem top_matches_best (top : list MatchResult) :
  top_matches round1 db intent = py.Ok top ->
  (length top <= 10)%nat
  /\ exists rest,
       score_all_cars round1 db intent = py.Ok (top ++ rest)
       /\ forall r r', r ∈ top -> r' ∈ rest ->
            match_score r' <= match_score r.
Proof.
  unfold top_matches, mbind, mret, result_bind, result_ret, py.bind.
  destruct (score_all_cars round1 db intent) as [matches|e] eqn:Hall;
    [|done].
  intros [= <-]. split; [rewrite length_take; lia|].
  exists (drop 10 matches). rewrite take_drop. split; [done|].
  apply score_all_cars_Ok in Hall as (unsorted & -> & _).
  pose proof (sort_results_descending unsorted) as Hdesc.
  unfold descending in Hdesc.
  rewrite <- (take_drop 10 (sort_results unsorted)) in Hdesc.
  revert Hdesc. generalize (take 10 (sort_results unsorted)).
  generalize (drop 10 (sort_results unsorted)).
  intros rest top Hdesc r r' Hr Hr'.
  induction top as [|x top IH]; [by apply elem_of_nil in Hr|].
  cbn [app] in Hdesc. apply StronglySorted_inv in Hdesc as [Hdesc Hx].
  apply elem_of_cons in Hr as [->|Hr]; [|by apply IH].
  rewrite Forall_forall in Hx. apply Hx.
  apply elem_of_app. by right.
Qed.
End Ranking.

End ranking_more.

Lemma score_all_cars_ranking_witness :
  ranking_aux.descending
    (ranking_aux.returned
       (ranking.score_all_cars ranking_aux.round_tenth ranking_aux.sample_db
          Examples.keen_intent)).
Proof.
  refine (proj1 (proj2 (ranking_more.score_all_cars_ranking
    ranking_aux.round_tenth ranking_aux.sample_db Examples.keen_intent
    (ranking_aux.returned
       (ranking.score_all_cars ranking_aux.round_tenth ranking_aux.sample_db
          Examples.keen_intent)) _))).
  vm_compute. reflexivity.
Defined.

(** In [tied_db] two cars share the score 122, and the ranking lists them
    in the order of the catalog, the twin first. *)
Lemma score_all_cars_tied :
  map ranking.car
    (List.filter (ranking_aux.scored 122%Q)
       (ranking_aux.returned
          (ranking.score_all_cars ranking_aux.round_tenth
             ranking_aux.tied_db Examples.keen_intent)))
  = [ranking_aux.wrx_twin; Examples.wrx].
Proof. vm_compute. reflexivity. Qed.

Lemma score_all_cars_stable_witness :
  map ranking.car
    (List.filter (ranking_aux.scored 122%Q)
       (ranking_aux.returned
          (ranking.score_all_cars ranking_aux.round_tenth
             ranking_aux.tied_db Examples.keen_intent)))
  `sublist_of` database._cars ranking_aux.tied_db.
Proof.
  refine (ranking_more.score_all_cars_stable
    ranking_aux.round_tenth ranking_aux.tied_db Examples.keen_intent
    (ranking_aux.returned
       (ranking.score_all_cars ranking_aux.round_tenth ranking_aux.tied_db
          Examples.keen_intent)) 122%Q _).
  vm_compute. reflexivity.
Defined.

Lemma score_all_cars_returns_witness :
  exists results,
    ranking.score_all_cars ranking_aux.round_tenth ranking_aux.sample_db
      Examples.keen_intent = py.Ok results
    /\ length results = length (database._cars ranking_aux.sample_db).
Proof.
  refine (ranking_more.score_all_cars_returns
    ranking_aux.round_tenth ranking_aux.sample_db Examples.keen_intent _).
  intros c Hc. vm_compute in Hc.
  repeat (apply elem_of_cons in Hc as [->|Hc]; [split; discriminate|]).
  by apply elem_of_nil in Hc.
Defined.

Lemma score_all_cars_raises_witness :
  ranking.score_all_cars ranking_aux.round_tenth ranking_aux.faulty_db
    ranking_aux.like_cart
  = py.Raise py.ZeroDivisionError.
Proof.
  refine (ranking_more.score_all_cars_raises
    ranking_aux.round_tenth ranking_aux.faulty_db ranking_aux.like_cart
    Examples.no_power Examples.wrx _ _ _ _).
  - vm_compute. reflexivity.
  - reflexivity.
  - left.
  - discriminate.
Defined.

(** In [twelve_db] the ranking has twelve results and the answer keeps
    ten of them. *)
Lemma top_matches_truncates :
  length (ranking_aux.returned
            (ranking.score_all_cars ranking_aux.round_tenth
               ranking_aux.twelve_db Examples.keen_intent)) = 12%nat
  /\ length (ranking_aux.returned
               (ranking.top_matches ranking_aux.round_tenth
                  ranking_aux.twelve_db Examples.keen_intent)) = 10%nat.
Proof. split; vm_compute; reflexivity. Qed.

Lemma top_matches_best_witness :
  (length
     (ranking_aux.returned
        (ranking.top_matches ranking_aux.round_tenth ranking_aux.twelve_db
           Examples.keen_intent)) <= 10)%nat
  /\ exists rest,
       ranking.score_all_cars ranking_aux.round_tenth ranking_aux.twelve_db
         Examples.keen_intent
       = py.Ok (ranking_aux.returned
                  (ranking.top_matches ranking_aux.round_tenth
                     ranking_aux.twelve_db Examples.keen_intent) ++ rest)
       /\ forall r r',
            r ∈ ranking_aux.returned
                  (ranking.top_matches ranking_aux.round_tenth
                     ranking_aux.twelve_db Examples.keen_intent) ->
            r' ∈ rest ->
            (ranking.match_score r' <= ranking.match_score r)%Q.
Proof.
  refine (ranking_more.top_matches_best
    ranking_aux.round_tenth ranking_aux.twelve_db Examples.keen_intent
    (ranking_aux.returned
       (ranking.top_matches ranking_aux.round_tenth ranking_aux.twelve_db
          Examples.keen_intent)) _).
  vm_compute. reflexivity.
Defined.

Lemma find_reference_car_none_iff_witness :
  database.find_reference_car ranking_aux.sample_db "a quick Subaru" = None.
Proof.
  refine (proj2 (database_more.find_reference_car_none_iff
    ranking_aux.sample_db "a quick Subaru") _).
  right. intros c Hc. vm_compute in Hc.
  repeat (apply elem_of_cons in Hc as [->|Hc]; [vm_compute; reflexivity|]).
  by apply elem_of_nil in Hc.
Defined.

(** * Refinement of an intent *)

Module intent_more.
Import database IntentEngine intent_aux.
Local Open Scope Q_scope.

Lemma in_unit_iff (q : Q) : in_unit q = true <-> 0 <= q <= 1.
Proof.
  unfold in_unit. rewrite andb_true_iff. split.
  - intros [H0%py_facts.leb_le H1%py_facts.leb_le]. done.
  - intros [H0 H1]. split.
    + destruct (py.leb 0 q) eqn:E; [done|].
      apply py_facts.leb_gt in E. lra.
    + destruct (py.leb q 1) eqn:E; [done|].
      apply py_facts.leb_gt in E. lra.
Qed.

Lemma min_one_unit (q d : Q) :
  0 <= q <= 1 -> 0 <= d ->
  0 <= min_one (q + d) <= 1 /\ q <= min_one (q + d).
Proof.
  intros [H0 H1] Hd. unfold min_one.
  destruct (py.ltb (q + d) 1) eqn:E.
  - apply py_facts.ltb_lt in E. lra.
  - lra.
Qed.

Lemma append_new_prefix (tag : string) (tags : list string) :
  tags `prefix_of` append_new tag tags.
Proof.
  unfold append_new. destruct (existsb _ tags); [done|].
  by exists [tag].
Qed.

Lemma append_new_NoDup (tag : string) (tags : list string) :
  NoDup tags -> NoDup (append_new tag tags).
Proof.
  intros Hnd. unfold append_new.
  destruct (existsb (String.eqb tag) tags) eqn:E; [done|].
  apply NoDup_app. split; [done|]. split.
  - intros x Hx Hin. apply list_elem_of_singleton in Hin as ->.
    assert (Hex : existsb (String.eqb tag) tags = true); [|congruence].
    apply existsb_exists. exists tag.
    split; [by apply list_elem_of_In|apply String.eqb_refl].
  - apply NoDup_singleton.
Qed.

Ltac refinement_cases :=
  unfold apply_refinement; cbv beta zeta;
  repeat match goal with
         | |- context [if ?b then _ else _] => destruct b eqn:?
         | |- context [match UserIntent.budget_max ?i with _ => _ end] =>
             destruct (UserIntent.budget_max i) eqn:?
         | |- context [match UserIntent.body_style ?i with _ => _ end] =>
             destruct (UserIntent.body_style i) eqn:?
         end.

(** What every rule of the chain keeps. *)
Lemma apply_refinement_keeps (intent : UserIntent.t) (refinement : string) :
  validates intent = true ->
  validates (apply_refinement intent refinement) = true
  /\ same_frame intent (apply_refinement intent refinement)
  /\ grows intent (apply_refinement intent refinement)
  /\ (NoDup (UserIntent.emotional_tags intent) ->
      NoDup (UserIntent.emotional_tags (apply_refinement intent refinement)))
  /\ (NoDup (UserIntent.usage intent) ->
      NoDup (UserIntent.usage (apply_refinement intent refinement))).
Proof.
  unfold validates. rewrite !andb_true_iff, !in_unit_iff.
  intros [[Hp Hr] Hc].
  pose proof (min_one_unit _ 0.2 Hp ltac:(lra)) as Hp1.
  pose proof (min_one_unit _ 0.25 Hp ltac:(lra)) as Hp2.
  pose proof (min_one_unit _ 0.25 Hr ltac:(lra)) as Hr1.
  pose proof (min_one_unit _ 0.2 Hc ltac:(lra)) as Hc1.
  pose proof (min_one_unit _ 0.25 Hc ltac:(lra)) as Hc2.
  refinement_cases;
    unfold same_frame, grows, set_budget_max, set_performance_priority,
      set_reliability_priority, set_comfort_priority, set_drivetrain,
      set_body_style, set_emotional_tags, set_usage;
    cbn [UserIntent.budget_min UserIntent.budget_max
         UserIntent.performance_priority UserIntent.reliability_priority
         UserIntent.comfort_priority UserIntent.drivetrain
         UserIntent.body_style UserIntent.emotional_tags
         UserIntent.negative_tags UserIntent.reference_car
         UserIntent.usage UserIntent.raw_query];
    rewrite ?andb_true_iff, ?in_unit_iff;
    (split_and!;
     try done; try lra; try tauto;
     try apply append_new_prefix; try apply append_new_NoDup).
Qed.

Lemma refine_heuristic_Some (intent : UserIntent.t) (refinement : string) :
  validates intent = true ->
  _refine_heuristic intent refinement
  = Some (apply_refinement intent (pystr.lower refinement)).
Proof. intros Hv. unfold _refine_heuristic. by rewrite Hv. Qed.

(** X28: refinement keeps an intent valid, so a chain of refinements never
    fails: from an intent whose priorities are in [[0,1]], every list of
    refinements yields an intent whose priorities are in [[0,1]]. *)
Theorem refine_all_validates (intent : UserIntent.t)
    (refinements : list string) :
  validates intent = true ->
  exists final,
    refine_all intent refinements = Some final /\ validates final = true.
Proof.
  revert intent. induction refinements as [|r rs IH]; intros intent Hv;
    cbn [refine_all].
  { by exists intent. }
  rewrite (refine_heuristic_Some intent r Hv).
  apply IH. by apply apply_refinement_keeps.
Qed.

Lemma same_frame_trans (i1 i2 i3 : UserIntent.t) :
  same_frame i1 i2 -> same_frame i2 i3 -> same_frame i1 i3.
Proof.
  unfold same_frame. intros (A1 & A2 & A3 & A4) (B1 & B2 & B3 & B4).
  split_and!; congruence.
Qed.

Lemma grows_trans (i1 i2 i3 : UserIntent.t) :
  grows i1 i2 -> grows i2 i3 -> grows i1 i3.
Proof.
  unfold grows.
  intros (A1 & A2 & A3 & A4 & A5) (B1 & B2 & B3 & B4 & B5).
  split_and!; try lra; by etrans.
Qed.

(** X29: what refinement never does: it leaves [budget_min],
    [negative_tags], [reference_car] and [raw_query] as they are, lowers
    no priority, removes or reorders no tag of [emotional_tags] and
    [usage], and adds no tag twice. *)
Theorem refine_all_frame (intent final : UserIntent.t)
    (refinements : list string) :
  refine_all intent refinements = Some final ->
  same_frame intent final
  /\ grows intent final
  /\ (NoDup (UserIntent.emotional_tags intent) ->
      NoDup (UserIntent.emotional_tags final))
  /\ (NoDup (UserIntent.usage intent) -> NoDup (UserIntent.usage final)).
Proof.
  revert intent. induction refinements as [|r rs IH]; intros intent;
    cbn [refine_all].
  { intros [= <-]. unfold same_frame, grows. split_and!; try done; lra. }
  unfold _refine_heuristic.
  destruct (validates intent) eqn:Hv; [|done].
  intros (F & G & N1 & N2)%IH.
  destruct (apply_refinement_keeps intent (pystr.lower r) Hv)
    as (_ & F' & G' & N1' & N2').
  split_and!.
  - by eapply same_frame_trans.
  - by eapply grows_trans.
  - auto.
  - auto.
Qed.

(** X30: "cheaper" lowers the budget and nothing else: with a positive
    [budget_max] of [b] below 2^50, where the product [b * 0.8] of the
    two floating-point numbers has the integer part of the exact product,
    a refinement that mentions "cheaper" gives the intent with
    [budget_max] at the integer part of [0.8 * b], which is below [b],
    and every other field as it was. *)
Theorem refine_cheaper (intent : UserIntent.t) (refinement : string)
    (b : Z) :
  validates intent = true ->
  contains "cheaper" (pystr.lower refinement) = true ->
  UserIntent.budget_max intent = Some b -> (0 < b < 2 ^ 50)%Z ->
  exists b',
    _refine_heuristic intent refinement
    = Some (set_budget_max intent (Some b'))
    /\ (5 * b' <= 4 * b < 5 * b' + 5)%Z /\ (0 <= b' < b)%Z.
Proof.
  intros Hv Hch Hb [Hpos _]. rewrite (refine_heuristic_Some _ _ Hv).
  unfold apply_refinement. cbv beta zeta. rewrite Hch, Hb. cbn [orb].
  destruct (Z.eqb_spec b 0) as [->|_]; [lia|]. cbn [negb].
  exists (int_of (inject_Z b * 0.8)). split; [done|].
  unfold int_of. cbn [Qnum Qden Qmult inject_Z Pos.mul].
  change (Z.pos (1 * 10)) with 10%Z.
  pose proof (Z.quot_rem (b * 8) 10 ltac:(lia)) as Hqr.
  pose proof (Z.rem_bound_pos (b * 8) 10 ltac:(lia) ltac:(lia)) as Hrem.
  assert (Hrem2 : exists k, (Z.rem (b * 8) 10 = 2 * k)%Z).
  { exists (b * 4 - 5 * Z.quot (b * 8) 10)%Z. lia. }
  destruct Hrem2 as [k Hk]. lia.
Qed.

End intent_more.

Lemma refine_all_validates_witness :
  exists final,
    IntentEngine.refine_all Examples.keen_intent ["Sportier"; "cheaper"]%string
    = Some final
    /\ IntentEngine.validates final = true.
Proof.
  refine (intent_more.refine_all_validates Examples.keen_intent
            ["Sportier"; "cheaper"]%string _).
  vm_compute. reflexivity.
Defined.

Lemma refine_all_frame_witness :
  intent_aux.same_frame Examples.keen_intent
    (IntentEngine.apply_refinement Examples.keen_intent "snow"%string).
Proof.
  refine (proj1 (intent_more.refine_all_frame Examples.keen_intent
    (IntentEngine.apply_refinement Examples.keen_intent "snow"%string)
    ["Snow"]%string _)).
  vm_compute. reflexivity.
Defined.

Lemma refine_cheaper_witness :
  exists b',
    IntentEngine._refine_heuristic Examples.keen_intent "Cheaper, please"%string
    = Some (IntentEngine.set_budget_max Examples.keen_intent (Some b'))
    /\ (5 * b' <= 4 * 40000 < 5 * b' + 5)%Z /\ (0 <= b' < 40000)%Z.
Proof.
  refine (intent_more.refine_cheaper Examples.keen_intent
            "Cheaper, please"%string 40000 _ _ _ _).
  - vm_compute. reflexivity.
  - vm_compute. reflexivity.
  - reflexivity.
  - split; [reflexivity|reflexivity].
Defined.

(** * The reference car among the cars scored *)

Section ReferenceClaims.
Import ScoringEngine scoring_aux weights_aux reference_aux Examples.
Local Open Scope Q_scope.









End ReferenceClaims.

